(** * tpf: the RabbitMQ client layer (src/rabbitmq)

    A shallow embedding of [types.py], [client.py], [connection_manager.py],
    [setup_helper.py] and [client_manager.py].

    The Python objects are records; methods are functions in a state-and-
    exception monad over one [State] that holds what the code can observe or
    change: the calls made into pika, logging and asyncio (the [trace]), the
    replies the broker still owes (the [pending] callbacks), the class-level
    attributes of [ConnectionManager] and [DefaultParameters], and the
    [SetupHelper] instance.  Closures handed to pika are named by the
    constructors of [Callback]; [invoke] runs the body of each. *)

From stdpp Require Import base option list strings.
From Stdlib Require Import ZArith.
From Stdlib.Strings Require Import Byte.
From Stdlib Require Import DecimalString.

Set Warnings "-register-all".

Open Scope Z_scope.
Open Scope string_scope.
Open Scope list_scope.

(** ** Python values shared by all modules *)

(** The exception classes the code raises or can meet.  The first four derive
    from [BaseException] only; all others derive from [Exception]. *)
Inductive PyClass : Type :=
| SystemExit
| KeyboardInterrupt
| GeneratorExit
| CancelledError
| AttributeError
| RuntimeError
| TypeError
| ValueError
| UnicodeDecodeError
| JSONDecodeError
| NoOptionError
| InvalidFormatError
| MissingPublisherAddressError
| ApplicationError (name : string).

Global Instance PyClass_eq_dec : EqDecision PyClass.
Proof. solve_decision. Defined.

(** Modelled from the spec: errors.py, which declares [InvalidFormatError]
    and [MissingPublisherAddressError], is not among the sources.  The spec
    has the first "routed through the same handler chain as user-handler
    exceptions" and the second a configuration error "surfaced to the
    immediate caller", so both are ordinary [Exception] subclasses.  For the
    other classes this is Python's [issubclass(c, Exception)]. *)
Definition is_Exception (c : PyClass) : bool :=
  match c with
  | SystemExit | KeyboardInterrupt | GeneratorExit | CancelledError => false
  | _ => true
  end.

(** An exception object: its class, its message and, for [raise ... from e],
    its cause. *)
Inductive PyException : Type :=
| Exc (cls : PyClass) (message : string) (cause : option PyException).

Definition exc_class (e : PyException) : PyClass :=
  match e with Exc c _ _ => c end.

(** [isinstance(e, c)] for the leaf classes above. *)
Definition isinstance (e : PyException) (c : PyClass) : bool :=
  bool_decide (exc_class e = c).

(** How a call ends. *)
Inductive Result (A : Type) : Type :=
| Return (a : A)
| Raise (e : PyException).
Arguments Return {A} a.
Arguments Raise {A} e.

Definition raised {A} (r : Result A) : option PyException :=
  match r with Return _ => None | Raise e => Some e end.

(** The attribute access [None.attr]. *)
Definition NoneType_has_no_attribute (attr : string) : PyException :=
  Exc AttributeError ("'NoneType' object has no attribute '" +:+ attr +:+ "'") None.

(** JSON documents, as [json.loads] builds them and [json.dumps] prints
    them; numbers keep their literal.  A [dict] the application builds can
    also hold a Python value that is no JSON document (a [set], [bytes], a
    [datetime]): [JOther], with the name of its type. *)
Inductive Json : Type :=
| JNull
| JBool (b : bool)
| JNumber (literal : string)
| JString (s : string)
| JArray (items : list Json)
| JObject (members : list (string * Json))
| JOther (type_name : string).

(** A message as the application sees it ([dict | str]): a Python [str] is
    [JString], a [dict] is [JObject]. *)
Definition Message : Type := Json.

Definition bytes : Type := list byte.

(** ** types.py *)

Inductive ExchangeType : Type := direct | fanout | headers | topic.

Definition DEFAULT_EXCHANGE : string := EmptyString.
Definition DEFAULT_EXCHANGE_TYPE : ExchangeType := direct.

Module Address.
Record t : Type := mk {
  queue : option string;
  routing_key : option string;
  exchange : string;
  exchange_type : ExchangeType;
}.

(** [Address(queue=q)]: the dataclass defaults. *)
Definition default : t :=
  {| queue := None; routing_key := None;
     exchange := DEFAULT_EXCHANGE; exchange_type := DEFAULT_EXCHANGE_TYPE |}.

Definition set_routing_key (v : option string) (self : t) : t :=
  {| queue := queue self; routing_key := v;
     exchange := exchange self; exchange_type := exchange_type self |}.
End Address.

(** [Address.check_attributes]: raises when [queue is None]; otherwise the
    address object is left with its routing key filled in.  The returned
    address is the object after the call. *)
Definition check_attributes (self : Address.t) : Result Address.t :=
  match Address.queue self with
  | None => Raise (Exc AttributeError "Missing `queue` attribute" None)
  | Some _ =>
      match Address.routing_key self with
      | None => Return (Address.set_routing_key (Address.queue self) self)
      | Some _ => Return self
      end
  end.

Definition is_default_exchange (self : Address.t) : bool :=
  bool_decide (Address.exchange self = EmptyString).

(** [pika.spec.Basic.Deliver] and [pika.spec.BasicProperties], with the
    fields this code reads or writes. *)
Record Deliver : Type := {
  deliver_consumer_tag : nat;
  delivery_tag : Z;
  redelivered : bool;
  deliver_exchange : string;
  deliver_routing_key : string;
}.

Record BasicProperties : Type := {
  app_id : option string;
  content_type : option string;
}.

Record MessageMetadata : Type := {
  basic_deliver : Deliver;
  properties : BasicProperties;
}.

(** ** Object references

    pika's connection and channel objects are named by their index in the
    [connections] and [channels] tables of the [State]; the application's
    callables by a [HandlerRef], which [UserCode] gives a behaviour; the
    consumer tags pika makes up by a counter. *)
Definition ConnRef : Type := nat.
Definition ChanRef : Type := nat.
Definition HandlerRef : Type := nat.
Definition ConsumerTag : Type := nat.

(** ** client.py: the [Client] dataclass *)

Module Client.
Record t : Type := mk {
  subscriber_address : option Address.t;
  publisher_address : option Address.t;
  on_message : option HandlerRef;
  on_message_error : option HandlerRef;
  parse_json : bool;
  prefetch_count : Z;
  _channel : option ChanRef;
  consumer_tag : option string;
  _publish_properties : option BasicProperties;
}.

(** [Client()]: every field at its declared default. *)
Definition default : t :=
  {| subscriber_address := None; publisher_address := None;
     on_message := None; on_message_error := None;
     parse_json := true; prefetch_count := 1;
     _channel := None; consumer_tag := None; _publish_properties := None |}.

Definition with_channel (v : option ChanRef) (self : t) : t :=
  {| subscriber_address := subscriber_address self;
     publisher_address := publisher_address self;
     on_message := on_message self; on_message_error := on_message_error self;
     parse_json := parse_json self; prefetch_count := prefetch_count self;
     _channel := v; consumer_tag := consumer_tag self;
     _publish_properties := _publish_properties self |}.

Definition with_publish_properties (v : option BasicProperties) (self : t) : t :=
  {| subscriber_address := subscriber_address self;
     publisher_address := publisher_address self;
     on_message := on_message self; on_message_error := on_message_error self;
     parse_json := parse_json self; prefetch_count := prefetch_count self;
     _channel := _channel self; consumer_tag := consumer_tag self;
     _publish_properties := v |}.
End Client.

(** What a call of the application's message handler does: it returns a
    plain value, raises, or returns an awaitable whose [await] completes or
    raises. *)
Inductive Outcome : Type :=
| Completes
| Raises (e : PyException).

Inductive HandlerResult : Type :=
| Plain (o : Outcome)
| Awaitable (o : Outcome).

(** The application's callables. *)
Class UserCode : Type := {
  call_on_message : HandlerRef -> Message -> MessageMetadata -> HandlerResult;
  call_on_message_error :
    HandlerRef -> Client.t -> PyException -> MessageMetadata -> Outcome;
}.

(** The libraries and the settings file, which are not part of this code:
    [json] ([json.dumps] prints a JSON document and raises [TypeError] on a
    value that is none; [json.loads] raises [JSONDecodeError] on a text that
    is none), the [utf-8] codec and the [AppSettings] getters (a getter
    raises when the key has no value and no default was given). *)
Class Externals : Type := {
  json_dumps : Json -> Result string;
  json_loads : string -> Result Json;
  decode_utf8 : bytes -> Result string;
  AppSettings_get_str : string -> option string -> Result string;
  AppSettings_get_int : string -> option Z -> Result Z;
}.

(** ** setup_helper.py: the data the callbacks close over *)

Record ClientConfigContainer : Type := {
  address : option Address.t;
  client : Client.t;
  is_subscriber : bool;
}.

(** The callables this code hands to pika.  Each names one closure or bound
    method of [SetupHelper]. *)
Inductive Callback : Type :=
| setup_callback                        (* the [callback] local to [setup] *)
| _setup_channel_callback               (* the [callback] local to [_setup_channel] *)
| then_setup_queue (data : ClientConfigContainer)
| then_setup_routing_key (data : ClientConfigContainer)
| _setup_routing_key_callback (data : ClientConfigContainer)
| then_setup_message_callback (data : ClientConfigContainer)
| close_channel_if_all_clients_stopped.

(** What pika passes to a callback. *)
Inductive CallbackArg : Type :=
| the_connection (c : ConnRef)
| the_channel (ch : ChanRef)
| method_frame.

(** ** connection_manager.py: the class attributes *)

Record PlainCredentials : Type := {
  username : string;
  password : string;
}.

Record ConnectionParameters : Type := {
  host : string;
  port : Z;
  credentials : PlainCredentials;
  virtual_host : string;
}.

Module ConnectionManager.
Record t : Type := mk {
  __connection : option ConnRef;
  __channel : option ChanRef;
  connection_parameters : option ConnectionParameters;
}.

Definition initial : t :=
  {| __connection := None; __channel := None; connection_parameters := None |}.
End ConnectionManager.

(** ** setup_helper.py: the [SetupHelper] instance *)

Module SetupHelper.
Record t : Type := mk {
  clients : list Client.t;
  _connection : option ConnRef;
  _channel : option ChanRef;
  _consumer_tags : list ConsumerTag;
  _consumer_tags_closed : nat;
}.

(** [SetupHelper(clients)]. *)
Definition init (clients : list Client.t) : t :=
  {| clients := clients; _connection := None; _channel := None;
     _consumer_tags := []; _consumer_tags_closed := 0 |}.
End SetupHelper.

Module ClientManager.
Record t : Type := mk {
  _connection : option ConnRef;
}.
End ClientManager.

(** ** The world outside: pika, logging, asyncio *)

Inductive ChannelMethod : Type :=
| exchange_declare (exchange : string) (exchange_type : ExchangeType)
| queue_declare (queue : option string)
| queue_bind (queue : option string) (exchange : string)
    (routing_key : option string)
| basic_qos (prefetch_count : Z)
| basic_consume (queue : option string) (consumer_tag : ConsumerTag)
| basic_ack (delivery_tag : Z)
| basic_cancel (consumer_tag : ConsumerTag)
| basic_publish (exchange : string) (routing_key : option string)
    (body : string) (properties : BasicProperties)
| channel_close.

(** The logging calls of the code, one constructor per call site, with the
    arguments of the format string. *)
Inductive LogRecord : Type :=
| Processing_message (message_id : Z) (queue : option string)
| Ignoring_message (message_id : Z) (queue : option string)
| Couldnt_decode_string_as_JSON (message : string)
| Uncaught_error_while_processing_message (e : PyException) (body : bytes)
| traceback_format_exc
| Publishing_message_at (queue : option string)
| Closing_RabbitMQ_channel_and_connection
| Connection_open_failed (err : string).

(** The coroutine [task_wrapper()] made by [on_message_wrapper]: it closes
    over the client, the body and the metadata. *)
Record Task : Type := {
  task_self : Client.t;
  task_body : bytes;
  task_metadata : MessageMetadata;
}.

(** Every call that leaves this code, in the order it is made. *)
Inductive Event : Type :=
| logging_debug (r : LogRecord)
| logging_error (r : LogRecord)
| new_event_loop
| set_event_loop
| AsyncioConnection (c : ConnRef) (parameters : ConnectionParameters)
    (on_open_callback : option Callback)
| connection_channel (c : ConnRef) (ch : ChanRef)
    (on_open_callback : option Callback)
| channel (ch : ChanRef) (m : ChannelMethod)
| connection_close (c : ConnRef)
| ioloop_run_forever (c : ConnRef)
| ioloop_stop (c : ConnRef)
| create_task (t : Task)
| on_message_call (h : HandlerRef) (message : Message)
    (metadata : MessageMetadata)
| on_message_error_call (h : HandlerRef) (self : Client.t) (e : PyException)
    (metadata : MessageMetadata).

(** A reply the broker owes, and the callback pika will call with it. *)
Inductive Pending : Type :=
| connection_opening (c : ConnRef) (on_open_callback : option Callback)
| channel_opening (ch : ChanRef) (on_open_callback : option Callback)
| method_reply (ch : ChanRef) (m : ChannelMethod) (callback : Callback).

Inductive Status : Type := opening | opened | closing | closed.

Global Instance Status_eq_dec : EqDecision Status.
Proof. solve_decision. Defined.

Record State : Type := {
  trace : list Event;
  connections : list Status;
  channels : list Status;
  pending : list Pending;
  (* the [acknowledge_and_forward] closures given to [basic_consume] *)
  consumers : list (ConsumerTag * ClientConfigContainer);
  tasks : list Task;
  loop_running : bool;
  next_consumer_tag : nat;
  (* class attributes *)
  manager : ConnectionManager.t;
  ON_MESSAGE_ERROR : option HandlerRef;
  (* instances *)
  helper : SetupHelper.t;
  client_manager : ClientManager.t;
}.

(** The process before [ClientManager.start()]: nothing connected, the
    registered clients in the helper. *)
Definition initial_state (clients : list Client.t) : State :=
  {| trace := []; connections := []; channels := []; pending := [];
     consumers := []; tasks := []; loop_running := false;
     next_consumer_tag := 0;
     manager := ConnectionManager.initial; ON_MESSAGE_ERROR := None;
     helper := SetupHelper.init clients;
     client_manager := {| ClientManager._connection := None |} |}.

(** ** Record updates

    [over_x f s] is [s] with field [x] replaced by [f] of its value. *)
Definition over_trace (f : _ -> _) (s : State) : State :=
  {| trace := f (trace s); connections := connections s;
     channels := channels s; pending := pending s; consumers := consumers s;
     tasks := tasks s; loop_running := loop_running s;
     next_consumer_tag := next_consumer_tag s; manager := manager s;
     ON_MESSAGE_ERROR := ON_MESSAGE_ERROR s; helper := helper s;
     client_manager := client_manager s |}.

Definition over_connections (f : _ -> _) (s : State) : State :=
  {| trace := trace s; connections := f (connections s);
     channels := channels s; pending := pending s; consumers := consumers s;
     tasks := tasks s; loop_running := loop_running s;
     next_consumer_tag := next_consumer_tag s; manager := manager s;
     ON_MESSAGE_ERROR := ON_MESSAGE_ERROR s; helper := helper s;
     client_manager := client_manager s |}.

Definition over_channels (f : _ -> _) (s : State) : State :=
  {| trace := trace s; connections := connections s;
     channels := f (channels s); pending := pending s;
     consumers := consumers s; tasks := tasks s;
     loop_running := loop_running s; next_consumer_tag := next_consumer_tag s;
     manager := manager s; ON_MESSAGE_ERROR := ON_MESSAGE_ERROR s;
     helper := helper s; client_manager := client_manager s |}.

Definition over_pending (f : _ -> _) (s : State) : State :=
  {| trace := trace s; connections := connections s; channels := channels s;
     pending := f (pending s); consumers := consumers s; tasks := tasks s;
     loop_running := loop_running s; next_consumer_tag := next_consumer_tag s;
     manager := manager s; ON_MESSAGE_ERROR := ON_MESSAGE_ERROR s;
     helper := helper s; client_manager := client_manager s |}.

Definition over_consumers (f : _ -> _) (s : State) : State :=
  {| trace := trace s; connections := connections s; channels := channels s;
     pending := pending s; consumers := f (consumers s); tasks := tasks s;
     loop_running := loop_running s; next_consumer_tag := next_consumer_tag s;
     manager := manager s; ON_MESSAGE_ERROR := ON_MESSAGE_ERROR s;
     helper := helper s; client_manager := client_manager s |}.

Definition over_tasks (f : _ -> _) (s : State) : State :=
  {| trace := trace s; connections := connections s; channels := channels s;
     pending := pending s; consumers := consumers s; tasks := f (tasks s);
     loop_running := loop_running s; next_consumer_tag := next_consumer_tag s;
     manager := manager s; ON_MESSAGE_ERROR := ON_MESSAGE_ERROR s;
     helper := helper s; client_manager := client_manager s |}.

Definition over_loop_running (f : _ -> _) (s : State) : State :=
  {| trace := trace s; connections := connections s; channels := channels s;
     pending := pending s; consumers := consumers s; tasks := tasks s;
     loop_running := f (loop_running s);
     next_consumer_tag := next_consumer_tag s; manager := manager s;
     ON_MESSAGE_ERROR := ON_MESSAGE_ERROR s; helper := helper s;
     client_manager := client_manager s |}.

Definition over_next_consumer_tag (f : _ -> _) (s : State) : State :=
  {| trace := trace s; connections := connections s; channels := channels s;
     pending := pending s; consumers := consumers s; tasks := tasks s;
     loop_running := loop_running s;
     next_consumer_tag := f (next_consumer_tag s); manager := manager s;
     ON_MESSAGE_ERROR := ON_MESSAGE_ERROR s; helper := helper s;
     client_manager := client_manager s |}.

Definition over_manager (f : _ -> _) (s : State) : State :=
  {| trace := trace s; connections := connections s; channels := channels s;
     pending := pending s; consumers := consumers s; tasks := tasks s;
     loop_running := loop_running s; next_consumer_tag := next_consumer_tag s;
     manager := f (manager s); ON_MESSAGE_ERROR := ON_MESSAGE_ERROR s;
     helper := helper s; client_manager := client_manager s |}.

Definition over_ON_MESSAGE_ERROR (f : _ -> _) (s : State) : State :=
  {| trace := trace s; connections := connections s; channels := channels s;
     pending := pending s; consumers := consumers s; tasks := tasks s;
     loop_running := loop_running s; next_consumer_tag := next_consumer_tag s;
     manager := manager s; ON_MESSAGE_ERROR := f (ON_MESSAGE_ERROR s);
     helper := helper s; client_manager := client_manager s |}.

Definition over_helper (f : _ -> _) (s : State) : State :=
  {| trace := trace s; connections := connections s; channels := channels s;
     pending := pending s; consumers := consumers s; tasks := tasks s;
     loop_running := loop_running s; next_consumer_tag := next_consumer_tag s;
     manager := manager s; ON_MESSAGE_ERROR := ON_MESSAGE_ERROR s;
     helper := f (helper s); client_manager := client_manager s |}.

Definition over_client_manager (f : _ -> _) (s : State) : State :=
  {| trace := trace s; connections := connections s; channels := channels s;
     pending := pending s; consumers := consumers s; tasks := tasks s;
     loop_running := loop_running s; next_consumer_tag := next_consumer_tag s;
     manager := manager s; ON_MESSAGE_ERROR := ON_MESSAGE_ERROR s;
     helper := helper s; client_manager := f (client_manager s) |}.

Definition over_helper_clients (f : _ -> _) (s : SetupHelper.t) : SetupHelper.t :=
  {| SetupHelper.clients := f (SetupHelper.clients s);
     SetupHelper._connection := SetupHelper._connection s;
     SetupHelper._channel := SetupHelper._channel s;
     SetupHelper._consumer_tags := SetupHelper._consumer_tags s;
     SetupHelper._consumer_tags_closed := SetupHelper._consumer_tags_closed s |}.

Definition over_helper_connection (f : _ -> _) (s : SetupHelper.t) : SetupHelper.t :=
  {| SetupHelper.clients := SetupHelper.clients s;
     SetupHelper._connection := f (SetupHelper._connection s);
     SetupHelper._channel := SetupHelper._channel s;
     SetupHelper._consumer_tags := SetupHelper._consumer_tags s;
     SetupHelper._consumer_tags_closed := SetupHelper._consumer_tags_closed s |}.

Definition over_helper_channel (f : _ -> _) (s : SetupHelper.t) : SetupHelper.t :=
  {| SetupHelper.clients := SetupHelper.clients s;
     SetupHelper._connection := SetupHelper._connection s;
     SetupHelper._channel := f (SetupHelper._channel s);
     SetupHelper._consumer_tags := SetupHelper._consumer_tags s;
     SetupHelper._consumer_tags_closed := SetupHelper._consumer_tags_closed s |}.

Definition over_helper_consumer_tags (f : _ -> _) (s : SetupHelper.t) : SetupHelper.t :=
  {| SetupHelper.clients := SetupHelper.clients s;
     SetupHelper._connection := SetupHelper._connection s;
     SetupHelper._channel := SetupHelper._channel s;
     SetupHelper._consumer_tags := f (SetupHelper._consumer_tags s);
     SetupHelper._consumer_tags_closed := SetupHelper._consumer_tags_closed s |}.

Definition over_helper_consumer_tags_closed (f : _ -> _) (s : SetupHelper.t) : SetupHelper.t :=
  {| SetupHelper.clients := SetupHelper.clients s;
     SetupHelper._connection := SetupHelper._connection s;
     SetupHelper._channel := SetupHelper._channel s;
     SetupHelper._consumer_tags := SetupHelper._consumer_tags s;
     SetupHelper._consumer_tags_closed := f (SetupHelper._consumer_tags_closed s) |}.

Definition over_manager_connection (f : _ -> _) (s : ConnectionManager.t) : ConnectionManager.t :=
  {| ConnectionManager.__connection := f (ConnectionManager.__connection s);
     ConnectionManager.__channel := ConnectionManager.__channel s;
     ConnectionManager.connection_parameters := ConnectionManager.connection_parameters s |}.

Definition over_manager_channel (f : _ -> _) (s : ConnectionManager.t) : ConnectionManager.t :=
  {| ConnectionManager.__connection := ConnectionManager.__connection s;
     ConnectionManager.__channel := f (ConnectionManager.__channel s);
     ConnectionManager.connection_parameters := ConnectionManager.connection_parameters s |}.

Definition over_manager_connection_parameters (f : _ -> _) (s : ConnectionManager.t) : ConnectionManager.t :=
  {| ConnectionManager.__connection := ConnectionManager.__connection s;
     ConnectionManager.__channel := ConnectionManager.__channel s;
     ConnectionManager.connection_parameters := f (ConnectionManager.connection_parameters s) |}.

(** ** The monad of Python statements

    A statement runs in a state and ends by returning or by raising; what it
    did to the state before raising stays done. *)
Definition Py (A : Type) : Type := State -> Result A * State.

Global Instance Py_ret : MRet Py := fun A a s => (Return a, s).

Global Instance Py_bind : MBind Py := fun A B k m s =>
  match m s with
  | (Return a, s') => k a s'
  | (Raise e, s') => (Raise e, s')
  end.

Definition raise {A} (e : PyException) : Py A := fun s => (Raise e, s).

Definition gets {A} (proj : State -> A) : Py A := fun s => (Return (proj s), s).

Definition modify (f : State -> State) : Py unit := fun s => (Return tt, f s).

(** A call into a library that can raise. *)
Definition lift {A} (r : Result A) : Py A := fun s => (r, s).

(** [try: body / except <classes> as e: handler e]: an exception of [body]
    that [catches] accepts is handled, any other one passes through. *)
Definition try_except {A} (body : Py A) (catches : PyException -> bool)
    (handler : PyException -> Py A) : Py A := fun s =>
  match body s with
  | (Return a, s') => (Return a, s')
  | (Raise e, s') => if catches e then handler e s' else (Raise e, s')
  end.

(** [for x in xs: body x]. *)
Fixpoint for_each {A} (xs : list A) (body : A -> Py unit) : Py unit :=
  match xs with
  | [] => mret tt
  | x :: rest => body x;; for_each rest body
  end.

Definition emit (e : Event) : Py unit := modify (over_trace (fun t => t ++ [e])).

(** [obj.attr] where [obj] may be [None]. *)
Definition attr_of {A} (obj : option A) (attr : string) : Py A :=
  match obj with
  | Some o => mret o
  | None => raise (NoneType_has_no_attribute attr)
  end.

(** ** client.py: the methods of [Client] *)

Section client.
Context {ext : Externals} {user : UserCode}.

Definition set_channel (self : Client.t) (channel : option ChanRef) : Client.t :=
  Client.with_channel channel self.

(** [except JSONDecodeError] catches that class only; any other exception of
    [json.loads] passes through. *)
Definition _parse_incoming_message (self : Client.t) (body : bytes) : Py Message :=
  data ← lift (decode_utf8 body);
  if negb (Client.parse_json self) then mret (JString data)
  else
    try_except (lift (json_loads data))
      (fun e => isinstance e JSONDecodeError)
      (fun e =>
         let message := "Couldn't decode string as JSON: " +:+ data in
         emit (logging_error (Couldnt_decode_string_as_JSON message));;
         raise (Exc InvalidFormatError message (Some e))).

(** [output = self.on_message(message, metadata)], then [await output] when
    it is awaitable. *)
Definition call_handler (self : Client.t) (message : Message)
    (metadata : MessageMetadata) : Py unit :=
  match Client.on_message self with
  | None => raise (Exc TypeError "'NoneType' object is not callable" None)
  | Some h =>
      emit (on_message_call h message metadata);;
      match call_on_message h message metadata with
      | Plain Completes => mret tt
      | Plain (Raises e) => raise e
      | Awaitable Completes => mret tt
      | Awaitable (Raises e) => raise e
      end
  end.

(** A call of an error handler: it returns, or raises in its turn. *)
Definition call_error_handler (h : HandlerRef) (self : Client.t)
    (e : PyException) (metadata : MessageMetadata) : Py unit :=
  emit (on_message_error_call h self e metadata);;
  match call_on_message_error h self e metadata with
  | Completes => mret tt
  | Raises e' => raise e'
  end.

(** [except (Exception, KeyboardInterrupt) as e]. *)
Definition task_wrapper_catches (e : PyException) : bool :=
  is_Exception (exc_class e) || isinstance e KeyboardInterrupt.

(** The [try:] block of [task_wrapper]. *)
Definition task_wrapper_try (self : Client.t) (body : bytes)
    (metadata : MessageMetadata) : Py unit :=
  message ← _parse_incoming_message self body;
  call_handler self message metadata.

(** The body of the coroutine [task_wrapper], run by the event loop. *)
Definition task_wrapper (self : Client.t) (body : bytes)
    (metadata : MessageMetadata) : Py unit :=
  try_except
    (task_wrapper_try self body metadata)
    task_wrapper_catches
    (fun e =>
       match Client.on_message_error self with
       | Some h => call_error_handler h self e metadata
       | None =>
           default ← gets ON_MESSAGE_ERROR;
           match default with
           | Some h => call_error_handler h self e metadata
           | None =>
               emit (logging_error (Uncaught_error_while_processing_message e body));;
               emit (logging_debug traceback_format_exc)
           end
       end).

(** [on_message_wrapper]: with a handler, the coroutine is handed to the
    loop the callback runs on and runs later ([run_task]). *)
Definition on_message_wrapper (self : Client.t) (body : bytes)
    (metadata : MessageMetadata) : Py unit :=
  let message_id := delivery_tag (basic_deliver metadata) in
  subscriber ← attr_of (Client.subscriber_address self) "queue";
  let queue := Address.queue subscriber in
  match Client.on_message self with
  | Some _ =>
      emit (logging_debug (Processing_message message_id queue));;
      let task := {| task_self := self; task_body := body;
                     task_metadata := metadata |} in
      emit (create_task task);;
      modify (over_tasks (fun ts => ts ++ [task]))
  | None =>
      emit (logging_debug (Ignoring_message message_id queue))
  end.

(** Returns the properties and the client object after the call (the
    properties are built once and kept). *)
Definition _get_publish_properties (self : Client.t)
    : Py (BasicProperties * Client.t) :=
  match Client._publish_properties self with
  | Some p => mret (p, self)
  | None =>
      app ← lift (AppSettings_get_str "rabbitmq_app_id" (Some "Unknown"));
      let p := {| app_id := Some app; content_type := Some "application/json" |} in
      mret (p, Client.with_publish_properties (Some p) self)
  end.

(** [if not isinstance(message, str): message = json.dumps(message)]: the
    text [publish] sends, or what [json.dumps] raises. *)
Definition message_text (message : Message) : Result string :=
  match message with
  | JString s => Return s
  | _ => json_dumps message
  end.

(** [Client.publish]; returns the client object after the call.  The
    callee [self._channel.basic_publish] is looked up before its arguments
    are evaluated. *)
Definition publish (self : Client.t) (message : Message) : Py Client.t :=
  match Client.publisher_address self with
  | None =>
      raise (Exc MissingPublisherAddressError
               "Cannot publish messages without a publisher address" None)
  | Some publisher =>
      body ← lift (message_text message);
      subscriber ← attr_of (Client.subscriber_address self) "queue";
      emit (logging_debug (Publishing_message_at (Address.queue subscriber)));;
      ch ← attr_of (Client._channel self) "basic_publish";
      '(props, self') ← _get_publish_properties self;
      emit (channel ch (basic_publish (Address.exchange publisher)
                          (Address.routing_key publisher) body props));;
      mret self'
  end.

Definition set_default_on_message_error_handler
    (on_message_error : option HandlerRef) : Py unit :=
  modify (over_ON_MESSAGE_ERROR (fun _ => on_message_error)).

End client.

(** ** pika, as this code uses it

    pika records each call, hands out fresh connection and channel objects,
    and keeps the callback of every request until the broker's reply comes
    ([fire], below).  Calls are taken to be accepted: the code has no path
    for a refused one. *)

Definition connection_status (c : ConnRef) : Py Status :=
  s ← gets connections; mret (default closed (s !! c)).

Definition channel_status (ch : ChanRef) : Py Status :=
  s ← gets channels; mret (default closed (s !! ch)).

Definition connection_is_open (c : ConnRef) : Py bool :=
  st ← connection_status c; mret (bool_decide (st = opened)).

Definition channel_is_open (ch : ChanRef) : Py bool :=
  st ← channel_status ch; mret (bool_decide (st = opened)).

(** [AsyncioConnection(parameters=..., on_open_callback=...)]. *)
Definition pika_AsyncioConnection (parameters : ConnectionParameters)
    (on_open_callback : option Callback) : Py ConnRef :=
  cs ← gets connections;
  let c := length cs in
  modify (over_connections (fun cs => cs ++ [opening]));;
  emit (AsyncioConnection c parameters on_open_callback);;
  modify (over_pending (fun p => p ++ [connection_opening c on_open_callback]));;
  mret c.

(** [connection.channel(on_open_callback=...)]. *)
Definition pika_connection_channel (c : ConnRef)
    (on_open_callback : option Callback) : Py ChanRef :=
  chs ← gets channels;
  let ch := length chs in
  modify (over_channels (fun chs => chs ++ [opening]));;
  emit (connection_channel c ch on_open_callback);;
  modify (over_pending (fun p => p ++ [channel_opening ch on_open_callback]));;
  mret ch.

(** A channel method, with the callback for its reply if one is given. *)
Definition pika_channel_method (ch : ChanRef) (m : ChannelMethod)
    (callback : option Callback) : Py unit :=
  emit (channel ch m);;
  match callback with
  | Some cb => modify (over_pending (fun p => p ++ [method_reply ch m cb]))
  | None => mret tt
  end.

(** [channel.basic_consume(queue=..., on_message_callback=...)]: pika makes
    up the consumer tag and returns it; [data] is what the callback
    [acknowledge_and_forward] closes over. *)
Definition pika_basic_consume (ch : ChanRef) (queue : option string)
    (data : ClientConfigContainer) : Py ConsumerTag :=
  tag ← gets next_consumer_tag;
  modify (over_next_consumer_tag S);;
  emit (channel ch (basic_consume queue tag));;
  modify (over_consumers (fun cs => cs ++ [(tag, data)]));;
  mret tag.

Definition pika_channel_close (ch : ChanRef) : Py unit :=
  emit (channel ch channel_close);;
  modify (over_channels (fun chs => <[ch := closed]> chs)).

Definition pika_connection_close (c : ConnRef) : Py unit :=
  emit (connection_close c);;
  modify (over_connections (fun cs => <[c := closing]> cs)).

Definition pika_ioloop_stop (c : ConnRef) : Py unit :=
  emit (ioloop_stop c);;
  modify (over_loop_running (fun _ => false)).

Definition pika_ioloop_run_forever (c : ConnRef) : Py unit :=
  emit (ioloop_run_forever c);;
  modify (over_loop_running (fun _ => true)).

(** A callable passed as an argument: the name pika keeps, and the body that
    runs when the callee calls it on the spot. *)
Record Callable (A : Type) : Type := {
  callable_name : Callback;
  callable_body : A -> Py unit;
}.
Arguments callable_name {A} _.
Arguments callable_body {A} _ _.

(** ** connection_manager.py: the class methods *)

Section connection_manager.
Context {ext : Externals}.

Definition get_connection_parameters : Py ConnectionParameters :=
  cm ← gets manager;
  match ConnectionManager.connection_parameters cm with
  | Some p => mret p
  | None =>
      user ← lift (AppSettings_get_str "rabbitmq_username" None);
      pass ← lift (AppSettings_get_str "rabbitmq_password" None);
      let credentials := {| username := user; password := pass |} in
      h ← lift (AppSettings_get_str "rabbitmq_host" None);
      p ← lift (AppSettings_get_int "rabbitmq_port" None);
      vh ← lift (AppSettings_get_str "rabbitmq_virtual_host" None);
      let params := {| host := h; port := p; credentials := credentials;
                       virtual_host := vh |} in
      modify (over_manager (over_manager_connection_parameters (fun _ => Some params)));;
      mret params
  end.

Definition on_connection_open_error (err : string) : Py unit :=
  emit (logging_error (Connection_open_failed err)).

(** [asyncio.get_running_loop()] raises [RuntimeError] when no loop runs. *)
Definition _setup_event_loop : Py unit :=
  running ← gets loop_running;
  (if running : bool then mret tt else emit new_event_loop : Py unit);;
  emit set_event_loop.

Definition get_connection (on_open_callback : option (Callable ConnRef))
    : Py (option ConnRef) :=
  cm ← gets manager;
  (* [cls.__connection is not None and not cls.__connection.is_open] *)
  condition ← match ConnectionManager.__connection cm with
              | Some c => is_open ← connection_is_open c; mret (negb is_open)
              | None => mret false
              end;
  (if condition : bool then
     match ConnectionManager.__connection cm, on_open_callback with
     | Some c, Some cb => callable_body cb c
     | _, _ => mret tt
     end
   else
     _setup_event_loop;;
     params ← get_connection_parameters;
     c ← pika_AsyncioConnection params (callable_name <$> on_open_callback);
     modify (over_manager (over_manager_connection (fun _ => Some c)))
   : Py unit);;
  gets (fun s => ConnectionManager.__connection (manager s)).

Definition close_connection : Py unit :=
  cm ← gets manager;
  c ← attr_of (ConnectionManager.__connection cm) "is_closing";
  st ← connection_status c;
  if bool_decide (st = closing) || bool_decide (st = closed) then mret tt
  else pika_connection_close c.

Definition get_channel (on_open_callback : option (Callable ChanRef))
    : Py (option ChanRef) :=
  cm ← gets manager;
  (* [cls.__channel is not None and cls.__channel.is_open] *)
  condition ← match ConnectionManager.__channel cm with
              | Some ch => channel_is_open ch
              | None => mret false
              end;
  (if condition : bool then
     match ConnectionManager.__channel cm, on_open_callback with
     | Some ch, Some cb => callable_body cb ch
     | _, _ => mret tt
     end
   else
     c ← attr_of (ConnectionManager.__connection cm) "channel";
     ch ← pika_connection_channel c (callable_name <$> on_open_callback);
     modify (over_manager (over_manager_channel (fun _ => Some ch)))
   : Py unit);;
  gets (fun s => ConnectionManager.__channel (manager s)).

End connection_manager.

(** ** setup_helper.py: the methods of [SetupHelper]

    The helper [self] is the [helper] of the state.  Python shares the
    client and address objects between the helper's list and every
    [ClientConfigContainer]; here a container carries the values its
    callbacks read (the address as [check_attributes] left it, the client
    with its channel set), which is what they find in the shared objects as
    long as the application leaves them alone during set-up. *)

Section setup_helper.
Context {ext : Externals} {user : UserCode}.

Definition with_address (a : Address.t) (data : ClientConfigContainer)
    : ClientConfigContainer :=
  {| address := Some a; client := client data;
     is_subscriber := is_subscriber data |}.

(** [self._channel.<attr>] and [self._connection.<attr>]. *)
Definition self_channel (attr : string) : Py ChanRef :=
  h ← gets helper; attr_of (SetupHelper._channel h) attr.

Definition self_connection (attr : string) : Py ConnRef :=
  h ← gets helper; attr_of (SetupHelper._connection h) attr.

(** The consumer callback local to [_setup_message_callback]. *)
Definition acknowledge_and_forward (data : ClientConfigContainer)
    (basic_deliver : Deliver) (properties : BasicProperties) (body : bytes)
    : Py unit :=
  ch ← self_channel "basic_ack";
  pika_channel_method ch (basic_ack (delivery_tag basic_deliver)) None;;
  let metadata := {| basic_deliver := basic_deliver;
                     properties := properties |} in
  on_message_wrapper (client data) body metadata.

Definition _setup_message_callback (data : ClientConfigContainer) : Py unit :=
  ch ← self_channel "basic_consume";
  a ← attr_of (address data) "queue";
  consumer_tag ← pika_basic_consume ch (Address.queue a) data;
  modify (over_helper (over_helper_consumer_tags (fun tags => tags ++ [consumer_tag]))).

Definition _setup_qos (data : ClientConfigContainer) : Py unit :=
  ch ← self_channel "basic_qos";
  pika_channel_method ch (basic_qos (Client.prefetch_count (client data)))
    (Some (then_setup_message_callback data)).

(** The [callback] local to [_setup_routing_key]. *)
Definition _setup_routing_key_callback_body (data : ClientConfigContainer)
    : Py unit :=
  if negb (is_subscriber data) then mret tt else _setup_qos data.

Definition _setup_routing_key (data : ClientConfigContainer) : Py unit :=
  a ← attr_of (address data) "is_default_exchange";
  if is_default_exchange a then _setup_routing_key_callback_body data
  else
    ch ← self_channel "queue_bind";
    pika_channel_method ch
      (queue_bind (Address.queue a) (Address.exchange a) (Address.routing_key a))
      (Some (_setup_routing_key_callback data)).

Definition _setup_queue (data : ClientConfigContainer) : Py unit :=
  ch ← self_channel "queue_declare";
  a ← attr_of (address data) "queue";
  pika_channel_method ch (queue_declare (Address.queue a))
    (Some (then_setup_routing_key data)).

Definition _setup_exchange (data : ClientConfigContainer) : Py unit :=
  a ← attr_of (address data) "is_default_exchange";
  if is_default_exchange a then _setup_queue data
  else
    ch ← self_channel "exchange_declare";
    pika_channel_method ch
      (exchange_declare (Address.exchange a) (Address.exchange_type a))
      (Some (then_setup_queue data)).

Definition _setup_address (data : ClientConfigContainer) : Py unit :=
  match address data with
  | None => mret tt
  | Some a =>
      a' ← lift (check_attributes a);
      _setup_exchange (with_address a' data)
  end.

Definition _setup_clients : Py unit :=
  h ← gets helper;
  for_each (SetupHelper.clients h) (fun c =>
    h ← gets helper;
    let c := set_channel c (SetupHelper._channel h) in
    _setup_address {| address := Client.publisher_address c; client := c;
                      is_subscriber := false |};;
    _setup_address {| address := Client.subscriber_address c; client := c;
                      is_subscriber := true |}).

(** The [callback] local to [_setup_channel]. *)
Definition _setup_channel_callback_body (channel : ChanRef) : Py unit :=
  modify (over_helper (over_helper_channel (fun _ => Some channel)));;
  _setup_clients.

Definition _setup_channel : Py unit :=
  get_channel (Some {| callable_name := _setup_channel_callback;
                       callable_body := _setup_channel_callback_body |});;
  mret tt.

(** The [callback] local to [setup]. *)
Definition setup_callback_body (connection : ConnRef) : Py unit :=
  modify (over_helper (over_helper_connection (fun _ => Some connection)));;
  _setup_channel.

Definition setup : Py (option ConnRef) :=
  emit new_event_loop;;
  emit set_event_loop;;
  get_connection (Some {| callable_name := setup_callback;
                          callable_body := setup_callback_body |}).

Definition _close_channel_if_all_clients_stopped (_ : CallbackArg) : Py unit :=
  modify (over_helper (over_helper_consumer_tags_closed S));;
  h ← gets helper;
  if bool_decide (SetupHelper._consumer_tags_closed h
                  < length (SetupHelper._consumer_tags h))%nat
  then mret tt
  else
    emit (logging_debug Closing_RabbitMQ_channel_and_connection);;
    ch ← self_channel "close";
    pika_channel_close ch;;
    c ← self_connection "close";
    pika_connection_close c;;
    c ← self_connection "ioloop";
    pika_ioloop_stop c.

Definition tear_down : Py unit :=
  h ← gets helper;
  for_each (SetupHelper._consumer_tags h) (fun tag =>
    ch ← self_channel "basic_cancel";
    pika_channel_method ch (basic_cancel tag)
      (Some close_channel_if_all_clients_stopped)).

(** ** client_manager.py *)

Definition start : Py unit :=
  connection ← setup;
  modify (over_client_manager (fun _ => {| ClientManager._connection := connection |}));;
  c ← attr_of connection "ioloop";
  pika_ioloop_run_forever c.

Definition stop : Py unit := tear_down.

(** [self._clients] is the list object the helper was built with. *)
Definition add_client (c : Client.t) : Py unit :=
  modify (over_helper (over_helper_clients (fun cs => cs ++ [c]))).

(** ** The event loop

    pika calls a callback when the broker's reply arrives, with the
    connection, the channel or the method frame. *)
Definition invoke (cb : Callback) (arg : CallbackArg) : Py unit :=
  match cb, arg with
  | setup_callback, the_connection c => setup_callback_body c
  | _setup_channel_callback, the_channel ch => _setup_channel_callback_body ch
  | then_setup_queue data, _ => _setup_queue data
  | then_setup_routing_key data, _ => _setup_routing_key data
  | _setup_routing_key_callback data, _ => _setup_routing_key_callback_body data
  | then_setup_message_callback data, _ => _setup_message_callback data
  | close_channel_if_all_clients_stopped, _ =>
      _close_channel_if_all_clients_stopped arg
  | _, _ => raise (Exc TypeError "unexpected callback argument" None)
  end.

Definition invoke_if_given (cb : option Callback) (arg : CallbackArg) : Py unit :=
  match cb with
  | Some cb => invoke cb arg
  | None => mret tt
  end.

(** A reply arrives: an opened connection or channel becomes open, a
    cancelled consumer is forgotten; then the callback of the request runs. *)
Definition arrive (reply : Pending) : Py unit :=
  match reply with
  | connection_opening c cb =>
      modify (over_connections (fun cs => <[c := opened]> cs));;
      invoke_if_given cb (the_connection c)
  | channel_opening ch cb =>
      modify (over_channels (fun chs => <[ch := opened]> chs));;
      invoke_if_given cb (the_channel ch)
  | method_reply ch (basic_cancel tag) cb =>
      modify (over_consumers (filter (fun '(t, _) => t ≠ tag)));;
      invoke cb method_frame
  | method_reply ch _ cb => invoke cb method_frame
  end.

(** The [i]-th outstanding reply arrives; nothing happens when there is no
    such reply. *)
Definition fire (i : nat) : Py unit :=
  p ← gets pending;
  match p !! i with
  | None => mret tt
  | Some reply => modify (over_pending (delete i));; arrive reply
  end.

(** The broker delivers a message to the consumer named in [basic_deliver]. *)
Definition deliver (basic_deliver : Deliver) (properties : BasicProperties)
    (body : bytes) : Py unit :=
  cs ← gets consumers;
  match list_find (fun '(t, _) => t = deliver_consumer_tag basic_deliver) cs with
  | Some (_, (_, data)) => acknowledge_and_forward data basic_deliver properties body
  | None => mret tt
  end.

(** The loop runs the [i]-th task that [create_task] scheduled. *)
Definition run_task (i : nat) : Py unit :=
  ts ← gets tasks;
  match ts !! i with
  | None => mret tt
  | Some t =>
      modify (over_tasks (delete i));;
      task_wrapper (task_self t) (task_body t) (task_metadata t)
  end.

(** Replies arrive in the order [schedule] gives. *)
Definition run_replies (schedule : list nat) : Py unit :=
  for_each schedule fire.

End setup_helper.

(** ** Sample configurations *)

(** A value [json.dumps] can print: no [JOther] anywhere in it. *)
Fixpoint serialisable (j : Json) : bool :=
  match j with
  | JArray items => forallb serialisable items
  | JObject members => forallb (fun '(_, v) => serialisable v) members
  | JOther _ => false
  | _ => true
  end.

(** Libraries that answer: [json.dumps] prints a fixed text for a JSON
    document and raises [TypeError] on another value, [json.loads] accepts
    exactly [{}], every byte string decodes to [hello], the settings file
    has every key (the broker of [localhost], below). *)
Definition sample_externals : Externals :=
  {| json_dumps := fun j =>
       if serialisable j then Return "{}"
       else Raise (Exc TypeError "Object is not JSON serializable" None);
     json_loads := fun s =>
       if bool_decide (s = "{}") then Return (JObject [])
       else Raise (Exc JSONDecodeError "Expecting value" None);
     decode_utf8 := fun _ => Return "hello";
     AppSettings_get_str := fun key default =>
       if bool_decide (key = "rabbitmq_host") then Return "localhost"
       else if bool_decide (key = "rabbitmq_virtual_host") then Return "/"
       else Return "guest";
     AppSettings_get_int := fun key default => Return 5672 |}.

(** The application's callables: handler 0 returns, handler 1 raises a
    [ValueError], handler 2 returns an awaitable that raises it, handler 3
    calls [sys.exit]; every error handler returns. *)
Definition sample_user : UserCode :=
  {| call_on_message := fun h _ _ =>
       match h with
       | 0%nat => Plain Completes
       | 1%nat => Plain (Raises (Exc ValueError "bad value" None))
       | 2%nat => Awaitable (Raises (Exc ValueError "bad value" None))
       | _ => Plain (Raises (Exc SystemExit "1" None))
       end;
     call_on_message_error := fun _ _ _ _ => Completes |}.

Definition q1 : Address.t :=
  {| Address.queue := Some "q1"; Address.routing_key := None;
     Address.exchange := EmptyString; Address.exchange_type := direct |}.

Definition q1_at_ex1 : Address.t :=
  {| Address.queue := Some "q1"; Address.routing_key := None;
     Address.exchange := "ex1"; Address.exchange_type := direct |}.

Definition empty_queue : Address.t :=
  {| Address.queue := Some EmptyString; Address.routing_key := None;
     Address.exchange := EmptyString; Address.exchange_type := direct |}.

(** [Address(queue="q1", routing_key="")]. *)
Definition empty_routing_key : Address.t :=
  {| Address.queue := Some "q1"; Address.routing_key := Some EmptyString;
     Address.exchange := EmptyString; Address.exchange_type := direct |}.

(** The message [{"tags": {"a"}}]: a [dict] that holds a [set]. *)
Definition dict_with_a_set : Message := JObject [("tags", JOther "set")].

(** A client that only publishes, one that only subscribes, and the client
    of the spec's scenario, which does both. *)
Definition publisher_only : Client.t :=
  {| Client.subscriber_address := None; Client.publisher_address := Some q1;
     Client.on_message := None; Client.on_message_error := None;
     Client.parse_json := true; Client.prefetch_count := 1;
     Client._channel := None; Client.consumer_tag := None;
     Client._publish_properties := None |}.

Definition subscriber_only (handler : HandlerRef) : Client.t :=
  {| Client.subscriber_address := Some q1; Client.publisher_address := None;
     Client.on_message := Some handler; Client.on_message_error := None;
     Client.parse_json := false; Client.prefetch_count := 1;
     Client._channel := None; Client.consumer_tag := None;
     Client._publish_properties := None |}.

Definition both_ways : Client.t :=
  {| Client.subscriber_address := Some q1;
     Client.publisher_address := Some q1_at_ex1;
     Client.on_message := Some 0%nat; Client.on_message_error := None;
     Client.parse_json := true; Client.prefetch_count := 1;
     Client._channel := None; Client.consumer_tag := None;
     Client._publish_properties := None |}.

Definition localhost : ConnectionParameters :=
  {| host := "localhost"; port := 5672;
     credentials := {| username := "guest"; password := "guest" |};
     virtual_host := "/" |}.


(** ** Vocabulary of the properties *)

(** Every call of the message handler recorded in a trace was given
    [metadata]. *)
Definition passes_metadata (metadata : MessageMetadata) (ev : Event) : Prop :=
  match ev with
  | on_message_call _ _ md => md = metadata
  | _ => True
  end.

(** What the [try:] block of [task_wrapper] records: the error line of the
    parsing, and calls of the message handler with [metadata]. *)
Definition try_block_event (metadata : MessageMetadata) (ev : Event) : Prop :=
  (exists r, ev = logging_error r) \/
  (exists h message, ev = on_message_call h message metadata).

(** An order in which [n] outstanding replies can arrive, each named by its
    position among those still outstanding: any position may come first. *)
Fixpoint complete_schedule (n : nat) (schedule : list nat) : Prop :=
  match schedule, n with
  | [], O => True
  | i :: rest, S n' => (i < S n')%nat /\ complete_schedule n' rest
  | _, _ => False
  end.

(** What [on_message_wrapper] records: nothing when it raises on the absent
    subscriber address, else one debug line and, with a handler, the task. *)
Definition on_message_wrapper_events (self : Client.t) (body : bytes)
    (metadata : MessageMetadata) : list Event :=
  match Client.subscriber_address self with
  | None => []
  | Some subscriber =>
      let message_id := delivery_tag (basic_deliver metadata) in
      match Client.on_message self with
      | Some _ =>
          [logging_debug (Processing_message message_id (Address.queue subscriber));
           create_task {| task_self := self; task_body := body;
                          task_metadata := metadata |}]
      | None =>
          [logging_debug (Ignoring_message message_id (Address.queue subscriber))]
      end
  end.

(** A client whose handler calls [sys.exit] and which has its own error
    handler. *)
Definition exiting_client : Client.t :=
  {| Client.subscriber_address := Some q1; Client.publisher_address := None;
     Client.on_message := Some 3%nat; Client.on_message_error := Some 7%nat;
     Client.parse_json := false; Client.prefetch_count := 1;
     Client._channel := None; Client.consumer_tag := None;
     Client._publish_properties := None |}.

Definition delivery_1 : MessageMetadata :=
  {| basic_deliver := {| deliver_consumer_tag := 0; delivery_tag := 1;
                         redelivered := false; deliver_exchange := EmptyString;
                         deliver_routing_key := "q1" |};
     properties := {| app_id := None; content_type := None |} |}.

(** The process after [ClientManager.start()] and the replies [schedule]. *)
Definition started (clients : list Client.t) (schedule : list nat) : State :=
  ((start (ext := sample_externals);; run_replies schedule)
     (initial_state clients)).2.

(** The cancel request for a consumer tag, and the reply it waits for. *)
Definition cancel_request (ch : ChanRef) (tag : ConsumerTag) : Event :=
  channel ch (basic_cancel tag).

Definition cancel_reply (ch : ChanRef) (tag : ConsumerTag) : Pending :=
  method_reply ch (basic_cancel tag) close_channel_if_all_clients_stopped.

(** The close sequence of [_close_channel_if_all_clients_stopped]. *)
Definition closing_calls (ch : ChanRef) (c : ConnRef) : list Event :=
  [logging_debug Closing_RabbitMQ_channel_and_connection;
   channel ch channel_close; connection_close c; ioloop_stop c].

(** Tear-down under way: [n] tags were recorded, [k] cancellations are
    counted, and the outstanding replies are the other [n - k]
    cancellations. *)
Definition joining (n k : nat) (ch : ChanRef) (c : ConnRef) (s : State) : Prop :=
  SetupHelper._channel (helper s) = Some ch /\
  SetupHelper._connection (helper s) = Some c /\
  length (SetupHelper._consumer_tags (helper s)) = n /\
  SetupHelper._consumer_tags_closed (helper s) = k /\
  (length (pending s) + k = n)%nat /\
  Forall (fun p => exists tag, p = cancel_reply ch tag) (pending s).

(** The state after [self._channel.<m>(..., callback=cb)]. *)
Definition requested (ch : ChanRef) (m : ChannelMethod) (cb : Callback)
    (s : State) : State :=
  over_pending (fun p => p ++ [method_reply ch m cb])
    (over_trace (fun t => t ++ [channel ch m]) s).

(** The state after [_setup_message_callback]: the consumer is registered
    under a fresh tag and the tag is recorded. *)
Definition consuming (ch : ChanRef) (queue : option string)
    (data : ClientConfigContainer) (s : State) : State :=
  let tag := next_consumer_tag s in
  over_helper (over_helper_consumer_tags (fun tags => tags ++ [tag]))
    (over_consumers (fun cs => cs ++ [(tag, data)])
       (over_trace (fun t => t ++ [channel ch (basic_consume queue tag)])
          (over_next_consumer_tag S s))).

(** After a statement that returned, the reply at position [n] arrives [k]
    times over (a position past the end is no reply at all). *)
Definition then_run (k n : nat) (r : Result unit * State) : Result unit * State :=
  match r with
  | (Return _, s') => run_replies (replicate k n) s'
  | (Raise e, s') => (Raise e, s')
  end.

(** A run ended normally, left outstanding what was outstanding in [s],
    and made exactly the channel calls [calls] after those of [s]. *)
Definition chain_ends (s : State) (ch : ChanRef) (calls : list ChannelMethod)
    (r : Result unit * State) : Prop :=
  r.1 = Return tt /\
  pending r.2 = pending s /\
  trace r.2 = trace s ++ map (channel ch) calls.

(** Three subscribers, set up to the end: three consumer tags recorded and
    no reply outstanding. *)
Definition three_subscribers : State :=
  started [subscriber_only 0%nat; subscriber_only 0%nat; subscriber_only 0%nat]
    (replicate 8 0%nat).

(** One client that only publishes, set up to the end. *)
Definition publisher_running : State :=
  started [publisher_only] [0; 0; 0]%nat.

(** No client; the connection has just opened. *)
Definition connection_open : State := started [] [0]%nat.

(** No client; connection and channel open. *)
Definition channel_open : State := started [] [0; 0]%nat.

(** The calls that make a subscriber's address a consumer; none for a
    publisher's address. *)
Definition consume_calls (data : ClientConfigContainer) (q : string)
    (s : State) : list ChannelMethod :=
  if is_subscriber data
  then [basic_qos (Client.prefetch_count (client data));
        basic_consume (Some q) (next_consumer_tag s)]
  else [].

(** ** app_settings.py: the typed getters of [AppSettings]

    The class attributes the getters read, the parser as the function its
    [get], [getint], ... methods compute (they raise [NoSectionError] or
    [NoOptionError] for what the file does not have, and whatever the
    conversion or the interpolation raises), and the lines [_log] writes. *)

Definition NoSectionError : PyClass := ApplicationError "NoSectionError".

Module AppSettings.
Record t : Type := mk {
  environment : string;
  global_environment : string;
  CONFIG_FILE_PATH : string;
  _initialized_parser : bool;
  _initialized_logger : bool;
}.
End AppSettings.

(** The messages of [_log], one constructor per call site of the getters,
    with the arguments of the format string. *)
Inductive SettingsMessage : Type :=
| value_read (quoted : bool) (environment param out : string)
| using_default (environment param path out : string).

(** [_log] goes to [logging.debug] once the logger is set up, to [print]
    before. *)
Inductive SettingsOutput : Type :=
| debug_line (m : SettingsMessage)
| printed_line (m : SettingsMessage).

(** A statement of the getters: how it ends and what it wrote. *)
Definition Settings (A : Type) : Type := Result A * list SettingsOutput.

Definition settings_bind {A B} (m : Settings A) (k : A -> Settings B)
    : Settings B :=
  match m with
  | (Return a, out) => let '(r, out') := k a in (r, out ++ out')
  | (Raise e, out) => (Raise e, out)
  end.

(** [except (NoSectionError, NoOptionError)]. *)
Definition is_lookup_error (e : PyException) : bool :=
  isinstance e NoSectionError || isinstance e NoOptionError.

Definition settings_try {A} (body : Settings A)
    (handler : PyException -> Settings A) : Settings A :=
  match body with
  | (Raise e, out) =>
      if is_lookup_error e
      then let '(r, out') := handler e in (r, out ++ out')
      else (Raise e, out)
  | done => done
  end.

Section app_settings.
Variables (V : Type) (is_str : V -> bool) (str : V -> string).

Definition _log (cls : AppSettings.t) (m : SettingsMessage) : Settings unit :=
  (Return tt,
   [if AppSettings._initialized_logger cls then debug_line m else printed_line m]).

Definition _try_to_get_value (cls : AppSettings.t)
    (getter : string -> string -> Result V) (param environment : string)
    : Settings V :=
  settings_bind (getter environment param, []) (fun out =>
  settings_bind
    (_log cls (value_read (is_str out) (AppSettings.environment cls) param (str out)))
    (fun _ => (Return out, []))).

Definition _try_to_get_local_environment_fallback_to_global
    (cls : AppSettings.t) (getter : string -> string -> Result V)
    (param : string) : Settings V :=
  settings_try
    (_try_to_get_value cls getter param (AppSettings.environment cls))
    (fun _ =>
       settings_try
         (_try_to_get_value cls getter param (AppSettings.global_environment cls))
         (fun _ =>
            (Raise (Exc NoOptionError
                      ("No option '" +:+ param +:+ "' in section: '"
                       +:+ AppSettings.global_environment cls +:+ "'") None),
             []))).

Definition _check_setup (cls : AppSettings.t) (default : option V)
    : Settings unit :=
  if negb (AppSettings._initialized_parser cls) then
    match default with
    | None =>
        (Raise (Exc RuntimeError
                  "AppSettings has not been initialized. Call AppSettings.setup() or use a default value argument"
                  None), [])
    | Some _ => (Return tt, [])
    end
  else (Return tt, []).

Definition _get_any (cls : AppSettings.t)
    (getter : string -> string -> Result V) (param : string)
    (default : option V) : Settings V :=
  settings_bind (_check_setup cls default) (fun _ =>
  settings_try
    (_try_to_get_local_environment_fallback_to_global cls getter param)
    (fun e =>
       match default with
       | None => (Raise e, [])
       | Some out =>
           settings_bind
             (_log cls (using_default (AppSettings.environment cls) param
                          (AppSettings.CONFIG_FILE_PATH cls) (str out)))
             (fun _ => (Return out, []))
       end)).

End app_settings.

(** [get_str] reads with the parser's [get], [get_int] with [getint]. *)
Definition get_str (cls : AppSettings.t)
    (parser_get : string -> string -> Result string)
    (param : string) (default : option string) : Settings string :=
  _get_any string (fun _ => true) id cls parser_get param default.

Definition get_int (str_int : Z -> string) (cls : AppSettings.t)
    (parser_getint : string -> string -> Result Z)
    (param : string) (default : option Z) : Settings Z :=
  _get_any Z (fun _ => false) str_int cls parser_getint param default.

(** The libraries [lib] with the settings read through these getters. *)
Definition with_settings (lib : Externals) (str_int : Z -> string)
    (cls : AppSettings.t)
    (parser_get : string -> string -> Result string)
    (parser_getint : string -> string -> Result Z) : Externals :=
  {| json_dumps := json_dumps (Externals := lib);
     json_loads := json_loads (Externals := lib);
     decode_utf8 := decode_utf8 (Externals := lib);
     AppSettings_get_str := fun param default =>
       (get_str cls parser_get param default).1;
     AppSettings_get_int := fun param default =>
       (get_int str_int cls parser_getint param default).1 |}.

(** ** Vocabulary of the further properties *)

(** The loop of [_setup_clients], over the clients [cs]. *)
Definition setup_clients_of (cs : list Client.t) : Py unit :=
  for_each cs (fun c =>
    h ← gets helper;
    let c := set_channel c (SetupHelper._channel h) in
    _setup_address {| address := Client.publisher_address c; client := c;
                      is_subscriber := false |};;
    _setup_address {| address := Client.subscriber_address c; client := c;
                      is_subscriber := true |}).


(** The consumer tags a callback of the set-up will still lead to: one for
    a subscriber's address, none for a publisher's. *)
Definition owed_by (cb : Callback) : nat :=
  match cb with
  | then_setup_queue d | then_setup_routing_key d
  | _setup_routing_key_callback d => if is_subscriber d then 1%nat else 0%nat
  | then_setup_message_callback _ => 1%nat
  | _ => 0%nat
  end.

Definition owed_tags (p : Pending) : nat :=
  match p with
  | method_reply _ _ cb => owed_by cb
  | _ => 0%nat
  end.

(** A reply of the set-up: to a channel method other than a cancellation,
    with one of the set-up callbacks, for data that has an address. *)
Definition setup_callback_for (cb : Callback) : Prop :=
  match cb with
  | then_setup_queue d | then_setup_routing_key d
  | _setup_routing_key_callback d | then_setup_message_callback d =>
      is_Some (address d)
  | _ => False
  end.

Definition setup_reply (p : Pending) : Prop :=
  match p with
  | method_reply _ m cb => (forall tag, m <> basic_cancel tag) /\ setup_callback_for cb
  | _ => False
  end.

(** Set-up under way on channel [ch], [n] consumers in all: those recorded
    and those the outstanding replies will lead to; the recorded tags are
    distinct and were handed out by pika. *)
Definition setting_up (ch : ChanRef) (n : nat) (s : State) : Prop :=
  SetupHelper._channel (helper s) = Some ch /\
  Forall setup_reply (pending s) /\
  (length (SetupHelper._consumer_tags (helper s))
   + sum_list_with owed_tags (pending s) = n)%nat /\
  NoDup (SetupHelper._consumer_tags (helper s)) /\
  Forall (fun t => (t < next_consumer_tag s)%nat)
    (SetupHelper._consumer_tags (helper s)).

(** Both addresses of a client, where present, have a queue. *)
Definition addresses_have_queues (c : Client.t) : Prop :=
  (forall a, Client.publisher_address c = Some a -> is_Some (Address.queue a)) /\
  (forall a, Client.subscriber_address c = Some a -> is_Some (Address.queue a)).

Definition subscribers (cs : list Client.t) : list Client.t :=
  filter (fun c => is_Some (Client.subscriber_address c)) cs.


(** The replies a callback of the set-up still waits for, itself
    included: exchange, queue, binding, prefetch. *)
Definition replies_left (cb : Callback) : nat :=
  match cb with
  | then_setup_queue _ => 4%nat
  | then_setup_routing_key _ => 3%nat
  | _setup_routing_key_callback _ => 2%nat
  | then_setup_message_callback _ => 1%nat
  | _ => 0%nat
  end.

Definition replies_owed (p : Pending) : nat :=
  match p with
  | method_reply _ _ cb => replies_left cb
  | _ => 0%nat
  end.

(** Set-up under way with at most [w] replies to come; the connection is
    recorded and no cancellation has been counted. *)
Definition winding (ch : ChanRef) (c : ConnRef) (w : nat) (s : State) : Prop :=
  SetupHelper._channel (helper s) = Some ch /\
  SetupHelper._connection (helper s) = Some c /\
  SetupHelper._consumer_tags_closed (helper s) = 0%nat /\
  Forall setup_reply (pending s) /\
  (sum_list_with replies_owed (pending s) <= w)%nat.

(** Side conditions of the set-up invariants. *)
Ltac setup_side :=
  first [ done
        | by (simpl; eauto)
        | by (simpl; match goal with H : _ = Some _ |- _ => rewrite H; eauto end) ].

(** ** Further sample configurations *)

(** Libraries whose settings file has no key at all. *)
Definition no_settings : Externals :=
  {| json_dumps := json_dumps (Externals := sample_externals);
     json_loads := json_loads (Externals := sample_externals);
     decode_utf8 := decode_utf8 (Externals := sample_externals);
     AppSettings_get_str := fun key _ =>
       Raise (Exc NoOptionError ("No option '" +:+ key +:+ "' in section: 'DEFAULT'") None);
     AppSettings_get_int := fun key _ =>
       Raise (Exc NoOptionError ("No option '" +:+ key +:+ "' in section: 'DEFAULT'") None) |}.

(** The callable [setup] hands to [get_connection]. *)
Definition setup_callable : Callable ConnRef :=
  {| callable_name := setup_callback; callable_body := setup_callback_body |}.

(** The callable [_setup_channel] hands to [get_channel]. *)
Definition setup_channel_callable : Callable ChanRef :=
  {| callable_name := _setup_channel_callback;
     callable_body := _setup_channel_callback_body |}.

(** A subscriber without a message handler. *)
Definition no_handler : Client.t :=
  {| Client.subscriber_address := Some q1; Client.publisher_address := None;
     Client.on_message := None; Client.on_message_error := None;
     Client.parse_json := false; Client.prefetch_count := 1;
     Client._channel := None; Client.consumer_tag := None;
     Client._publish_properties := None |}.

(** A publisher whose address was built without a queue. *)
Definition no_queue : Address.t :=
  {| Address.queue := None; Address.routing_key := None;
     Address.exchange := "ex1"; Address.exchange_type := direct |}.

Definition publisher_without_queue : Client.t :=
  {| Client.subscriber_address := Some q1; Client.publisher_address := Some no_queue;
     Client.on_message := Some 0%nat; Client.on_message_error := None;
     Client.parse_json := true; Client.prefetch_count := 1;
     Client._channel := None; Client.consumer_tag := None;
     Client._publish_properties := None |}.

(** The helper of [clients] at the moment the broker's reply to the channel
    request is taken up: connection open and recorded, nothing outstanding. *)
Definition channel_opening_for (clients : list Client.t) : State :=
  over_pending (fun _ => []) (started clients [0%nat]).

(** The class attributes before and after [AppSettings.setup()]. *)
Definition unread_settings : AppSettings.t :=
  {| AppSettings.environment := "development";
     AppSettings.global_environment := "DEFAULT";
     AppSettings.CONFIG_FILE_PATH := "app_settings.ini";
     AppSettings._initialized_parser := false;
     AppSettings._initialized_logger := false |}.

Definition read_settings (environment : string) : AppSettings.t :=
  {| AppSettings.environment := environment;
     AppSettings.global_environment := "DEFAULT";
     AppSettings.CONFIG_FILE_PATH := "app_settings.ini";
     AppSettings._initialized_parser := true;
     AppSettings._initialized_logger := true |}.

(** The parser of a file with the sections [DEFAULT] (rabbitmq_app_id=tpf)
    and [production] (rabbitmq_host=broker, rabbitmq_port=amqp): a section
    sees the keys of [DEFAULT] too, and another section does not exist. *)
Definition sample_parser_get (section option : string) : Result string :=
  if bool_decide (section = "DEFAULT") || bool_decide (section = "production") then
    if bool_decide (option = "rabbitmq_app_id") then Return "tpf"
    else if bool_decide (section = "production") && bool_decide (option = "rabbitmq_host")
    then Return "broker"
    else if bool_decide (section = "production") && bool_decide (option = "rabbitmq_port")
    then Return "amqp"
    else Raise (Exc NoOptionError
                  ("No option '" +:+ option +:+ "' in section: '" +:+ section +:+ "'") None)
  else Raise (Exc NoSectionError ("No section: '" +:+ section +:+ "'") None).

(** [getint] is [int] of what [get] returns; no value of this file is a
    numeral. *)
Definition sample_parser_getint (section option : string) : Result Z :=
  match sample_parser_get section option with
  | Return text =>
      Raise (Exc ValueError
               ("invalid literal for int() with base 10: '" +:+ text +:+ "'") None)
  | Raise e => Raise e
  end.

(** The parser before any file was read: only the empty [DEFAULT]. *)
Definition empty_parser {V} (section option : string) : Result V :=
  if bool_decide (section = "DEFAULT")
  then Raise (Exc NoOptionError
                ("No option '" +:+ option +:+ "' in section: '" +:+ section +:+ "'") None)
  else Raise (Exc NoSectionError ("No section: '" +:+ section +:+ "'") None).

(** [str] of an integer. *)
Definition str_of_int (z : Z) : string :=
  NilZero.string_of_int (Z.to_int z).

(** The client of the scenario once the helper has given it channel 0, and
    the properties it stamps its messages with under [sample_externals]. *)
Definition connected : Client.t := set_channel both_ways (Some 0%nat).

Definition guest_properties : BasicProperties :=
  {| app_id := Some "guest"; content_type := Some "application/json" |}.

Definition not_json : PyException := Exc JSONDecodeError "Expecting value" None.

(** Three clients: a subscriber, a publisher, and one that does both. *)
Definition mixed_clients : list Client.t :=
  [subscriber_only 0%nat; publisher_only; both_ways].

(** The helper inside [_setup_channel]'s callback, channel 0 just recorded,
    with a client in second place whose publisher address has no queue. *)
Definition before_bad_client : State :=
  over_helper (over_helper_channel (fun _ => Some 0%nat))
    (channel_opening_for [both_ways; publisher_without_queue; publisher_only]).

(** * Properties *)

(** ** Stepping through statements *)

Lemma bind_return {A B} (m : Py A) (k : A -> Py B) s a s' :
  m s = (Return a, s') -> (m ≫= k) s = k a s'.
Proof. intros H. unfold mbind, Py_bind. by rewrite H. Qed.

Lemma bind_raise {A B} (m : Py A) (k : A -> Py B) s e s' :
  m s = (Raise e, s') -> (m ≫= k) s = (Raise e, s').
Proof. intros H. unfold mbind, Py_bind. by rewrite H. Qed.

Lemma attr_of_Some {A} (o : A) attr s : attr_of (Some o) attr s = (Return o, s).
Proof. reflexivity. Qed.

(** ** types.py *)

(** C4, as the code has it: [check_attributes] raises exactly when the queue
    is absent ([None]), and what it raises is an [AttributeError]; every
    string, the empty one too, is accepted as a queue name. *)
Theorem check_attributes_raises_iff_queue_absent (a : Address.t) :
  (is_Some (raised (check_attributes a)) <-> Address.queue a = None) /\
  (forall e, raised (check_attributes a) = Some e -> exc_class e = AttributeError) /\
  (forall q, Address.queue a = Some q -> exists a', check_attributes a = Return a').
Proof.
  unfold check_attributes.
  destruct (Address.queue a) as [q|] eqn:Hq; simpl.
  - destruct (Address.routing_key a); simpl;
      (split; [split; [intros [? ?]; discriminate | discriminate] |]);
      (split; [discriminate | eauto]).
  - split; [split; eauto |]. split; [| discriminate].
    intros e [= <-]. reflexivity.
Qed.

(** C4, the input that refutes it: an address whose queue is the empty
    string passes [check_attributes]. *)
Lemma check_attributes_accepts_empty_queue :
  Address.queue empty_queue = Some EmptyString /\
  check_attributes empty_queue
  = Return (Address.set_routing_key (Some EmptyString) empty_queue).
Proof. split; reflexivity. Qed.

(** C5, as the code has it: on an address with a queue, [check_attributes]
    returns; the queue is kept; a routing key that was unset ([None]) is the
    queue afterwards, and one that was set to a string, the empty one too,
    is kept. *)
Theorem check_attributes_fills_routing_key (a : Address.t) (q : string) :
  Address.queue a = Some q ->
  exists a',
    check_attributes a = Return a' /\
    Address.queue a' = Some q /\
    Address.exchange a' = Address.exchange a /\
    Address.exchange_type a' = Address.exchange_type a /\
    (Address.routing_key a = None -> Address.routing_key a' = Address.queue a') /\
    (forall rk, Address.routing_key a = Some rk -> Address.routing_key a' = Some rk).
Proof.
  intros Hq. unfold check_attributes. rewrite Hq.
  destruct (Address.routing_key a) as [rk|] eqn:Hrk.
  - exists a. repeat split; try done. by rewrite Hrk.
  - eexists. split; [reflexivity |]. simpl. repeat split; try done.
Qed.

Lemma check_attributes_fills_routing_key_witness :
  exists a',
    check_attributes q1 = Return a' /\
    Address.queue a' = Some "q1" /\
    Address.exchange a' = Address.exchange q1 /\
    Address.exchange_type a' = Address.exchange_type q1 /\
    (Address.routing_key q1 = None -> Address.routing_key a' = Address.queue a') /\
    (forall rk, Address.routing_key q1 = Some rk -> Address.routing_key a' = Some rk).
Proof. apply (check_attributes_fills_routing_key q1 "q1"). reflexivity. Defined.

(** C5, the input that refutes it: an address whose routing key is the
    empty string passes [check_attributes] as it is; the routing key is not
    the queue afterwards. *)
Lemma check_attributes_keeps_empty_routing_key :
  Address.queue empty_routing_key = Some "q1" /\
  Address.routing_key empty_routing_key = Some EmptyString /\
  check_attributes empty_routing_key = Return empty_routing_key /\
  Address.routing_key empty_routing_key <> Address.queue empty_routing_key.
Proof. repeat apply conj; try reflexivity. discriminate. Qed.

(** ** client.py: [publish] *)

Section publish_properties.
Context {ext : Externals}.

(** C6: without a publisher address, [publish] raises
    [MissingPublisherAddressError] whatever the message, and leaves the
    state as it was: nothing is logged and [basic_publish] is not called. *)
Theorem publish_without_publisher_address
    (self : Client.t) (message : Message) (s : State) :
  Client.publisher_address self = None ->
  exists text,
    publish self message s = (Raise (Exc MissingPublisherAddressError text None), s) /\
    trace (publish self message s).2 = trace s.
Proof.
  intros Hp. unfold publish. rewrite Hp. eexists. split; reflexivity.
Qed.

(** C10, as the code has it: with a publisher address and no subscriber
    address, [publish] never returns and leaves the state as it was, nothing
    logged and nothing sent.  What it raises is the [AttributeError] of
    [None.queue] when the message is a [str] or [json.dumps] prints it, and
    what [json.dumps] raised otherwise: the message is turned into text
    before the subscriber address is looked at. *)
Theorem publish_without_subscriber_address
    (self : Client.t) (publisher : Address.t) (message : Message) (s : State) :
  Client.publisher_address self = Some publisher ->
  Client.subscriber_address self = None ->
  publish self message s
  = (match message_text message with
     | Return _ => Raise (NoneType_has_no_attribute "queue")
     | Raise e => Raise e
     end, s) /\
  exc_class (NoneType_has_no_attribute "queue") = AttributeError /\
  is_Some (raised (publish self message s).1) /\
  trace (publish self message s).2 = trace s.
Proof.
  intros Hp Hs. unfold publish. rewrite Hp, Hs.
  unfold mbind, Py_bind, lift.
  destruct (message_text message) as [body|e]; simpl; eauto.
Qed.

End publish_properties.

Lemma publish_without_publisher_address_witness :
  exists text,
    publish (ext := sample_externals) (subscriber_only 0%nat) (JString "hi")
      (initial_state [])
    = (Raise (Exc MissingPublisherAddressError text None), initial_state []) /\
    trace (publish (ext := sample_externals) (subscriber_only 0%nat) (JString "hi")
             (initial_state [])).2
    = trace (initial_state []).
Proof.
  apply (publish_without_publisher_address (ext := sample_externals)
           (subscriber_only 0%nat) (JString "hi") (initial_state [])).
  reflexivity.
Defined.

Lemma publish_without_subscriber_address_witness :
  publish (ext := sample_externals) publisher_only (JObject []) (initial_state [])
  = (Raise (NoneType_has_no_attribute "queue"), initial_state []) /\
  exc_class (NoneType_has_no_attribute "queue") = AttributeError /\
  is_Some (raised (publish (ext := sample_externals) publisher_only (JObject [])
                     (initial_state [])).1) /\
  trace (publish (ext := sample_externals) publisher_only (JObject [])
           (initial_state [])).2
  = trace (initial_state []).
Proof.
  apply (publish_without_subscriber_address (ext := sample_externals)
           publisher_only q1 (JObject []) (initial_state []));
    reflexivity.
Defined.

(** C10, the input that refutes it: a [dict] that holds a [set].  The
    publisher-only client raises the [TypeError] of [json.dumps], not an
    [AttributeError]: the subscriber address is not reached. *)
Lemma publish_set_without_subscriber_address :
  Client.publisher_address publisher_only = Some q1 /\
  Client.subscriber_address publisher_only = None /\
  json_dumps (Externals := sample_externals) dict_with_a_set
  = Raise (Exc TypeError "Object is not JSON serializable" None) /\
  publish (ext := sample_externals) publisher_only dict_with_a_set (initial_state [])
  = (Raise (Exc TypeError "Object is not JSON serializable" None), initial_state []) /\
  exc_class (Exc TypeError "Object is not JSON serializable" None) <> AttributeError.
Proof. repeat apply conj; try reflexivity. discriminate. Qed.

(** ** client.py: the dispatch of a delivered message *)

Lemma over_trace_nil s : over_trace (fun t => t ++ []) s = s.
Proof. destruct s. unfold over_trace. simpl. by rewrite app_nil_r. Qed.

Lemma over_trace_app s a b :
  over_trace (fun t => t ++ b) (over_trace (fun t => t ++ a) s)
  = over_trace (fun t => t ++ (a ++ b)) s.
Proof. destruct s. unfold over_trace. simpl. by rewrite app_assoc. Qed.

Lemma trace_over_trace f s : trace (over_trace f s) = f (trace s).
Proof. by destruct s. Qed.

Section dispatch.
Context {ext : Externals} {user : UserCode}.

(** Parsing changes nothing but the log. *)
Lemma parse_incoming_message_effect self body s :
  exists more,
    (_parse_incoming_message self body s).2 = over_trace (fun t => t ++ more) s /\
    Forall (fun ev => exists r, ev = logging_error r) more.
Proof.
  unfold _parse_incoming_message, mbind, Py_bind, lift, try_except.
  destruct (decode_utf8 body) as [data|e].
  - destruct (negb (Client.parse_json self)).
    + exists []. rewrite over_trace_nil. split; [done | constructor].
    + destruct (json_loads data) as [j|e].
      * exists []. rewrite over_trace_nil. split; [done | constructor].
      * destruct (isinstance e JSONDecodeError).
        -- eexists [_]. split; [reflexivity |]. repeat constructor. eauto.
        -- exists []. rewrite over_trace_nil. split; [done | constructor].
  - exists []. rewrite over_trace_nil. split; [done | constructor].
Qed.

(** The call of the handler records itself, with the metadata it was
    given, and changes nothing else. *)
Lemma call_handler_effect self message metadata s :
  exists more,
    (call_handler self message metadata s).2 = over_trace (fun t => t ++ more) s /\
    Forall (passes_metadata metadata) more.
Proof.
  unfold call_handler.
  destruct (Client.on_message self) as [h|].
  - exists [on_message_call h message metadata].
    split; [| by repeat constructor].
    unfold mbind, Py_bind, emit, modify.
    by destruct (call_on_message h message metadata) as [[|e]|[|e]].
  - exists []. rewrite over_trace_nil. split; [done | constructor].
Qed.

Lemma task_wrapper_try_effect self body metadata s :
  exists more,
    (task_wrapper_try self body metadata s).2 = over_trace (fun t => t ++ more) s /\
    Forall (passes_metadata metadata) more.
Proof.
  unfold task_wrapper_try.
  destruct (parse_incoming_message_effect self body s) as (m1 & E1 & F1).
  assert (F1' : Forall (passes_metadata metadata) m1).
  { eapply Forall_impl; [exact F1 |]. intros ev [r ->]. exact I. }
  destruct (_parse_incoming_message self body s) as [[message|e] s1] eqn:Hp;
    simpl in E1; subst s1.
  - rewrite (bind_return _ _ _ _ _ Hp).
    destruct (call_handler_effect self message metadata
                (over_trace (fun t => t ++ m1) s)) as (m2 & E2 & F2).
    exists (m1 ++ m2). rewrite E2, over_trace_app. split; [done |].
    by apply Forall_app.
  - rewrite (bind_raise _ _ _ _ _ Hp). by exists m1.
Qed.

Lemma call_error_handler_effect h self e metadata s :
  call_error_handler h self e metadata s
  = (match call_on_message_error h self e metadata with
     | Completes => Return tt
     | Raises e' => Raise e'
     end,
     over_trace (fun t => t ++ [on_message_error_call h self e metadata]) s).
Proof.
  unfold call_error_handler, mbind, Py_bind, emit, modify.
  by destruct (call_on_message_error h self e metadata).
Qed.

(** What the [except] clause of [task_wrapper] does with an exception it
    accepts. *)
Lemma task_wrapper_handles self body metadata s s1 e :
  task_wrapper_try self body metadata s = (Raise e, s1) ->
  task_wrapper_catches e = true ->
  task_wrapper self body metadata s
  = match Client.on_message_error self, ON_MESSAGE_ERROR s1 with
    | Some h, _ | None, Some h => call_error_handler h self e metadata s1
    | None, None =>
        (Return tt,
         over_trace (fun t => t ++ [logging_error (Uncaught_error_while_processing_message e body);
                                    logging_debug traceback_format_exc]) s1)
    end.
Proof.
  intros Hbody Hcatch. unfold task_wrapper, try_except.
  rewrite Hbody, Hcatch.
  destruct (Client.on_message_error self); [done |].
  unfold mbind at 1, Py_bind at 1, gets. simpl.
  destruct (ON_MESSAGE_ERROR s1); [done |].
  unfold mbind, Py_bind, emit, modify. by rewrite over_trace_app.
Qed.

(** What the [except] clause lets through. *)
Lemma task_wrapper_passes self body metadata s s1 e :
  task_wrapper_try self body metadata s = (Raise e, s1) ->
  task_wrapper_catches e = false ->
  task_wrapper self body metadata s = (Raise e, s1).
Proof.
  intros Hbody Hcatch. unfold task_wrapper, try_except.
  by rewrite Hbody, Hcatch.
Qed.

(** The [try:] block records the parsing error and the handler call, and
    changes nothing else. *)
Lemma task_wrapper_try_events self body metadata s :
  exists more,
    (task_wrapper_try self body metadata s).2 = over_trace (fun t => t ++ more) s /\
    Forall (try_block_event metadata) more.
Proof.
  unfold task_wrapper_try.
  destruct (parse_incoming_message_effect self body s) as (m1 & E1 & F1).
  assert (F1' : Forall (try_block_event metadata) m1).
  { eapply Forall_impl; [exact F1 |]. intros ev Hev. by left. }
  destruct (_parse_incoming_message self body s) as [[message|e] s1] eqn:Hp;
    simpl in E1; subst s1.
  - rewrite (bind_return _ _ _ _ _ Hp).
    assert (exists m2,
              (call_handler self message metadata
                 (over_trace (fun t => t ++ m1) s)).2
              = over_trace (fun t => t ++ m2) (over_trace (fun t => t ++ m1) s) /\
              Forall (try_block_event metadata) m2) as (m2 & E2 & F2).
    { unfold call_handler.
      destruct (Client.on_message self) as [h|].
      - exists [on_message_call h message metadata].
        split; [| apply Forall_cons_2; [right; eauto | apply Forall_nil_2]].
        unfold mbind, Py_bind, emit, modify.
        by destruct (call_on_message h message metadata) as [[|e]|[|e]].
      - exists []. rewrite over_trace_nil. split; [done | constructor]. }
    exists (m1 ++ m2). rewrite E2, over_trace_app. split; [done |].
    by apply Forall_app.
  - rewrite (bind_raise _ _ _ _ _ Hp). by exists m1.
Qed.

(** C9, as the code has it: an exception [e] raised by the [try:] block of
    [task_wrapper] (by the parsing, by the handler, or by awaiting what the
    handler returned), after the block has recorded the parsing error and
    the handler call with the metadata and nothing else.

    When [e] is an instance of [Exception] or a [KeyboardInterrupt], it goes
    to the client's own error handler if it has one, else to
    [DefaultParameters.ON_MESSAGE_ERROR] if that is set, else to the log;
    the error handler is called with the client, [e] and the same metadata;
    the task ends normally when the error handler returns and in the log
    case, and with the exception of the error handler when that one raises.

    When [e] is of another class, it leaves the task as the block raised
    it: no error handler is called and the log is not written. *)
Theorem task_wrapper_routes_exceptions
    (self : Client.t) (body : bytes) (metadata : MessageMetadata)
    (s s1 : State) (e : PyException) :
  task_wrapper_try self body metadata s = (Raise e, s1) ->
  let r := task_wrapper self body metadata s in
  (exists more,
     s1 = over_trace (fun t => t ++ more) s /\
     Forall (try_block_event metadata) more) /\
  (is_Exception (exc_class e) = true \/ exc_class e = KeyboardInterrupt ->
   match Client.on_message_error self, ON_MESSAGE_ERROR s with
   | Some h, _ | None, Some h =>
       r = (match call_on_message_error h self e metadata with
            | Completes => Return tt
            | Raises e' => Raise e'
            end,
            over_trace (fun t => t ++ [on_message_error_call h self e metadata]) s1)
   | None, None =>
       r = (Return tt,
            over_trace (fun t =>
                t ++ [logging_error (Uncaught_error_while_processing_message e body);
                      logging_debug traceback_format_exc]) s1)
   end) /\
  (is_Exception (exc_class e) = false -> exc_class e <> KeyboardInterrupt ->
   r = (Raise e, s1)).
Proof.
  intros Hbody r.
  destruct (task_wrapper_try_events self body metadata s) as (more & E & F).
  rewrite Hbody in E. simpl in E.
  split; [by exists more |]. split.
  - intros Hclass.
    assert (Hcatch : task_wrapper_catches e = true).
    { unfold task_wrapper_catches, isinstance.
      destruct Hclass as [-> | ->]; reflexivity. }
    subst r. rewrite (task_wrapper_handles _ _ _ _ _ _ Hbody Hcatch).
    replace (ON_MESSAGE_ERROR s1) with (ON_MESSAGE_ERROR s)
      by (subst s1; by destruct s).
    destruct (Client.on_message_error self) as [h|];
      [| destruct (ON_MESSAGE_ERROR s) as [h|]];
      by rewrite ?call_error_handler_effect.
  - intros Hexc Hkbd. subst r.
    apply (task_wrapper_passes _ _ _ _ _ _ Hbody).
    unfold task_wrapper_catches, isinstance. rewrite Hexc.
    by rewrite bool_decide_eq_false_2.
Qed.

End dispatch.

Lemma task_wrapper_routes_exceptions_witness :
  let self := subscriber_only 1%nat in
  let e := Exc ValueError "bad value" None in
  let s := initial_state [] in
  let s1 := over_trace (fun t => t ++ [on_message_call 1%nat (JString "hello") delivery_1]) s in
  let r := task_wrapper (ext := sample_externals) (user := sample_user)
             self [] delivery_1 s in
  (exists more,
     s1 = over_trace (fun t => t ++ more) s /\
     Forall (try_block_event delivery_1) more) /\
  (is_Exception ValueError = true \/ ValueError = KeyboardInterrupt ->
   r = (Return tt,
        over_trace (fun t =>
            t ++ [logging_error (Uncaught_error_while_processing_message e []);
                  logging_debug traceback_format_exc]) s1)) /\
  (is_Exception ValueError = false -> ValueError <> KeyboardInterrupt ->
   r = (Raise e, s1)).
Proof.
  apply (task_wrapper_routes_exceptions (ext := sample_externals)
           (user := sample_user) (subscriber_only 1%nat) [] delivery_1
           (initial_state []) _ (Exc ValueError "bad value" None)).
  reflexivity.
Defined.

(** C9, the input that refutes it: the handler of [exiting_client] raises
    [SystemExit]; the exception leaves the task, and the client's error
    handler is not called. *)
Lemma task_wrapper_lets_SystemExit_through :
  exc_class (Exc SystemExit "1" None) = SystemExit /\
  call_on_message (UserCode := sample_user) 3%nat (JString "hello") delivery_1
  = Plain (Raises (Exc SystemExit "1" None)) /\
  Client.on_message_error exiting_client = Some 7%nat /\
  task_wrapper (ext := sample_externals) (user := sample_user)
    exiting_client [] delivery_1 (initial_state [])
  = (Raise (Exc SystemExit "1" None),
     over_trace (fun _ => [on_message_call 3%nat (JString "hello") delivery_1])
       (initial_state [])).
Proof. repeat split; reflexivity. Qed.

(** ** setup_helper.py: the consumer callback *)

Lemma self_channel_Some attr s ch :
  SetupHelper._channel (helper s) = Some ch ->
  self_channel attr s = (Return ch, s).
Proof.
  intros H. unfold self_channel, mbind, Py_bind, gets. by rewrite H.
Qed.

Section consumer_callback.
Context {ext : Externals} {user : UserCode}.

Lemma on_message_wrapper_trace self body metadata s :
  trace (on_message_wrapper self body metadata s).2
  = trace s ++ on_message_wrapper_events self body metadata.
Proof.
  unfold on_message_wrapper, on_message_wrapper_events.
  destruct (Client.subscriber_address self) as [a|]; simpl.
  - destruct (Client.on_message self); destruct s; simpl;
      by rewrite <- ?app_assoc.
  - by rewrite app_nil_r.
Qed.

(** Whatever a task does, it only adds to the trace. *)
Lemma task_wrapper_trace self body metadata s :
  exists more, trace (task_wrapper self body metadata s).2 = trace s ++ more.
Proof.
  destruct (task_wrapper_try_effect self body metadata s) as (m1 & E1 & _).
  unfold task_wrapper, try_except.
  destruct (task_wrapper_try self body metadata s) as [[[]|e] s1] eqn:Hb;
    simpl in E1; subst s1.
  - exists m1. simpl. by rewrite ?trace_over_trace.
  - destruct (task_wrapper_catches e).
    + destruct (Client.on_message_error self) as [h|].
      * rewrite call_error_handler_effect. simpl.
        rewrite ?trace_over_trace, <- ?app_assoc; eauto.
      * unfold mbind at 1, Py_bind at 1, gets. simpl.
        destruct (ON_MESSAGE_ERROR _) as [h|].
        -- rewrite call_error_handler_effect. simpl.
           rewrite ?trace_over_trace, <- ?app_assoc; eauto.
        -- unfold mbind, Py_bind, emit, modify. simpl.
           rewrite ?trace_over_trace, <- ?app_assoc; eauto.
    + exists m1. simpl. by rewrite ?trace_over_trace.
Qed.

Lemma run_task_trace i s :
  exists more, trace (run_task i s).2 = trace s ++ more.
Proof.
  unfold run_task, mbind, Py_bind, gets. simpl.
  destruct (tasks s !! i) as [t|]; simpl.
  - destruct (task_wrapper_trace (task_self t) (task_body t) (task_metadata t)
                (over_tasks (delete i) s)) as (more & E).
    exists more. rewrite E. by destruct s.
  - exists []. by rewrite app_nil_r.
Qed.

(** C8: the consumer callback first calls [basic_ack] with the delivery tag
    and then [on_message_wrapper] with the body and the metadata, in the
    state where the acknowledgment is already made; so the acknowledgment
    comes before everything the dispatch records, and it stays in the trace
    when the loop later runs the task, however the handler ends. *)
Theorem acknowledge_before_dispatch
    (s : State) (ch : ChanRef) (data : ClientConfigContainer)
    (basic_deliver : Deliver) (properties : BasicProperties) (body : bytes) :
  SetupHelper._channel (helper s) = Some ch ->
  let metadata := {| basic_deliver := basic_deliver; properties := properties |} in
  let ack := channel ch (basic_ack (delivery_tag basic_deliver)) in
  let r := acknowledge_and_forward data basic_deliver properties body s in
  r = on_message_wrapper (client data) body metadata
        (over_trace (fun t => t ++ [ack]) s) /\
  trace r.2
  = trace s ++ ack :: on_message_wrapper_events (client data) body metadata /\
  (forall i, exists rest, trace (run_task i r.2).2 = trace s ++ ack :: rest).
Proof.
  intros Hch metadata ack r.
  assert (Hr : r = on_message_wrapper (client data) body metadata
                     (over_trace (fun t => t ++ [ack]) s)).
  { subst r. unfold acknowledge_and_forward.
    rewrite (bind_return _ _ _ _ _ (self_channel_Some "basic_ack" s ch Hch)).
    reflexivity. }
  split; [exact Hr |].
  assert (Ht : trace r.2
    = trace s ++ ack :: on_message_wrapper_events (client data) body metadata).
  { rewrite Hr, on_message_wrapper_trace, trace_over_trace.
    by rewrite <- app_assoc. }
  split; [exact Ht |].
  intros i. destruct (run_task_trace i r.2) as (more & E).
  exists (on_message_wrapper_events (client data) body metadata ++ more).
  rewrite E, Ht, <- app_assoc. reflexivity.
Qed.

End consumer_callback.

Lemma acknowledge_before_dispatch_witness :
  let s := started [subscriber_only 1%nat] [0; 0; 0; 0]%nat in
  let data := {| address := Some q1; client := subscriber_only 1%nat;
                 is_subscriber := true |} in
  let ack := channel 0%nat (basic_ack 1) in
  let r := acknowledge_and_forward data (basic_deliver delivery_1)
             (properties delivery_1) [] s in
  r = on_message_wrapper (subscriber_only 1%nat) [] delivery_1
        (over_trace (fun t => t ++ [ack]) s) /\
  trace r.2
  = trace s ++ ack :: on_message_wrapper_events (subscriber_only 1%nat) [] delivery_1 /\
  (forall i, exists rest,
     trace (run_task (ext := sample_externals) (user := sample_user) i r.2).2
     = trace s ++ ack :: rest).
Proof.
  apply (acknowledge_before_dispatch (ext := sample_externals)
           (user := sample_user)
           (started [subscriber_only 1%nat] [0; 0; 0; 0]%nat) 0%nat).
  reflexivity.
Defined.

(** ** setup_helper.py: the tear-down *)

Lemma for_each_cancel ch tags : forall s,
  SetupHelper._channel (helper s) = Some ch ->
  for_each tags (fun tag =>
    ch ← self_channel "basic_cancel";
    pika_channel_method ch (basic_cancel tag)
      (Some close_channel_if_all_clients_stopped)) s
  = (Return tt,
     over_pending (fun p => p ++ map (cancel_reply ch) tags)
       (over_trace (fun t => t ++ map (cancel_request ch) tags) s)).
Proof.
  induction tags as [|tag tags IH]; intros s Hch; simpl.
  - destruct s; unfold mret, Py_ret, over_pending, over_trace; simpl.
    by rewrite !app_nil_r.
  - unfold mbind at 1, Py_bind at 1.
    rewrite (bind_return _ _ _ _ _ (self_channel_Some "basic_cancel" s ch Hch)).
    unfold pika_channel_method, emit, modify, mbind at 1, Py_bind at 1.
    rewrite IH by (by destruct s).
    destruct s; unfold over_pending, over_trace, cancel_request, cancel_reply;
      simpl. by rewrite <- !app_assoc.
Qed.

Lemma tear_down_effect s ch :
  SetupHelper._channel (helper s) = Some ch ->
  tear_down s
  = (Return tt,
     over_pending (fun p => p ++ map (cancel_reply ch) (SetupHelper._consumer_tags (helper s)))
       (over_trace (fun t => t ++ map (cancel_request ch) (SetupHelper._consumer_tags (helper s))) s)).
Proof.
  intros Hch. unfold tear_down, mbind at 1, Py_bind at 1, gets.
  by apply for_each_cancel.
Qed.

Lemma fire_joining n k ch c s i :
  joining n k ch c s ->
  (i < length (pending s))%nat ->
  (fire i s).1 = Return tt /\
  joining n (S k) ch c (fire i s).2 /\
  trace (fire i s).2
  = trace s ++ (if bool_decide (S k < n)%nat then [] else closing_calls ch c).
Proof.
  intros (Hch & Hc & Hn & Hk & Hlen & Hall) Hi.
  destruct (lookup_lt_is_Some_2 _ _ Hi) as [p Hp].
  destruct (proj1 (Forall_lookup _ _) Hall i p Hp) as [tag ->].
  assert (Hdel : length (delete i (pending s)) = pred (length (pending s))).
  { rewrite length_delete; [lia | eauto]. }
  assert (Hall' : Forall (fun p => exists tag, p = cancel_reply ch tag)
                    (delete i (pending s))).
  { eapply Forall_delete; eauto. }
  destruct s as [tr cs chs pend cons ts lr nt mg ome [cl hc hch tags closed_] cmg].
  simpl in *. subst hch hc closed_.
  unfold fire, mbind, Py_bind, gets. simpl. rewrite Hp.
  unfold joining, arrive, cancel_reply, invoke, _close_channel_if_all_clients_stopped,
    mbind, Py_bind, modify, gets. simpl.
  subst n.
  destruct (bool_decide (S k < length tags)%nat) eqn:Hlt; simpl.
  - rewrite app_nil_r. repeat split; try done. lia.
  - repeat split; try done; [lia |].
    by rewrite <- !app_assoc.
Qed.

Lemma run_replies_cons i rest s :
  run_replies (i :: rest) s
  = match fire i s with
    | (Return _, s') => run_replies rest s'
    | (Raise e, s') => (Raise e, s')
    end.
Proof. reflexivity. Qed.

(** While cancellations are outstanding and one more than [j] of them is
    still to come, [j] replies change nothing but the counter. *)
Lemma run_replies_joining_prefix n ch c schedule : forall s k j,
  joining n k ch c s ->
  complete_schedule (length (pending s)) schedule ->
  (j < length schedule)%nat ->
  (run_replies (take j schedule) s).1 = Return tt /\
  trace (run_replies (take j schedule) s).2 = trace s /\
  SetupHelper._consumer_tags_closed (helper (run_replies (take j schedule) s).2)
  = (k + j)%nat.
Proof.
  induction schedule as [|i rest IH]; intros s k j Hj Hs Hlt; simpl in Hlt.
  - lia.
  - destruct j as [|j]; simpl.
    + destruct Hj as (_ & _ & _ & Hk & _). repeat split; try done.
      rewrite Hk. lia.
    + destruct (length (pending s)) as [|m] eqn:Hm; [done |].
      destruct Hs as [Hi Hrest].
      destruct (fire_joining n k ch c s i Hj) as (Hr & Hj' & Ht); [lia |].
      rewrite run_replies_cons.
      destruct (fire i s) as [[[]|e] s'] eqn:Hf; simpl in Hr; [| done].
      simpl in Hj', Ht.
      assert (Hm' : length (pending s') = m).
      { destruct Hj as (_ & _ & _ & _ & Hl & _).
        destruct Hj' as (_ & _ & _ & _ & Hl' & _). lia. }
      destruct (IH s' (S k) j Hj') as (H1 & H2 & H3).
      { by rewrite Hm'. }
      { lia. }
      repeat split; [done | | rewrite H3; lia].
      rewrite H2, Ht.
      assert (Hlen : length rest = m).
      { clear -Hrest. revert m Hrest.
        induction rest as [|x rest IHr]; intros [|m]; simpl; try done.
        intros [_ H]. f_equal. by apply IHr. }
      destruct Hj as (_ & _ & _ & _ & Hl & _).
      rewrite bool_decide_eq_true_2; [by rewrite app_nil_r | lia].
Qed.

Lemma complete_schedule_length n schedule :
  complete_schedule n schedule -> length schedule = n.
Proof.
  revert n. induction schedule as [|i rest IH]; intros [|n]; simpl; try done.
  intros [_ H]. f_equal. by apply IH.
Qed.

(** When all outstanding cancellations are replied to, in any order, the
    last reply, and only it, closes the channel and the connection and stops
    the loop. *)
Lemma run_replies_joining_all n ch c schedule : forall s k,
  joining n k ch c s ->
  complete_schedule (length (pending s)) schedule ->
  schedule <> [] ->
  (run_replies schedule s).1 = Return tt /\
  trace (run_replies schedule s).2 = trace s ++ closing_calls ch c /\
  SetupHelper._consumer_tags_closed (helper (run_replies schedule s).2) = n /\
  pending (run_replies schedule s).2 = [].
Proof.
  induction schedule as [|i rest IH]; intros s k Hj Hs Hne; [done |].
  destruct (length (pending s)) as [|m] eqn:Hm; [done |].
  destruct Hs as [Hi Hrest].
  destruct (fire_joining n k ch c s i Hj) as (Hr & Hj' & Ht); [lia |].
  rewrite run_replies_cons.
  destruct (fire i s) as [[[]|e] s'] eqn:Hf; simpl in Hr; [| done].
  simpl in Hj', Ht.
  assert (Hm' : length (pending s') = m).
  { destruct Hj as (_ & _ & _ & _ & Hl & _).
    destruct Hj' as (_ & _ & _ & _ & Hl' & _). lia. }
  pose proof (complete_schedule_length _ _ Hrest) as Hlen.
  destruct Hj as (_ & _ & _ & _ & Hl & _).
  destruct rest as [|i' rest'].
  - simpl in Hlen. subst m. simpl.
    rewrite bool_decide_eq_false_2 in Ht by lia.
    destruct Hj' as (_ & _ & _ & Hk' & _).
    repeat split; try done; [lia |].
    by apply nil_length_inv.
  - destruct (IH s' (S k) Hj') as (H1 & H2 & H3 & H4); [by rewrite Hm' | done |].
    repeat split; try done.
    rewrite H2, Ht. simpl in Hlen.
    rewrite bool_decide_eq_true_2 by lia. by rewrite app_nil_r.
Qed.

(** C1: with [n >= 1] recorded consumer tags, [tear_down] sends the [n]
    cancel requests; whatever the order in which the [n] replies arrive,
    after fewer than [n] of them nothing has happened but the counting, and
    the [n]-th makes the close sequence, once: channel close, connection
    close, loop stop. *)
Theorem tear_down_closes_once_after_all_cancellations
    (s : State) (ch : ChanRef) (c : ConnRef) (schedule : list nat) :
  let tags := SetupHelper._consumer_tags (helper s) in
  let n := length tags in
  SetupHelper._channel (helper s) = Some ch ->
  SetupHelper._connection (helper s) = Some c ->
  SetupHelper._consumer_tags_closed (helper s) = 0%nat ->
  pending s = [] ->
  (1 <= n)%nat ->
  complete_schedule n schedule ->
  let s0 := (tear_down s).2 in
  (tear_down s).1 = Return tt /\
  trace s0 = trace s ++ map (cancel_request ch) tags /\
  pending s0 = map (cancel_reply ch) tags /\
  (forall j, (j < n)%nat ->
     let rj := run_replies (take j schedule) s0 in
     rj.1 = Return tt /\ trace rj.2 = trace s0 /\
     SetupHelper._consumer_tags_closed (helper rj.2) = j) /\
  let r := run_replies schedule s0 in
  r.1 = Return tt /\
  trace r.2 = trace s0 ++ closing_calls ch c /\
  SetupHelper._consumer_tags_closed (helper r.2) = n /\
  pending r.2 = [].
Proof.
  intros tags n Hch Hc Hk Hp Hn Hs s0.
  subst s0. rewrite (tear_down_effect s ch Hch). simpl.
  set (s0 := over_pending _ _).
  assert (Hp0 : pending s0 = map (cancel_reply ch) tags).
  { subst s0. destruct s. simpl in *. by subst. }
  assert (Hj : joining n 0 ch c s0).
  { unfold joining. rewrite Hp0, length_map.
    subst s0. destruct s. simpl in *.
    repeat split; try done; try lia.
    apply Forall_forall. intros p Hin.
    apply list_elem_of_fmap in Hin as (tag & -> & _). eauto. }
  assert (Hs0 : complete_schedule (length (pending s0)) schedule).
  { by rewrite Hp0, length_map. }
  pose proof (complete_schedule_length _ _ Hs) as Hlen.
  split; [done |].
  split. { subst s0 tags. by destruct s. }
  split; [done |].
  split.
  - intros j Hjn.
    apply (run_replies_joining_prefix n ch c schedule s0 0 j Hj Hs0). lia.
  - apply (run_replies_joining_all n ch c schedule s0 0 Hj Hs0).
    intros ->. simpl in Hlen. lia.
Qed.

(** ** setup_helper.py: the set-up of one address *)

Lemma pending_requested ch m cb s :
  pending (requested ch m cb s) = pending s ++ [method_reply ch m cb].
Proof. by destruct s. Qed.

(** The reply to the request made last: its callback runs in the state
    where the request is recorded and no longer outstanding. *)
Lemma fire_requested ch m cb s :
  (forall tag, m <> basic_cancel tag) ->
  fire (length (pending s)) (requested ch m cb s)
  = invoke cb method_frame (over_trace (fun t => t ++ [channel ch m]) s).
Proof.
  intros Hm. unfold fire, mbind at 1, Py_bind at 1, gets.
  rewrite pending_requested, list_lookup_middle by done.
  unfold mbind at 1, Py_bind at 1, modify.
  assert (E : over_pending (delete (length (pending s))) (requested ch m cb s)
              = over_trace (fun t => t ++ [channel ch m]) s).
  { destruct s. unfold requested, over_pending, over_trace. simpl.
    by rewrite delete_middle, app_nil_r. }
  rewrite E. unfold arrive.
  destruct m; try done. by destruct (Hm consumer_tag).
Qed.

(** No reply is outstanding at a position past the end. *)
Lemma fire_nothing i s :
  (length (pending s) <= i)%nat -> fire i s = (Return tt, s).
Proof.
  intros H. unfold fire, mbind, Py_bind, gets.
  by rewrite lookup_ge_None_2.
Qed.

Lemma setup_message_callback_effect data a ch s :
  SetupHelper._channel (helper s) = Some ch ->
  address data = Some a ->
  _setup_message_callback data s
  = (Return tt, consuming ch (Address.queue a) data s).
Proof.
  intros Hch Ha. unfold _setup_message_callback.
  rewrite (bind_return _ _ _ _ _ (self_channel_Some _ s ch Hch)).
  rewrite Ha. reflexivity.
Qed.

Lemma setup_qos_effect data ch s :
  SetupHelper._channel (helper s) = Some ch ->
  _setup_qos data s
  = (Return tt,
     requested ch (basic_qos (Client.prefetch_count (client data)))
       (then_setup_message_callback data) s).
Proof.
  intros Hch. unfold _setup_qos.
  by rewrite (bind_return _ _ _ _ _ (self_channel_Some _ s ch Hch)).
Qed.

Lemma setup_routing_key_effect data a ch s :
  SetupHelper._channel (helper s) = Some ch ->
  address data = Some a ->
  _setup_routing_key data s
  = if is_default_exchange a then _setup_routing_key_callback_body data s
    else (Return tt,
          requested ch
            (queue_bind (Address.queue a) (Address.exchange a) (Address.routing_key a))
            (_setup_routing_key_callback data) s).
Proof.
  intros Hch Ha. unfold _setup_routing_key. rewrite Ha.
  rewrite (bind_return _ _ _ _ _ (attr_of_Some a _ s)).
  destruct (is_default_exchange a); [done |].
  by rewrite (bind_return _ _ _ _ _ (self_channel_Some _ s ch Hch)).
Qed.

Lemma setup_queue_effect data a ch s :
  SetupHelper._channel (helper s) = Some ch ->
  address data = Some a ->
  _setup_queue data s
  = (Return tt,
     requested ch (queue_declare (Address.queue a)) (then_setup_routing_key data) s).
Proof.
  intros Hch Ha. unfold _setup_queue.
  rewrite (bind_return _ _ _ _ _ (self_channel_Some _ s ch Hch)).
  rewrite Ha. reflexivity.
Qed.

Lemma setup_exchange_effect data a ch s :
  SetupHelper._channel (helper s) = Some ch ->
  address data = Some a ->
  _setup_exchange data s
  = if is_default_exchange a then _setup_queue data s
    else (Return tt,
          requested ch
            (exchange_declare (Address.exchange a) (Address.exchange_type a))
            (then_setup_queue data) s).
Proof.
  intros Hch Ha. unfold _setup_exchange. rewrite Ha.
  rewrite (bind_return _ _ _ _ _ (attr_of_Some a _ s)).
  destruct (is_default_exchange a); [done |].
  by rewrite (bind_return _ _ _ _ _ (self_channel_Some _ s ch Hch)).
Qed.

Lemma run_replies_nothing k i s :
  (length (pending s) <= i)%nat ->
  run_replies (replicate k i) s = (Return tt, s).
Proof.
  intros H. induction k as [|k IH]; [done |].
  simpl. rewrite run_replies_cons, fire_nothing by done. exact IH.
Qed.

Lemma chain_ends_after s ch m calls r :
  chain_ends (over_trace (fun t => t ++ [channel ch m]) s) ch calls r ->
  chain_ends s ch (m :: calls) r.
Proof.
  intros (H1 & H2 & H3). repeat split; [done | by destruct s |].
  rewrite H3. destruct s. simpl. by rewrite <- app_assoc.
Qed.

Lemma then_run_requested k ch m cb s :
  (forall tag, m <> basic_cancel tag) ->
  then_run (S k) (length (pending s)) (Return tt, requested ch m cb s)
  = then_run k (length (pending s))
      (invoke cb method_frame (over_trace (fun t => t ++ [channel ch m]) s)).
Proof.
  intros Hm. unfold then_run at 1. simpl replicate.
  rewrite run_replies_cons, fire_requested by done. reflexivity.
Qed.

Section chain.
Variables (ch : ChanRef) (data : ClientConfigContainer) (a : Address.t)
  (q : string).
Hypothesis Ha : address data = Some a.
Hypothesis Hq : Address.queue a = Some q.

Lemma chain_message_callback k s :
  SetupHelper._channel (helper s) = Some ch ->
  chain_ends s ch [basic_consume (Some q) (next_consumer_tag s)]
    (then_run k (length (pending s)) (_setup_message_callback data s)).
Proof.
  intros Hch. rewrite (setup_message_callback_effect data a ch s Hch Ha), Hq.
  unfold then_run. rewrite run_replies_nothing by (by destruct s).
  repeat split; by destruct s.
Qed.

Lemma chain_callback_body k s :
  SetupHelper._channel (helper s) = Some ch ->
  chain_ends s ch (consume_calls data q s)
    (then_run (S k) (length (pending s)) (_setup_routing_key_callback_body data s)).
Proof.
  intros Hch. unfold _setup_routing_key_callback_body, consume_calls.
  destruct (is_subscriber data); cbn [negb].
  - rewrite (setup_qos_effect data ch s Hch), then_run_requested by done.
    apply chain_ends_after.
    apply (chain_message_callback k (over_trace _ s)). by destruct s.
  - unfold then_run, mret, Py_ret. rewrite run_replies_nothing by done.
    repeat split; simpl. by rewrite app_nil_r.
Qed.

Lemma chain_routing_key k s :
  SetupHelper._channel (helper s) = Some ch ->
  chain_ends s ch
    ((if is_default_exchange a then []
      else [queue_bind (Some q) (Address.exchange a) (Address.routing_key a)])
     ++ consume_calls data q s)
    (then_run (S (S k)) (length (pending s)) (_setup_routing_key data s)).
Proof.
  intros Hch. rewrite (setup_routing_key_effect data a ch s Hch Ha), Hq.
  destruct (is_default_exchange a).
  - by apply chain_callback_body.
  - rewrite then_run_requested by done.
    apply chain_ends_after.
    apply (chain_callback_body k (over_trace _ s)). by destruct s.
Qed.

Lemma chain_queue k s :
  SetupHelper._channel (helper s) = Some ch ->
  chain_ends s ch
    (queue_declare (Some q)
     :: (if is_default_exchange a then []
         else [queue_bind (Some q) (Address.exchange a) (Address.routing_key a)])
     ++ consume_calls data q s)
    (then_run (S (S (S k))) (length (pending s)) (_setup_queue data s)).
Proof.
  intros Hch. rewrite (setup_queue_effect data a ch s Hch Ha), Hq.
  rewrite then_run_requested by done.
  apply chain_ends_after.
  apply (chain_routing_key k (over_trace _ s)). by destruct s.
Qed.

Lemma chain_exchange k s :
  SetupHelper._channel (helper s) = Some ch ->
  chain_ends s ch
    (if is_default_exchange a
     then queue_declare (Some q) :: consume_calls data q s
     else exchange_declare (Address.exchange a) (Address.exchange_type a)
          :: queue_declare (Some q)
          :: queue_bind (Some q) (Address.exchange a) (Address.routing_key a)
          :: consume_calls data q s)
    (then_run (S (S (S (S k)))) (length (pending s)) (_setup_exchange data s)).
Proof.
  intros Hch. rewrite (setup_exchange_effect data a ch s Hch Ha).
  pose proof (chain_queue (S k) s Hch) as Hd.
  pose proof (chain_queue k (over_trace (fun t => t ++
    [channel ch (exchange_declare (Address.exchange a) (Address.exchange_type a))]) s)) as Hn.
  destruct (is_default_exchange a).
  - exact Hd.
  - rewrite then_run_requested by done.
    apply chain_ends_after. apply Hn. by destruct s.
Qed.

End chain.

(** C7: the set-up of one address that has a queue, followed through the
    replies to its own requests, in any state where the channel is set.  On
    the default exchange the calls are [queue_declare] and, for a
    subscriber, [basic_qos] and [basic_consume]: no [exchange_declare], no
    [queue_bind].  On any other exchange they are [exchange_declare],
    [queue_declare], [queue_bind] with the routing key [check_attributes]
    left, and then the same.  Nothing of it is left outstanding. *)
Theorem setup_address_calls
    (s : State) (data : ClientConfigContainer) (a : Address.t) (q : string)
    (ch : ChanRef) :
  address data = Some a ->
  Address.queue a = Some q ->
  SetupHelper._channel (helper s) = Some ch ->
  let rk := match Address.routing_key a with
            | Some rk => Some rk
            | None => Some q
            end in
  let r := (_setup_address data;;
            run_replies (replicate 4 (length (pending s)))) s in
  r.1 = Return tt /\
  pending r.2 = pending s /\
  trace r.2
  = trace s ++ map (channel ch)
      (if is_default_exchange a
       then queue_declare (Some q) :: consume_calls data q s
       else exchange_declare (Address.exchange a) (Address.exchange_type a)
            :: queue_declare (Some q)
            :: queue_bind (Some q) (Address.exchange a) rk
            :: consume_calls data q s).
Proof.
  intros Ha Hq Hch rk r.
  set (a' := match Address.routing_key a with
             | Some _ => a
             | None => Address.set_routing_key (Some q) a
             end).
  assert (Hcheck : check_attributes a = Return a').
  { unfold check_attributes, a'. rewrite Hq. by destruct (Address.routing_key a). }
  assert (Hq' : Address.queue a' = Some q).
  { unfold a'. by destruct (Address.routing_key a). }
  assert (Hrk' : Address.routing_key a' = rk).
  { unfold a', rk. destruct (Address.routing_key a) eqn:E; [exact E | reflexivity]. }
  assert (Hex' : Address.exchange a' = Address.exchange a).
  { unfold a'. by destruct (Address.routing_key a). }
  assert (Hty' : Address.exchange_type a' = Address.exchange_type a).
  { unfold a'. by destruct (Address.routing_key a). }
  assert (Hd' : is_default_exchange a' = is_default_exchange a).
  { unfold is_default_exchange. by rewrite Hex'. }
  set (data' := with_address a' data).
  assert (Hr : r = (_setup_exchange data';;
                    run_replies (replicate 4 (length (pending s)))) s).
  { subst r. unfold _setup_address. rewrite Ha.
    unfold mbind, Py_bind, lift. by rewrite Hcheck. }
  rewrite Hr. clear Hr r.
  assert (Ha' : address data' = Some a') by reflexivity.
  change ((_setup_exchange data';; run_replies (replicate 4 (length (pending s)))) s)
    with (then_run 4 (length (pending s)) (_setup_exchange data' s)).
  pose proof (chain_exchange ch data' a' q Ha' Hq' 0 s Hch) as H.
  rewrite Hd', Hex', Hty', Hrk' in H. exact H.
Qed.

Lemma setup_address_calls_witness :
  let s := channel_open in
  let data := {| address := Some q1_at_ex1; client := both_ways;
                 is_subscriber := false |} in
  let r := (_setup_address data;;
            run_replies (replicate 4 (length (pending s)))) s in
  r.1 = Return tt /\
  pending r.2 = pending s /\
  trace r.2
  = trace s ++ map (channel 0%nat)
      [exchange_declare "ex1" direct; queue_declare (Some "q1");
       queue_bind (Some "q1") "ex1" (Some "q1")].
Proof.
  apply (setup_address_calls channel_open
           {| address := Some q1_at_ex1; client := both_ways;
              is_subscriber := false |} q1_at_ex1 "q1" 0%nat);
    reflexivity.
Defined.

Lemma tear_down_closes_once_after_all_cancellations_witness :
  let s := three_subscribers in
  let schedule := [2; 0; 0]%nat in
  let s0 := (tear_down s).2 in
  (tear_down s).1 = Return tt /\
  trace s0 = trace s ++ map (cancel_request 0%nat) [0; 1; 2]%nat /\
  pending s0 = map (cancel_reply 0%nat) [0; 1; 2]%nat /\
  (forall j, (j < 3)%nat ->
     let rj := run_replies (take j schedule) s0 in
     rj.1 = Return tt /\ trace rj.2 = trace s0 /\
     SetupHelper._consumer_tags_closed (helper rj.2) = j) /\
  let r := run_replies schedule s0 in
  r.1 = Return tt /\
  trace r.2 = trace s0 ++ closing_calls 0%nat 0%nat /\
  SetupHelper._consumer_tags_closed (helper r.2) = 3%nat /\
  pending r.2 = [].
Proof.
  apply (tear_down_closes_once_after_all_cancellations three_subscribers
           0%nat 0%nat [2; 0; 0]%nat).
  - vm_compute. reflexivity.
  - vm_compute. reflexivity.
  - vm_compute. reflexivity.
  - vm_compute. reflexivity.
  - vm_compute. lia.
  - vm_compute. lia.
Defined.

(** ** The defects *)

Lemma run_replies_quiescent schedule s :
  pending s = [] -> run_replies schedule s = (Return tt, s).
Proof.
  intros Hp. induction schedule as [|i rest IH]; [done |].
  rewrite run_replies_cons, fire_nothing; [exact IH |].
  rewrite Hp. simpl. lia.
Qed.

(** C2, the input on which the code fails it: one client that only
    publishes, set up to the end.  No consumer tag is recorded, so
    [tear_down] cancels nothing and no callback is left to close anything:
    the channel and the connection stay open and the loop keeps running,
    whatever happens next. *)
Theorem tear_down_without_consumers_closes_nothing :
  let s := publisher_running in
  SetupHelper._consumer_tags (helper s) = [] /\
  pending s = [] /\
  tear_down s = (Return tt, s) /\
  (forall schedule, run_replies schedule s = (Return tt, s)) /\
  connections s = [opened] /\ channels s = [opened] /\ loop_running s = true.
Proof.
  repeat split; try reflexivity.
  intros schedule. by apply run_replies_quiescent.
Qed.

Section get_connection_properties.
Context {ext : Externals}.

(** On a connection that exists and is not open, [get_connection] calls the
    callback with it on the spot and makes no new connection. *)
Lemma get_connection_calls_back_when_not_open s c cb :
  ConnectionManager.__connection (manager s) = Some c ->
  connection_is_open c s = (Return false, s) ->
  get_connection (Some cb) s
  = (callable_body cb c;;
     gets (fun s => ConnectionManager.__connection (manager s))) s.
Proof.
  intros Hc Hopen. unfold get_connection.
  rewrite (bind_return (gets manager) _ s (manager s) s eq_refl), Hc.
  assert (Hcond : (is_open ← connection_is_open c; mret (negb is_open)) s
                  = (Return true, s)).
  { by rewrite (bind_return _ _ _ _ _ Hopen). }
  rewrite (bind_return _ _ _ _ _ Hcond). reflexivity.
Qed.

End get_connection_properties.

(** C3, the input on which the code fails it: the connection exists and is
    open, and [get_connection] is called with a callback.  The callback is
    not called (nothing of its body is in the outcome); a second connection
    object is made and replaces the first. *)
Theorem get_connection_replaces_open_connection (cb : Callable ConnRef) :
  let s := connection_open in
  ConnectionManager.__connection (manager s) = Some 0%nat /\
  connection_is_open 0%nat s = (Return true, s) /\
  let r := get_connection (ext := sample_externals) (Some cb) s in
  r.1 = Return (Some 1%nat) /\
  ConnectionManager.__connection (manager r.2) = Some 1%nat /\
  connections r.2 = [opened; opening] /\
  trace r.2
  = trace s ++ [set_event_loop;
                AsyncioConnection 1%nat localhost (Some (callable_name cb))] /\
  pending r.2 = pending s ++ [connection_opening 1%nat (Some (callable_name cb))].
Proof. cbv zeta. repeat apply conj; vm_compute; reflexivity. Qed.

(** * Further properties *)

(** ** connection_manager.py: further behaviour *)

Section connection_manager_properties.
Context {ext : Externals}.

(** Resolving the parameters changes nothing but the cache, and only on
    success. *)
Lemma get_connection_parameters_effect s :
  get_connection_parameters s
  = match (get_connection_parameters s).1 with
    | Return p =>
        (Return p,
         over_manager (over_manager_connection_parameters (fun _ => Some p)) s)
    | Raise e => (Raise e, s)
    end.
Proof.
  unfold get_connection_parameters, mbind, Py_bind, gets, lift, modify, mret, Py_ret.
  destruct s as [tr cs chs pend cons ts lr nt [mc mch [p|]] ome hl cmg]; simpl;
    [reflexivity |].
  destruct (AppSettings_get_str "rabbitmq_username" None); simpl; [| done].
  destruct (AppSettings_get_str "rabbitmq_password" None); simpl; [| done].
  destruct (AppSettings_get_str "rabbitmq_host" None); simpl; [| done].
  destruct (AppSettings_get_int "rabbitmq_port" None); simpl; [| done].
  destruct (AppSettings_get_str "rabbitmq_virtual_host" None); simpl; done.
Qed.

(** The outcome depends on the cache and the settings only. *)
Lemma get_connection_parameters_outcome s s' :
  ConnectionManager.connection_parameters (manager s)
  = ConnectionManager.connection_parameters (manager s') ->
  (get_connection_parameters s).1 = (get_connection_parameters s').1.
Proof.
  intros H.
  unfold get_connection_parameters, mbind, Py_bind, gets, lift, modify, mret, Py_ret.
  simpl. rewrite <- H.
  destruct (ConnectionManager.connection_parameters (manager s)); [done |].
  destruct (AppSettings_get_str "rabbitmq_username" None); simpl; [| done].
  destruct (AppSettings_get_str "rabbitmq_password" None); simpl; [| done].
  destruct (AppSettings_get_str "rabbitmq_host" None); simpl; [| done].
  destruct (AppSettings_get_int "rabbitmq_port" None); simpl; [| done].
  destruct (AppSettings_get_str "rabbitmq_virtual_host" None); simpl; done.
Qed.

Lemma setup_event_loop_effect s :
  _setup_event_loop s
  = (Return tt,
     over_trace (fun t => t ++ (if loop_running s then [] else [new_event_loop])
                            ++ [set_event_loop]) s).
Proof.
  unfold _setup_event_loop, mbind, Py_bind, gets, emit, modify, mret, Py_ret.
  destruct s as [tr cs chs pend cons ts [] nt mg ome hl cmg]; simpl; [done |].
  unfold over_trace. simpl. by rewrite <- app_assoc.
Qed.

Lemma bind_assoc {A B C} (m : Py A) (f : A -> Py B) (g : B -> Py C) s :
  ((m ≫= f) ≫= g) s = (m ≫= (fun a => f a ≫= g)) s.
Proof.
  unfold mbind, Py_bind. destruct (m s) as [[a|e] s1]; [| done].
  reflexivity.
Qed.

Lemma AsyncioConnection_effect p name s :
  pika_AsyncioConnection p name s
  = (Return (length (connections s)),
     over_pending (fun q => q ++ [connection_opening (length (connections s)) name])
       (over_trace (fun t => t ++ [AsyncioConnection (length (connections s)) p name])
          (over_connections (fun cs => cs ++ [opening]) s))).
Proof. by destruct s. Qed.

Lemma over_trace_snoc s (a : list Event) x y :
  over_trace (fun t => t ++ a ++ [x; y]) s
  = over_trace (fun t => t ++ [y]) (over_trace (fun t => t ++ a ++ [x]) s).
Proof. rewrite over_trace_app. by rewrite <- app_assoc. Qed.

(** The first connection: made, stored, returned; the callback is kept. *)
Lemma get_connection_creates
    (s : State) (cb : option (Callable ConnRef)) (p : ConnectionParameters) :
  ConnectionManager.__connection (manager s) = None ->
  (get_connection_parameters s).1 = Return p ->
  let c := length (connections s) in
  let name := callable_name <$> cb in
  get_connection cb s
  = (Return (Some c),
     over_manager (fun m =>
         {| ConnectionManager.__connection := Some c;
            ConnectionManager.__channel := ConnectionManager.__channel m;
            ConnectionManager.connection_parameters := Some p |})
       (over_pending (fun q => q ++ [connection_opening c name])
          (over_connections (fun cs => cs ++ [opening])
             (over_trace (fun t =>
                  t ++ (if loop_running s then [] else [new_event_loop])
                    ++ [set_event_loop; AsyncioConnection c p name]) s)))).
Proof.
  intros Hc Hp c name. subst c name. unfold get_connection.
  rewrite (bind_return (gets manager) _ s (manager s) s eq_refl), Hc.
  rewrite (bind_return (mret false) _ s false s eq_refl).
  cbv iota. rewrite !bind_assoc.
  rewrite (bind_return _ _ _ _ _ (setup_event_loop_effect s)).
  set (s1 := over_trace _ s).
  assert (Hp1 : get_connection_parameters s1
                = (Return p, over_manager (over_manager_connection_parameters
                                             (fun _ => Some p)) s1)).
  { rewrite get_connection_parameters_effect.
    rewrite (get_connection_parameters_outcome s1 s) by (by destruct s).
    by rewrite Hp. }
  cbv beta. rewrite !bind_assoc. rewrite (bind_return _ _ _ _ _ Hp1).
  cbv beta. rewrite ?bind_assoc.
  rewrite (bind_return _ _ _ _ _ (AsyncioConnection_effect p _ _)).
  cbv beta. rewrite over_trace_snoc. subst s1.
  destruct s as [tr cs chs pend cons ts lr nt [mc mch mp] ome hl cmg].
  cbn in Hc. subst mc. reflexivity.
Qed.

(** X1: the first [get_connection] (no connection yet, parameters
    resolvable) makes one connection object in state opening with the
    resolved parameters, leaves the callback with pika for the broker's
    reply without calling it, stores the connection and returns it. *)
Theorem get_connection_first_call
    (s : State) (cb : option (Callable ConnRef)) (p : ConnectionParameters) :
  ConnectionManager.__connection (manager s) = None ->
  (get_connection_parameters s).1 = Return p ->
  let c := length (connections s) in
  let name := callable_name <$> cb in
  get_connection cb s
  = (Return (Some c),
     over_manager (fun m =>
         {| ConnectionManager.__connection := Some c;
            ConnectionManager.__channel := ConnectionManager.__channel m;
            ConnectionManager.connection_parameters := Some p |})
       (over_pending (fun q => q ++ [connection_opening c name])
          (over_connections (fun cs => cs ++ [opening])
             (over_trace (fun t =>
                  t ++ (if loop_running s then [] else [new_event_loop])
                    ++ [set_event_loop; AsyncioConnection c p name]) s)))).
Proof. exact (get_connection_creates s cb p). Qed.

(** X2: parameters are resolved once.  After a call that returned them,
    every later call returns the same parameters and changes nothing,
    whatever the settings have become. *)
Theorem get_connection_parameters_resolved_once
    (s s1 : State) (p : ConnectionParameters) :
  get_connection_parameters s = (Return p, s1) ->
  forall ext' : Externals,
    get_connection_parameters (ext := ext') s1 = (Return p, s1).
Proof.
  intros H ext'. rewrite get_connection_parameters_effect in H.
  destruct ((get_connection_parameters s).1) as [p'|e]; [| done].
  injection H as -> <-.
  by destruct s as [tr cs chs pend cons ts lr nt [mc mch mp] ome hl cmg].
Qed.

(** Without parameters no connection is made. *)
Lemma get_connection_fails
    (s : State) (cb : option (Callable ConnRef)) (e : PyException) :
  ConnectionManager.__connection (manager s) = None ->
  (get_connection_parameters s).1 = Raise e ->
  get_connection cb s
  = (Raise e,
     over_trace (fun t => t ++ (if loop_running s then [] else [new_event_loop])
                            ++ [set_event_loop]) s).
Proof.
  intros Hc Hp. unfold get_connection.
  rewrite (bind_return (gets manager) _ s (manager s) s eq_refl), Hc.
  rewrite (bind_return (mret false) _ s false s eq_refl).
  cbv iota.
  unfold mbind at 1, Py_bind at 1. unfold mbind at 1, Py_bind at 1.
  rewrite setup_event_loop_effect.
  set (s1 := over_trace _ s).
  unfold mbind at 1, Py_bind at 1.
  rewrite get_connection_parameters_effect.
  rewrite (get_connection_parameters_outcome s1 s) by (by destruct s).
  by rewrite Hp.
Qed.

(** X3: when the parameters cannot be resolved (a setting is missing),
    [get_connection] raises what the settings raised after preparing the
    event loop: no connection object is made, nothing is stored, and the
    callback is neither called nor kept. *)
Theorem get_connection_unresolved_parameters
    (s : State) (cb : option (Callable ConnRef)) (e : PyException) :
  ConnectionManager.__connection (manager s) = None ->
  (get_connection_parameters s).1 = Raise e ->
  get_connection cb s
  = (Raise e,
     over_trace (fun t => t ++ (if loop_running s then [] else [new_event_loop])
                            ++ [set_event_loop]) s).
Proof. exact (get_connection_fails s cb e). Qed.

End connection_manager_properties.

Lemma channel_is_open_opened ch s :
  channels s !! ch = Some opened -> channel_is_open ch s = (Return true, s).
Proof.
  intros H. unfold channel_is_open, channel_status, mbind, Py_bind, gets, mret, Py_ret.
  by rewrite H.
Qed.

(** X4: [get_channel] reuses an open channel.  With the channel of the class
    open, the callback, if given, is called on the spot with that channel;
    no channel is requested and the stored channel is what was there.
    (Unlike [get_connection], the test has no negation.) *)
Theorem get_channel_reuses_open_channel
    (s : State) (ch : ChanRef) (cb : Callable ChanRef) :
  ConnectionManager.__channel (manager s) = Some ch ->
  channels s !! ch = Some opened ->
  get_channel None s = (Return (Some ch), s) /\
  get_channel (Some cb) s
  = (callable_body cb ch;;
     gets (fun s => ConnectionManager.__channel (manager s))) s.
Proof.
  intros Hch Hopen. unfold get_channel.
  rewrite !(bind_return (gets manager) _ s (manager s) s eq_refl), Hch.
  rewrite !(bind_return _ _ _ _ _ (channel_is_open_opened ch s Hopen)).
  split; [| reflexivity].
  unfold mbind, Py_bind, mret, Py_ret, gets. by rewrite Hch.
Qed.

(** X5: without an open channel, [get_channel] asks the stored connection
    for a new one: one channel object in state opening, the callback left
    with pika and not called, the channel stored and returned. *)
Theorem get_channel_opens_channel
    (s : State) (c : ConnRef) (cb : option (Callable ChanRef)) :
  ConnectionManager.__connection (manager s) = Some c ->
  (forall ch, ConnectionManager.__channel (manager s) = Some ch ->
              channels s !! ch <> Some opened) ->
  let ch := length (channels s) in
  let name := callable_name <$> cb in
  get_channel cb s
  = (Return (Some ch),
     over_manager (over_manager_channel (fun _ => Some ch))
       (over_pending (fun q => q ++ [channel_opening ch name])
          (over_trace (fun t => t ++ [connection_channel c ch name])
             (over_channels (fun chs => chs ++ [opening]) s)))).
Proof.
  intros Hc Hnot ch name. unfold get_channel.
  rewrite (bind_return (gets manager) _ s (manager s) s eq_refl).
  assert (Hcond :
    match ConnectionManager.__channel (manager s) with
    | Some ch => channel_is_open ch
    | None => mret false
    end s = (Return false, s)).
  { destruct (ConnectionManager.__channel (manager s)) as [ch0|] eqn:E; [| done].
    unfold channel_is_open, channel_status, mbind, Py_bind, gets, mret, Py_ret.
    specialize (Hnot ch0 eq_refl).
    destruct (channels s !! ch0) as [[]|]; simpl; try done. }
  rewrite (bind_return _ _ _ _ _ Hcond). cbv iota. rewrite Hc.
  subst ch name.
  destruct s as [tr cs chs pend cons ts lr nt [mc mch mp] ome hl cmg].
  reflexivity.
Qed.

(** X6: [close_connection] closes a connection once.  Called twice on a
    connection that is opening or open, it calls [close] the first time
    only; on one that is closing or closed it calls nothing. *)
Theorem close_connection_twice (s : State) (c : ConnRef) (st : Status) :
  ConnectionManager.__connection (manager s) = Some c ->
  connections s !! c = Some st ->
  let r := (close_connection;; close_connection) s in
  r.1 = Return tt /\
  trace r.2
  = trace s ++ (if bool_decide (st = closing) || bool_decide (st = closed)
                then [] else [connection_close c]) /\
  connections r.2 !! c
  = Some (if bool_decide (st = closed) then closed else closing).
Proof.
  intros Hc Hst r. subst r.
  assert (Hlt : (c < length (connections s))%nat) by (by eapply lookup_lt_Some).
  destruct s as [tr cs chs pend cons ts lr nt [mc mch mp] ome hl cmg].
  simpl in *. subst mc.
  unfold close_connection, connection_status, pika_connection_close.
  unfold mbind, Py_bind, gets, emit, modify, mret, Py_ret, attr_of. simpl.
  rewrite Hst. simpl.
  destruct st; simpl; rewrite ?Hst; simpl;
    rewrite ?list_lookup_insert_eq by done; simpl;
    rewrite ?app_nil_r; try done;
    (repeat split; try done; by rewrite list_lookup_insert_eq).
Qed.

Lemma get_connection_first_call_witness :
  get_connection (ext := sample_externals) (Some setup_callable) (initial_state [])
  = (Return (Some 0%nat),
     over_manager (fun m =>
         {| ConnectionManager.__connection := Some 0%nat;
            ConnectionManager.__channel := ConnectionManager.__channel m;
            ConnectionManager.connection_parameters := Some localhost |})
       (over_pending (fun q => q ++ [connection_opening 0%nat (Some setup_callback)])
          (over_connections (fun cs => cs ++ [opening])
             (over_trace (fun t =>
                  t ++ [new_event_loop]
                    ++ [set_event_loop;
                        AsyncioConnection 0%nat localhost (Some setup_callback)])
                (initial_state []))))).
Proof.
  apply (get_connection_first_call (ext := sample_externals)
           (initial_state []) (Some setup_callable) localhost);
    reflexivity.
Defined.

Lemma get_connection_parameters_resolved_once_witness :
  get_connection_parameters (ext := no_settings)
    (over_manager (over_manager_connection_parameters (fun _ => Some localhost))
       (initial_state []))
  = (Return localhost,
     over_manager (over_manager_connection_parameters (fun _ => Some localhost))
       (initial_state [])).
Proof.
  apply (get_connection_parameters_resolved_once (ext := sample_externals)
           (initial_state []) _ localhost).
  reflexivity.
Defined.

Lemma get_connection_unresolved_parameters_witness :
  get_connection (ext := no_settings) (Some setup_callable) (initial_state [])
  = (Raise (Exc NoOptionError "No option 'rabbitmq_username' in section: 'DEFAULT'" None),
     over_trace (fun t => t ++ [new_event_loop] ++ [set_event_loop])
       (initial_state [])).
Proof.
  apply (get_connection_unresolved_parameters (ext := no_settings)
           (initial_state []) (Some setup_callable));
    reflexivity.
Defined.

Lemma get_channel_reuses_open_channel_witness :
  get_channel None channel_open = (Return (Some 0%nat), channel_open) /\
  get_channel (Some setup_channel_callable) channel_open
  = (callable_body setup_channel_callable 0%nat;;
     gets (fun s => ConnectionManager.__channel (manager s))) channel_open.
Proof.
  apply (get_channel_reuses_open_channel channel_open 0%nat setup_channel_callable);
    vm_compute; reflexivity.
Defined.

Lemma get_channel_opens_channel_witness :
  get_channel (Some setup_channel_callable) connection_open
  = (Return (Some 1%nat),
     over_manager (over_manager_channel (fun _ => Some 1%nat))
       (over_pending (fun q => q ++ [channel_opening 1%nat (Some _setup_channel_callback)])
          (over_trace (fun t =>
               t ++ [connection_channel 0%nat 1%nat (Some _setup_channel_callback)])
             (over_channels (fun chs => chs ++ [opening]) connection_open)))).
Proof.
  apply (get_channel_opens_channel connection_open 0%nat (Some setup_channel_callable)).
  - vm_compute. reflexivity.
  - intros ch H. vm_compute in H. injection H as <-. vm_compute. discriminate.
Defined.

Lemma close_connection_twice_witness :
  let r := (close_connection;; close_connection) channel_open in
  r.1 = Return tt /\
  trace r.2 = trace channel_open ++ [connection_close 0%nat] /\
  connections r.2 !! 0%nat = Some closing.
Proof.
  apply (close_connection_twice channel_open 0%nat opened); vm_compute; reflexivity.
Defined.

(** ** client.py: further behaviour *)

Section client_properties.
Context {ext : Externals} {user : UserCode}.

(** What [_parse_incoming_message] does with a text [json.loads] refuses. *)
Lemma parse_invalid_json_effect
    (self : Client.t) (body : bytes) (data : string) (e : PyException)
    (s : State) :
  Client.parse_json self = true ->
  decode_utf8 body = Return data ->
  json_loads data = Raise e ->
  let message := "Couldn't decode string as JSON: " +:+ data in
  _parse_incoming_message self body s
  = if bool_decide (exc_class e = JSONDecodeError)
    then (Raise (Exc InvalidFormatError message (Some e)),
          over_trace (fun t => t ++ [logging_error (Couldnt_decode_string_as_JSON message)]) s)
    else (Raise e, s).
Proof.
  intros Hj Hd Hl message.
  unfold _parse_incoming_message, mbind, Py_bind, lift, try_except.
  rewrite Hd, Hj, Hl. simpl. unfold isinstance.
  by destruct (bool_decide (exc_class e = JSONDecodeError)).
Qed.

(** X7: a body that is not JSON, with JSON parsing on.  When [json.loads]
    raises a [JSONDecodeError], [_parse_incoming_message] logs one error and
    raises an [InvalidFormatError] whose message quotes the text and whose
    cause is the decoder's error; an exception of another class passes
    through as it is, unlogged. *)
Theorem parse_incoming_message_invalid_json
    (self : Client.t) (body : bytes) (data : string) (e : PyException)
    (s : State) :
  Client.parse_json self = true ->
  decode_utf8 body = Return data ->
  json_loads data = Raise e ->
  let message := "Couldn't decode string as JSON: " +:+ data in
  _parse_incoming_message self body s
  = if bool_decide (exc_class e = JSONDecodeError)
    then (Raise (Exc InvalidFormatError message (Some e)),
          over_trace (fun t => t ++ [logging_error (Couldnt_decode_string_as_JSON message)]) s)
    else (Raise e, s).
Proof. exact (parse_invalid_json_effect self body data e s). Qed.

Lemma get_publish_properties_effect self s :
  _get_publish_properties self s
  = (match (_get_publish_properties self s).1 with
     | Return r => Return r
     | Raise e => Raise e
     end, s).
Proof.
  unfold _get_publish_properties, mbind, Py_bind, lift, mret, Py_ret.
  destruct (Client._publish_properties self); [done |].
  by destruct (AppSettings_get_str "rabbitmq_app_id" (Some "Unknown")).
Qed.

(** The two calls of a [publish] that goes through. *)
Lemma publish_effect
    (self self' : Client.t) (publisher subscriber : Address.t) (ch : ChanRef)
    (props : BasicProperties) (message : Message) (body : string) (s : State) :
  Client.publisher_address self = Some publisher ->
  Client.subscriber_address self = Some subscriber ->
  Client._channel self = Some ch ->
  (_get_publish_properties self s).1 = Return (props, self') ->
  message_text message = Return body ->
  publish self message s
  = (Return self',
     over_trace (fun t =>
         t ++ [logging_debug (Publishing_message_at (Address.queue subscriber));
               channel ch (basic_publish (Address.exchange publisher)
                             (Address.routing_key publisher) body props)]) s).
Proof.
  intros Hp Hs Hc Hprops Hbody. unfold publish. rewrite Hp, Hs, Hc.
  rewrite (bind_return (lift (message_text message)) _ s body s)
    by (unfold lift; by rewrite Hbody).
  rewrite (bind_return _ _ _ _ _ (attr_of_Some subscriber "queue" s)).
  unfold mbind at 1, Py_bind at 1, emit at 1, modify.
  rewrite (bind_return _ _ _ _ _ (attr_of_Some ch "basic_publish" _)).
  unfold mbind at 1, Py_bind at 1.
  rewrite get_publish_properties_effect.
  assert (E : (_get_publish_properties self
                 (over_trace (fun t => t ++ [logging_debug (Publishing_message_at (Address.queue subscriber))]) s)).1
              = (_get_publish_properties self s).1).
  { unfold _get_publish_properties, mbind, Py_bind, lift, mret, Py_ret.
    destruct (Client._publish_properties self); [done |].
    by destruct (AppSettings_get_str "rabbitmq_app_id" (Some "Unknown")). }
  rewrite E, Hprops.
  unfold mbind, Py_bind, emit, modify, mret, Py_ret.
  by rewrite over_trace_app.
Qed.

(** X8: a publish that goes through.  With both addresses, the channel and
    the properties at hand, and a message that is a [str] or that
    [json.dumps] prints, [publish] logs one debug line (naming the
    subscriber's queue) and calls [basic_publish] once, on the publisher's
    exchange and routing key, with a string message as it is and any other
    message as [json.dumps] printed it; nothing else changes. *)
Theorem publish_sends_once
    (self self' : Client.t) (publisher subscriber : Address.t) (ch : ChanRef)
    (props : BasicProperties) (message : Message) (body : string) (s : State) :
  Client.publisher_address self = Some publisher ->
  Client.subscriber_address self = Some subscriber ->
  Client._channel self = Some ch ->
  (_get_publish_properties self s).1 = Return (props, self') ->
  message_text message = Return body ->
  publish self message s
  = (Return self',
     over_trace (fun t =>
         t ++ [logging_debug (Publishing_message_at (Address.queue subscriber));
               channel ch (basic_publish (Address.exchange publisher)
                             (Address.routing_key publisher) body props)]) s).
Proof. exact (publish_effect self self' publisher subscriber ch props message body s). Qed.

Lemma get_publish_properties_outcome self s s' :
  (_get_publish_properties self s).1 = (_get_publish_properties self s').1.
Proof.
  unfold _get_publish_properties, mbind, Py_bind, lift, mret, Py_ret.
  destruct (Client._publish_properties self); [done |].
  by destruct (AppSettings_get_str "rabbitmq_app_id" (Some "Unknown")).
Qed.

(** When the application id cannot be read, [publish] raises what the
    settings raised, after the debug line and before any call of the
    channel. *)
Lemma publish_properties_fail
    (self : Client.t) (publisher subscriber : Address.t) (ch : ChanRef)
    (e : PyException) (message : Message) (body : string) (s : State) :
  Client.publisher_address self = Some publisher ->
  Client.subscriber_address self = Some subscriber ->
  Client._channel self = Some ch ->
  (_get_publish_properties self s).1 = Raise e ->
  message_text message = Return body ->
  publish self message s
  = (Raise e,
     over_trace (fun t =>
         t ++ [logging_debug (Publishing_message_at (Address.queue subscriber))]) s).
Proof.
  intros Hp Hs Hc Hprops Hbody. unfold publish. rewrite Hp, Hs, Hc.
  rewrite (bind_return (lift (message_text message)) _ s body s)
    by (unfold lift; by rewrite Hbody).
  rewrite (bind_return _ _ _ _ _ (attr_of_Some subscriber "queue" s)).
  unfold mbind at 1, Py_bind at 1, emit at 1, modify.
  rewrite (bind_return _ _ _ _ _ (attr_of_Some ch "basic_publish" _)).
  unfold mbind at 1, Py_bind at 1.
  rewrite get_publish_properties_effect.
  by rewrite (get_publish_properties_outcome self _ s), Hprops.
Qed.

(** [publish] on a client that was not given its channel. *)
Lemma publish_channel_missing
    (self : Client.t) (publisher subscriber : Address.t) (message : Message)
    (body : string) (s : State) :
  Client.publisher_address self = Some publisher ->
  Client.subscriber_address self = Some subscriber ->
  Client._channel self = None ->
  message_text message = Return body ->
  publish self message s
  = (Raise (NoneType_has_no_attribute "basic_publish"),
     over_trace (fun t =>
         t ++ [logging_debug (Publishing_message_at (Address.queue subscriber))]) s).
Proof.
  intros Hp Hs Hc Hbody. unfold publish. rewrite Hp, Hs, Hc.
  rewrite (bind_return (lift (message_text message)) _ s body s)
    by (unfold lift; by rewrite Hbody).
  rewrite (bind_return _ _ _ _ _ (attr_of_Some subscriber "queue" s)).
  reflexivity.
Qed.

(** X9: without a channel ([set_channel] not yet called), a client with
    both addresses, given a message that is a [str] or that [json.dumps]
    prints, logs the debug line and then raises the [AttributeError] of
    [None.basic_publish]: nothing is sent and the settings are not read. *)
Theorem publish_without_channel
    (self : Client.t) (publisher subscriber : Address.t) (message : Message)
    (body : string) (s : State) :
  Client.publisher_address self = Some publisher ->
  Client.subscriber_address self = Some subscriber ->
  Client._channel self = None ->
  message_text message = Return body ->
  publish self message s
  = (Raise (NoneType_has_no_attribute "basic_publish"),
     over_trace (fun t =>
         t ++ [logging_debug (Publishing_message_at (Address.queue subscriber))]) s).
Proof. exact (publish_channel_missing self publisher subscriber message body s). Qed.

(** A message [json.dumps] refuses. *)
Lemma publish_text_raises
    (self : Client.t) (publisher : Address.t) (message : Message)
    (e : PyException) (s : State) :
  Client.publisher_address self = Some publisher ->
  message_text message = Raise e ->
  publish self message s = (Raise e, s).
Proof.
  intros Hp Hbody. unfold publish. rewrite Hp.
  apply bind_raise. unfold lift. by rewrite Hbody.
Qed.

(** What a [publish] that returned has found and done. *)
Lemma publish_returned (self self' : Client.t) (message : Message) (s s' : State) :
  publish self message s = (Return self', s') ->
  exists publisher subscriber ch props body,
    Client.publisher_address self = Some publisher /\
    Client.subscriber_address self = Some subscriber /\
    Client._channel self = Some ch /\
    (_get_publish_properties self s).1 = Return (props, self') /\
    message_text message = Return body /\
    s' = over_trace (fun t =>
             t ++ [logging_debug (Publishing_message_at (Address.queue subscriber));
                   channel ch (basic_publish (Address.exchange publisher)
                                 (Address.routing_key publisher) body props)]) s.
Proof.
  intros H.
  destruct (Client.publisher_address self) as [pub|] eqn:Hp;
    [| by unfold publish in H; rewrite Hp in H].
  destruct (message_text message) as [body|e] eqn:Hbody;
    [| by rewrite (publish_text_raises self pub message e s Hp Hbody) in H].
  destruct (Client.subscriber_address self) as [sub|] eqn:Hs.
  2:{ unfold publish in H. rewrite Hp, Hs in H.
      rewrite (bind_return (lift (message_text message)) _ s body s) in H
        by (unfold lift; by rewrite Hbody).
      done. }
  destruct (Client._channel self) as [ch0|] eqn:Hc;
    [| by rewrite (publish_channel_missing self pub sub message body s Hp Hs Hc Hbody) in H].
  destruct ((_get_publish_properties self s).1) as [[props0 self0]|e] eqn:Hg;
    [| by rewrite (publish_properties_fail self pub sub ch0 e message body s
                     Hp Hs Hc Hg Hbody) in H].
  rewrite (publish_effect self self0 pub sub ch0 props0 message body s
             Hp Hs Hc Hg Hbody) in H.
  injection H as -> <-.
  by exists pub, sub, ch0, props0, body.
Qed.

(** X28: a message [json.dumps] refuses.  With a publisher address,
    [publish] raises what [json.dumps] raised (a [TypeError] for a [dict]
    that holds a [set]) before the subscriber address, the channel and the
    settings are looked at: nothing is logged and nothing is sent.  Such a
    message is no [str]: a [str] is not given to [json.dumps]. *)
Theorem publish_refused_message
    (self : Client.t) (publisher : Address.t) (message : Message)
    (e : PyException) (s : State) :
  Client.publisher_address self = Some publisher ->
  message_text message = Raise e ->
  publish self message s = (Raise e, s) /\
  json_dumps message = Raise e /\
  (forall text, message <> JString text).
Proof.
  intros Hp Hbody. split; [| split].
  - unfold publish. rewrite Hp.
    apply bind_raise. unfold lift. by rewrite Hbody.
  - by destruct message.
  - intros text ->. discriminate Hbody.
Qed.

End client_properties.


Section dispatch_properties.
Context {ext : Externals} {user : UserCode}.

(** X11: what is published comes back.  The body of a successful [publish]
    is the text of the message and the last call in the trace; a receiver
    whose bytes decode to that body gets the message back from
    [_parse_incoming_message], unchanged state, provided it parses JSON
    exactly when the message is not a string and [json.loads] undoes
    [json.dumps] on this message. *)
Theorem publish_parse_round_trip
    (sender sender' : Client.t) (message : Message) (s s' : State) :
  publish sender message s = (Return sender', s') ->
  exists ch exchange routing_key body props,
    message_text message = Return body /\
    last (trace s')
    = Some (channel ch (basic_publish exchange routing_key body props)) /\
    forall (receiver : Client.t) (wire : bytes) (s2 : State),
      decode_utf8 wire = Return body ->
      match message with
      | JString _ => Client.parse_json receiver = false
      | _ => Client.parse_json receiver = true /\
             json_loads body = Return message
      end ->
      _parse_incoming_message receiver wire s2 = (Return message, s2).
Proof.
  intros H.
  destruct (publish_returned sender sender' message s s' H)
    as (pub & sub & ch0 & props0 & body & _ & _ & _ & _ & Hbody & ->).
  eexists ch0, _, _, body, props0. split; [done |]. split.
  { rewrite trace_over_trace, last_app. reflexivity. }
  intros receiver wire s2 Hd Hm.
  unfold _parse_incoming_message, mbind, Py_bind, lift, try_except, mret, Py_ret.
  rewrite Hd.
  destruct message;
    first [ rewrite Hm; simpl in Hbody; by injection Hbody as ->
          | destruct Hm as [Hpj Hrt]; rewrite Hpj; simpl; by rewrite Hrt ].
Qed.

(** X12: a delivery to a client without a handler is acknowledged and
    dropped: the callback calls [basic_ack], logs that it ignores the
    message, and schedules nothing. *)
Theorem delivery_without_handler_is_dropped
    (s : State) (ch : ChanRef) (data : ClientConfigContainer)
    (subscriber : Address.t) (basic_deliver : Deliver)
    (properties : BasicProperties) (body : bytes) :
  SetupHelper._channel (helper s) = Some ch ->
  Client.subscriber_address (client data) = Some subscriber ->
  Client.on_message (client data) = None ->
  acknowledge_and_forward data basic_deliver properties body s
  = (Return tt,
     over_trace (fun t =>
         t ++ [channel ch (basic_ack (delivery_tag basic_deliver));
               logging_debug (Ignoring_message (delivery_tag basic_deliver)
                                (Address.queue subscriber))]) s).
Proof.
  intros Hch Hs Hm. unfold acknowledge_and_forward.
  rewrite (bind_return _ _ _ _ _ (self_channel_Some "basic_ack" s ch Hch)).
  unfold pika_channel_method, mbind at 1, Py_bind at 1.
  unfold mbind at 1, Py_bind at 1, emit at 1, modify, mret, Py_ret.
  unfold on_message_wrapper. rewrite Hs, Hm.
  rewrite (bind_return _ _ _ _ _ (attr_of_Some subscriber "queue" _)).
  unfold emit, modify. by rewrite over_trace_app.
Qed.

(** X13: a delivery the handler accepts.  When the body parses and the
    handler returns (a plain value or an awaitable that completes), the task
    calls the handler once with the parsed message and the metadata, calls no
    error handler, logs nothing and ends normally. *)
Theorem task_wrapper_handler_returns
    (self : Client.t) (body : bytes) (metadata : MessageMetadata)
    (message : Message) (h : HandlerRef) (s s1 : State) :
  _parse_incoming_message self body s = (Return message, s1) ->
  Client.on_message self = Some h ->
  call_on_message h message metadata = Plain Completes \/
  call_on_message h message metadata = Awaitable Completes ->
  task_wrapper self body metadata s
  = (Return tt, over_trace (fun t => t ++ [on_message_call h message metadata]) s).
Proof.
  intros Hp Hh Hc.
  assert (Hs1 : s1 = s).
  { unfold _parse_incoming_message, mbind, Py_bind, lift, try_except, mret, Py_ret in Hp.
    destruct (decode_utf8 body); [| done].
    destruct (negb (Client.parse_json self)); [by injection Hp |].
    destruct (json_loads a); [by injection Hp |].
    by destruct (isinstance e JSONDecodeError). }
  subst s1.
  unfold task_wrapper, try_except, task_wrapper_try.
  rewrite (bind_return _ _ _ _ _ Hp).
  unfold call_handler. rewrite Hh.
  unfold mbind, Py_bind, emit, modify, mret, Py_ret.
  by destruct Hc as [-> | ->].
Qed.

(** X14: a body that is not JSON never reaches the message handler.  With
    JSON parsing on and a [JSONDecodeError] from [json.loads], the task logs
    the decoding error and hands an [InvalidFormatError] (cause: the
    decoder's error) to the error handler chain: the client's own handler,
    else the default one, else the log. *)
Theorem task_wrapper_invalid_json
    (self : Client.t) (body : bytes) (metadata : MessageMetadata)
    (data : string) (e : PyException) (s : State) :
  Client.parse_json self = true ->
  decode_utf8 body = Return data ->
  json_loads data = Raise e ->
  exc_class e = JSONDecodeError ->
  let message := "Couldn't decode string as JSON: " +:+ data in
  let error := Exc InvalidFormatError message (Some e) in
  let s1 := over_trace (fun t => t ++ [logging_error (Couldnt_decode_string_as_JSON message)]) s in
  task_wrapper self body metadata s
  = match Client.on_message_error self, ON_MESSAGE_ERROR s with
    | Some h, _ | None, Some h =>
        (match call_on_message_error h self error metadata with
         | Completes => Return tt
         | Raises e' => Raise e'
         end,
         over_trace (fun t => t ++ [on_message_error_call h self error metadata]) s1)
    | None, None =>
        (Return tt,
         over_trace (fun t =>
             t ++ [logging_error (Uncaught_error_while_processing_message error body);
                   logging_debug traceback_format_exc]) s1)
    end.
Proof.
  intros Hj Hd Hl Hc message error s1.
  pose proof (parse_invalid_json_effect self body data e s Hj Hd Hl) as Hp.
  rewrite bool_decide_eq_true_2 in Hp by done.
  assert (Hbody : task_wrapper_try self body metadata s = (Raise error, s1)).
  { unfold task_wrapper_try. by rewrite (bind_raise _ _ _ _ _ Hp). }
  rewrite (task_wrapper_handles self body metadata s s1 error Hbody eq_refl).
  replace (ON_MESSAGE_ERROR s1) with (ON_MESSAGE_ERROR s) by (by destruct s).
  destruct (Client.on_message_error self) as [h|];
    [| destruct (ON_MESSAGE_ERROR s) as [h|]];
    by rewrite ?call_error_handler_effect.
Qed.

End dispatch_properties.

Lemma parse_incoming_message_invalid_json_witness :
  _parse_incoming_message (ext := sample_externals) both_ways [] (initial_state [])
  = (Raise (Exc InvalidFormatError "Couldn't decode string as JSON: hello"
              (Some not_json)),
     over_trace (fun t =>
         t ++ [logging_error (Couldnt_decode_string_as_JSON
                                "Couldn't decode string as JSON: hello")])
       (initial_state [])).
Proof.
  exact (parse_incoming_message_invalid_json (ext := sample_externals)
           both_ways [] "hello" not_json (initial_state [])
           eq_refl eq_refl eq_refl).
Defined.

Lemma publish_sends_once_witness :
  publish (ext := sample_externals) connected (JObject []) channel_open
  = (Return (Client.with_publish_properties (Some guest_properties) connected),
     over_trace (fun t =>
         t ++ [logging_debug (Publishing_message_at (Address.queue q1));
               channel 0%nat (basic_publish (Address.exchange q1_at_ex1)
                                (Address.routing_key q1_at_ex1) "{}"
                                guest_properties)]) channel_open).
Proof.
  apply (publish_sends_once (ext := sample_externals) connected
           (Client.with_publish_properties (Some guest_properties) connected)
           q1_at_ex1 q1 0%nat guest_properties (JObject []) "{}" channel_open);
    reflexivity.
Defined.

Lemma publish_without_channel_witness :
  publish (ext := sample_externals) both_ways (JObject []) (initial_state [])
  = (Raise (NoneType_has_no_attribute "basic_publish"),
     over_trace (fun t =>
         t ++ [logging_debug (Publishing_message_at (Address.queue q1))])
       (initial_state [])).
Proof.
  apply (publish_without_channel (ext := sample_externals) both_ways
           q1_at_ex1 q1 (JObject []) "{}" (initial_state []));
    reflexivity.
Defined.

Lemma publish_refused_message_witness :
  publish (ext := sample_externals) connected dict_with_a_set channel_open
  = (Raise (Exc TypeError "Object is not JSON serializable" None), channel_open) /\
  json_dumps (Externals := sample_externals) dict_with_a_set
  = Raise (Exc TypeError "Object is not JSON serializable" None) /\
  (forall text, dict_with_a_set <> JString text).
Proof.
  apply (publish_refused_message (ext := sample_externals) connected q1_at_ex1
           dict_with_a_set
           (Exc TypeError "Object is not JSON serializable" None) channel_open);
    reflexivity.
Defined.


Lemma publish_parse_round_trip_witness :
  exists ch exchange routing_key body props,
    message_text (ext := sample_externals) (JString "hello") = Return body /\
    last (trace (publish (ext := sample_externals) connected (JString "hello")
                   channel_open).2)
    = Some (channel ch (basic_publish exchange routing_key body props)) /\
    forall (receiver : Client.t) (wire : bytes) (s2 : State),
      decode_utf8 (Externals := sample_externals) wire = Return body ->
      Client.parse_json receiver = false ->
      _parse_incoming_message (ext := sample_externals) receiver wire s2
      = (Return (JString "hello"), s2).
Proof.
  apply (publish_parse_round_trip (ext := sample_externals) connected
           (Client.with_publish_properties (Some guest_properties) connected)
           (JString "hello") channel_open).
  vm_compute. reflexivity.
Defined.

Lemma delivery_without_handler_is_dropped_witness :
  acknowledge_and_forward
    {| address := Some q1; client := no_handler; is_subscriber := true |}
    (basic_deliver delivery_1) (properties delivery_1) [] channel_open
  = (Return tt,
     over_trace (fun t =>
         t ++ [channel 0%nat (basic_ack 1);
               logging_debug (Ignoring_message 1 (Address.queue q1))])
       channel_open).
Proof.
  apply (delivery_without_handler_is_dropped channel_open 0%nat
           {| address := Some q1; client := no_handler; is_subscriber := true |}
           q1 (basic_deliver delivery_1) (properties delivery_1) []);
    vm_compute; reflexivity.
Defined.

Lemma task_wrapper_handler_returns_witness :
  task_wrapper (ext := sample_externals) (user := sample_user)
    (subscriber_only 0%nat) [] delivery_1 (initial_state [])
  = (Return tt,
     over_trace (fun t => t ++ [on_message_call 0%nat (JString "hello") delivery_1])
       (initial_state [])).
Proof.
  apply (task_wrapper_handler_returns (ext := sample_externals)
           (user := sample_user) (subscriber_only 0%nat) [] delivery_1
           (JString "hello") 0%nat (initial_state []) (initial_state []));
    [reflexivity | reflexivity | left; reflexivity].
Defined.

Lemma task_wrapper_invalid_json_witness :
  let message := "Couldn't decode string as JSON: hello" in
  let error := Exc InvalidFormatError message (Some not_json) in
  task_wrapper (ext := sample_externals) (user := sample_user)
    both_ways [] delivery_1 (initial_state [])
  = (Return tt,
     over_trace (fun t =>
         t ++ [logging_error (Uncaught_error_while_processing_message error []);
               logging_debug traceback_format_exc])
       (over_trace (fun t =>
            t ++ [logging_error (Couldnt_decode_string_as_JSON message)])
          (initial_state []))).
Proof.
  exact (task_wrapper_invalid_json (ext := sample_externals) (user := sample_user)
           both_ways [] delivery_1 "hello" not_json (initial_state [])
           eq_refl eq_refl eq_refl eq_refl).
Defined.

(** ** setup_helper.py: further behaviour *)

Lemma for_each_app {A} (xs ys : list A) (body : A -> Py unit) s :
  for_each (xs ++ ys) body s
  = match for_each xs body s with
    | (Return _, s1) => for_each ys body s1
    | (Raise e, s1) => (Raise e, s1)
    end.
Proof.
  revert s. induction xs as [|x xs IH]; intros s; simpl; [done |].
  unfold mbind, Py_bind. destruct (body x s) as [[[]|e] s1]; [apply IH | done].
Qed.

(** X15: an address without a queue stops the set-up where it stands.
    [_setup_clients] raises the [AttributeError] of [check_attributes] at
    the first client whose publisher address has no queue: the clients
    before it have had their requests sent, and nothing is sent for that
    client or for any client after it. *)
Theorem setup_clients_stops_at_missing_queue
    (s : State) (good rest : list Client.t) (bad : Client.t) (a : Address.t) :
  SetupHelper.clients (helper s) = good ++ bad :: rest ->
  Client.publisher_address bad = Some a ->
  Address.queue a = None ->
  _setup_clients s
  = match setup_clients_of good s with
    | (Return _, s1) =>
        (Raise (Exc AttributeError "Missing `queue` attribute" None), s1)
    | (Raise e, s1) => (Raise e, s1)
    end.
Proof.
  intros Hcs Hp Hq.
  unfold _setup_clients, mbind at 1, Py_bind at 1, gets at 1.
  rewrite Hcs. fold (setup_clients_of (good ++ bad :: rest)).
  unfold setup_clients_of. rewrite for_each_app.
  destruct (for_each good _ s) as [[[]|e] s1]; [| done].
  simpl. unfold mbind at 1, Py_bind at 1.
  unfold mbind at 1, Py_bind at 1, gets at 1.
  unfold mbind at 1, Py_bind at 1.
  unfold _setup_address at 1. simpl. rewrite Hp.
  unfold mbind at 1, Py_bind at 1, lift, check_attributes. by rewrite Hq.
Qed.

(** ** setup_helper.py: the consumers the set-up records *)

Lemma setting_up_requested ch n m cb s :
  setting_up ch n s ->
  (forall tag, m <> basic_cancel tag) ->
  setup_callback_for cb ->
  setting_up ch (n + owed_by cb) (requested ch m cb s).
Proof.
  intros (Hch & Hall & Hn & Hnd & Hlt) Hm Hcb.
  destruct s as [tr cs chs pend cons ts lr nt mg ome hl cmg].
  unfold setting_up, requested. simpl in *.
  repeat split; try done.
  - apply Forall_app. split; [done |]. by repeat constructor.
  - rewrite sum_list_with_app. simpl. lia.
Qed.

Lemma setting_up_consuming ch n q data s :
  setting_up ch n s ->
  setting_up ch (S n) (consuming ch q data s).
Proof.
  intros (Hch & Hall & Hn & Hnd & Hlt).
  destruct s as [tr cs chs pend cons ts lr nt mg ome [cl hc hch tags closed_] cmg].
  unfold setting_up, consuming. simpl in *.
  repeat split; try done.
  - rewrite length_app. simpl. lia.
  - apply NoDup_app. repeat split; [done | | apply NoDup_singleton].
    intros t Ht ->%list_elem_of_singleton.
    pose proof (proj1 (Forall_forall _ _) Hlt _ Ht). simpl in *. lia.
  - apply Forall_app. split.
    + eapply Forall_impl; [exact Hlt |]. simpl. lia.
    + repeat constructor.
Qed.

Lemma setup_routing_key_callback_body_setting_up ch n d s :
  setting_up ch n s ->
  is_Some (address d) ->
  exists s1,
    _setup_routing_key_callback_body d s = (Return tt, s1) /\
    setting_up ch (n + if is_subscriber d then 1 else 0) s1.
Proof.
  intros Hs Ha. unfold _setup_routing_key_callback_body.
  destruct (is_subscriber d) eqn:Hsub; cbn [negb].
  - rewrite (setup_qos_effect d ch s (proj1 Hs)). eexists. split; [done |].
    apply (setting_up_requested ch n _ (then_setup_message_callback d)); setup_side.
  - exists s. split; [done |]. by rewrite Nat.add_0_r.
Qed.

(** Every callback of the set-up returns and keeps the count. *)
Lemma invoke_setting_up ch n cb s :
  setting_up ch n s ->
  setup_callback_for cb ->
  exists s1,
    invoke cb method_frame s = (Return tt, s1) /\
    setting_up ch (n + owed_by cb) s1.
Proof.
  intros Hs Hcb. pose proof (proj1 Hs) as Hch.
  destruct cb as [| |d|d|d|d|]; try done; simpl in Hcb;
    destruct Hcb as [a Ha]; simpl invoke.
  - rewrite (setup_queue_effect d a ch s Hch Ha). eexists. split; [done |].
    apply (setting_up_requested ch n _ (then_setup_routing_key d)); setup_side.
  - rewrite (setup_routing_key_effect d a ch s Hch Ha).
    destruct (is_default_exchange a).
    + by apply setup_routing_key_callback_body_setting_up.
    + eexists. split; [done |].
      apply (setting_up_requested ch n _ (_setup_routing_key_callback d)); setup_side.
  - by apply setup_routing_key_callback_body_setting_up.
  - rewrite (setup_message_callback_effect d a ch s Hch Ha).
    eexists. split; [done |]. simpl. rewrite Nat.add_1_r.
    by apply setting_up_consuming.
Qed.

(** Any reply, at any time, keeps the count. *)
Lemma fire_setting_up ch n i s :
  setting_up ch n s ->
  exists s1, fire i s = (Return tt, s1) /\ setting_up ch n s1.
Proof.
  intros Hs. unfold fire, mbind at 1, Py_bind at 1, gets.
  destruct (pending s !! i) as [p|] eqn:Hp; [| by exists s].
  destruct Hs as (Hch & Hall & Hn & Hnd & Hlt).
  pose proof (proj1 (Forall_lookup _ _) Hall i p Hp) as Hrep.
  destruct p as [| |ch' m cb]; try done. destruct Hrep as [Hm Hcb].
  unfold mbind at 1, Py_bind at 1, modify.
  assert (Hdel : setting_up ch (n - owed_by cb) (over_pending (delete i) s)).
  { pose proof (delete_Permutation _ _ _ Hp) as Hperm.
    assert (Hsum : sum_list_with owed_tags (pending s)
                   = (owed_by cb + sum_list_with owed_tags (delete i (pending s)))%nat).
    { by rewrite Hperm at 1. }
    destruct s as [tr cs chs pend cons ts lr nt mg ome hl cmg].
    unfold setting_up. simpl in *.
    repeat split; try done; [by apply Forall_delete | lia]. }
  assert (Harr : arrive (method_reply ch' m cb) (over_pending (delete i) s)
                 = invoke cb method_frame (over_pending (delete i) s)).
  { unfold arrive. destruct m; try done. by destruct (Hm consumer_tag). }
  rewrite Harr.
  destruct (invoke_setting_up ch _ cb _ Hdel Hcb) as (s1 & E & Hs1).
  exists s1. split; [done |].
  assert (Hle : (owed_by cb <= n)%nat).
  { pose proof (delete_Permutation _ _ _ Hp) as Hperm.
    assert (Hsum : sum_list_with owed_tags (pending s)
                   = (owed_by cb + sum_list_with owed_tags (delete i (pending s)))%nat).
    { by rewrite Hperm at 1. }
    lia. }
  by replace n with (n - owed_by cb + owed_by cb)%nat by lia.
Qed.

Lemma run_replies_setting_up ch n schedule : forall s,
  setting_up ch n s ->
  exists s1, run_replies schedule s = (Return tt, s1) /\ setting_up ch n s1.
Proof.
  induction schedule as [|i rest IH]; intros s Hs; [by exists s |].
  rewrite run_replies_cons.
  destruct (fire_setting_up ch n i s Hs) as (s1 & -> & Hs1).
  by apply IH.
Qed.

Lemma setup_address_setting_up ch n d s :
  setting_up ch n s ->
  (forall a, address d = Some a -> is_Some (Address.queue a)) ->
  exists s1,
    _setup_address d s = (Return tt, s1) /\
    setting_up ch (n + match address d with
                       | Some _ => if is_subscriber d then 1 else 0
                       | None => 0
                       end) s1.
Proof.
  intros Hs Hq. unfold _setup_address.
  destruct (address d) as [a|] eqn:Ha;
    [| exists s; split; [done | by rewrite Nat.add_0_r]].
  destruct (Hq a eq_refl) as [q Hqa].
  set (a' := match Address.routing_key a with
             | Some _ => a
             | None => Address.set_routing_key (Some q) a
             end).
  assert (Hcheck : check_attributes a = Return a').
  { unfold check_attributes, a'. rewrite Hqa. by destruct (Address.routing_key a). }
  unfold mbind, Py_bind, lift. rewrite Hcheck.
  rewrite (setup_exchange_effect (with_address a' d) a' ch s (proj1 Hs) eq_refl).
  destruct (is_default_exchange a').
  - rewrite (setup_queue_effect (with_address a' d) a' ch s (proj1 Hs) eq_refl).
    eexists. split; [done |].
    apply (setting_up_requested ch n _ (then_setup_routing_key (with_address a' d))); setup_side.
  - eexists. split; [done |].
    apply (setting_up_requested ch n _ (then_setup_queue (with_address a' d))); setup_side.
Qed.

Lemma setup_clients_of_setting_up ch cs : forall n s,
  setting_up ch n s ->
  Forall addresses_have_queues cs ->
  exists s1,
    setup_clients_of cs s = (Return tt, s1) /\
    setting_up ch (n + length (subscribers cs)) s1.
Proof.
  induction cs as [|c cs IH]; intros n s Hs Hcs.
  - exists s. split; [done |]. by rewrite Nat.add_0_r.
  - apply Forall_cons in Hcs as [[Hpub Hsub] Hcs].
    unfold setup_clients_of. simpl for_each.
    unfold mbind at 1, Py_bind at 1.
    unfold mbind at 1, Py_bind at 1, gets at 1.
    set (c' := set_channel c (SetupHelper._channel (helper s))).
    destruct (setup_address_setting_up ch n
                {| address := Client.publisher_address c'; client := c';
                   is_subscriber := false |} s Hs) as (s1 & E1 & Hs1).
    { intros a Ha. apply Hpub. by destruct c. }
    rewrite (bind_return _ _ _ _ _ E1).
    destruct (setup_address_setting_up ch _
                {| address := Client.subscriber_address c'; client := c';
                   is_subscriber := true |} s1 Hs1) as (s2 & E2 & Hs2).
    { intros a Ha. apply Hsub. by destruct c. }
    assert (Hadd : Client.subscriber_address c' = Client.subscriber_address c)
      by (by destruct c).
    assert (Hpadd : Client.publisher_address c' = Client.publisher_address c)
      by (by destruct c).
    cbv beta. simpl address in E2, Hs2. rewrite ?Hadd in E2. rewrite E2.
    destruct (IH _ s2 Hs2 Hcs) as (s3 & E3 & Hs3).
    exists s3. split; [exact E3 |].
    simpl in Hs3. rewrite ?Hadd, ?Hpadd in Hs3.
    unfold subscribers in *. rewrite filter_cons.
    destruct (Client.subscriber_address c) as [sa|] eqn:Hsa.
    + rewrite decide_True by eauto. simpl.
      destruct (Client.publisher_address c);
        match goal with H : setting_up _ ?m _ |- setting_up _ ?k _ =>
          by replace k with m by lia end.
    + rewrite decide_False by apply is_Some_None.
      destruct (Client.publisher_address c);
        match goal with H : setting_up _ ?m _ |- setting_up _ ?k _ =>
          by replace k with m by lia end.
Qed.

(** X16: the set-up records one consumer tag per subscribing client.  From
    the opening of the channel, with every address having a queue, the
    replies may arrive in any order and number: every callback returns, the
    recorded tags stay distinct, and once no reply is outstanding there is
    exactly one tag for each client that has a subscriber address. *)
Theorem setup_records_one_tag_per_subscriber
    (s : State) (ch : ChanRef) (schedule : list nat) :
  pending s = [] ->
  SetupHelper._consumer_tags (helper s) = [] ->
  Forall addresses_have_queues (SetupHelper.clients (helper s)) ->
  let r := (_setup_channel_callback_body ch;; run_replies schedule) s in
  let tags := SetupHelper._consumer_tags (helper r.2) in
  let n := length (subscribers (SetupHelper.clients (helper s))) in
  r.1 = Return tt /\
  NoDup tags /\
  (length tags <= n)%nat /\
  (pending r.2 = [] -> length tags = n).
Proof.
  intros Hp Ht Hcs r tags n.
  set (s0 := over_helper (over_helper_channel (fun _ => Some ch)) s).
  assert (Hs0 : setting_up ch 0 s0).
  { subst s0.
    destruct s as [tr cs chs pend cons ts lr nt mg ome [cl hc hch tg closed_] cmg].
    unfold setting_up. simpl in *. subst.
    repeat split; try done; constructor. }
  assert (Hcl : SetupHelper.clients (helper s0) = SetupHelper.clients (helper s)).
  { subst s0. by destruct s as [? ? ? ? ? ? ? ? ? ? [] ?]. }
  destruct (setup_clients_of_setting_up ch (SetupHelper.clients (helper s0)) 0 s0 Hs0)
    as (s1 & E1 & Hs1); [by rewrite Hcl |].
  destruct (run_replies_setting_up ch _ schedule s1 Hs1) as (s2 & E2 & Hs2).
  assert (Hr : r = (Return tt, s2)).
  { subst r. unfold _setup_channel_callback_body.
    unfold mbind at 1, Py_bind at 1. unfold mbind at 1, Py_bind at 1, modify.
    fold s0.
    unfold _setup_clients, mbind at 1, Py_bind at 1, gets at 1.
    fold (setup_clients_of (SetupHelper.clients (helper s0))).
    by rewrite E1. }
  subst tags n. rewrite Hr. simpl.
  rewrite Hcl in Hs2. destruct Hs2 as (_ & _ & Hn & Hnd & _).
  simpl in Hn. repeat split; [done | lia |].
  intros Hq. rewrite Hq in Hn. simpl in Hn. lia.
Qed.

(** ** setup_helper.py: the set-up comes to an end *)

Lemma winding_mono ch c w w' s :
  winding ch c w s -> (w <= w')%nat -> winding ch c w' s.
Proof. intros (? & ? & ? & ? & ?) ?. repeat split; try done. lia. Qed.

Lemma winding_requested ch c w m cb s :
  winding ch c w s ->
  (forall tag, m <> basic_cancel tag) ->
  setup_callback_for cb ->
  winding ch c (w + replies_left cb) (requested ch m cb s).
Proof.
  intros (Hch & Hc & Hk & Hall & Hw) Hm Hcb.
  destruct s as [tr cs chs pend cons ts lr nt mg ome hl cmg].
  unfold winding, requested. simpl in *.
  repeat split; try done.
  - apply Forall_app. split; [done |]. by repeat constructor.
  - rewrite sum_list_with_app. simpl. lia.
Qed.

Lemma winding_consuming ch c w q data s :
  winding ch c w s -> winding ch c w (consuming ch q data s).
Proof.
  intros (Hch & Hc & Hk & Hall & Hw).
  by destruct s as [tr cs chs pend cons ts lr nt mg ome [cl hc hch tags closed_] cmg].
Qed.

Lemma setup_routing_key_callback_body_winding ch c w d s :
  winding ch c w s ->
  is_Some (address d) ->
  exists s1,
    _setup_routing_key_callback_body d s = (Return tt, s1) /\
    winding ch c (w + 1) s1.
Proof.
  intros Hs Ha. unfold _setup_routing_key_callback_body.
  destruct (is_subscriber d) eqn:Hsub; cbn [negb].
  - rewrite (setup_qos_effect d ch s (proj1 Hs)). eexists. split; [done |].
    apply (winding_requested ch c w _ (then_setup_message_callback d)); setup_side.
  - exists s. split; [done |]. eapply winding_mono; [done | lia].
Qed.

(** Every callback of the set-up leaves fewer replies to come than it
    stood for. *)
Lemma invoke_winding ch c w cb s :
  winding ch c w s ->
  setup_callback_for cb ->
  exists s1,
    invoke cb method_frame s = (Return tt, s1) /\
    winding ch c (w + replies_left cb - 1) s1.
Proof.
  intros Hs Hcb. pose proof (proj1 Hs) as Hch.
  destruct cb as [| |d|d|d|d|]; try done; simpl in Hcb;
    destruct Hcb as [a Ha]; simpl invoke; simpl replies_left.
  - rewrite (setup_queue_effect d a ch s Hch Ha). eexists. split; [done |].
    replace (w + 4 - 1)%nat with (w + replies_left (then_setup_routing_key d))%nat
      by (simpl; lia).
    apply winding_requested; setup_side.
  - rewrite (setup_routing_key_effect d a ch s Hch Ha).
    destruct (is_default_exchange a).
    + destruct (setup_routing_key_callback_body_winding ch c w d s Hs)
        as (s1 & E & Hs1); [eauto |].
      exists s1. split; [done |]. eapply winding_mono; [done | lia].
    + eexists. split; [done |].
      replace (w + 3 - 1)%nat
        with (w + replies_left (_setup_routing_key_callback d))%nat
        by (simpl; lia).
      apply winding_requested; setup_side.
  - destruct (setup_routing_key_callback_body_winding ch c w d s Hs)
      as (s1 & E & Hs1); [eauto |].
    exists s1. split; [done |]. eapply winding_mono; [done | lia].
  - rewrite (setup_message_callback_effect d a ch s Hch Ha).
    eexists. split; [done |].
    eapply winding_mono; [by apply winding_consuming | lia].
Qed.

Lemma replies_left_pos cb : setup_callback_for cb -> (1 <= replies_left cb)%nat.
Proof. destruct cb; simpl; try done; lia. Qed.

(** A reply that is outstanding brings the end one step nearer. *)
Lemma fire_winding ch c w i s :
  winding ch c w s ->
  (i < length (pending s))%nat ->
  exists s1, fire i s = (Return tt, s1) /\ winding ch c (w - 1) s1.
Proof.
  intros Hs Hi. unfold fire, mbind at 1, Py_bind at 1, gets.
  destruct (lookup_lt_is_Some_2 _ _ Hi) as [p Hp]. rewrite Hp.
  destruct Hs as (Hch & Hc & Hk & Hall & Hw).
  pose proof (proj1 (Forall_lookup _ _) Hall i p Hp) as Hrep.
  destruct p as [| |ch' m cb]; try done. destruct Hrep as [Hm Hcb].
  unfold mbind at 1, Py_bind at 1, modify.
  pose proof (delete_Permutation _ _ _ Hp) as Hperm.
  assert (Hsum : sum_list_with replies_owed (pending s)
                 = (replies_left cb
                    + sum_list_with replies_owed (delete i (pending s)))%nat).
  { by rewrite Hperm at 1. }
  pose proof (replies_left_pos cb Hcb) as Hpos.
  assert (Hdel : winding ch c (w - replies_left cb) (over_pending (delete i) s)).
  { destruct s as [tr cs chs pend cons ts lr nt mg ome hl cmg].
    unfold winding. simpl in *.
    repeat split; try done; [by apply Forall_delete | lia]. }
  assert (Harr : arrive (method_reply ch' m cb) (over_pending (delete i) s)
                 = invoke cb method_frame (over_pending (delete i) s)).
  { unfold arrive. destruct m; try done. by destruct (Hm consumer_tag). }
  rewrite Harr.
  destruct (invoke_winding ch c _ cb _ Hdel Hcb) as (s1 & E & Hs1).
  exists s1. split; [done |].
  eapply winding_mono; [done | lia].
Qed.

Lemma winding_done ch c s : winding ch c 0 s -> pending s = [].
Proof.
  intros (_ & _ & _ & Hall & Hw).
  destruct (pending s) as [|p rest]; [done |]. exfalso.
  apply Forall_cons in Hall as [Hp _]. simpl in Hw.
  destruct p as [| |ch' m cb]; try done. destruct Hp as [_ Hcb].
  pose proof (replies_left_pos cb Hcb). simpl in Hw. lia.
Qed.

(** Taken in the order of the requests, [w] replies are enough. *)
Lemma run_replies_winding ch c k : forall w s,
  winding ch c w s ->
  (w <= k)%nat ->
  exists s1,
    run_replies (replicate k 0%nat) s = (Return tt, s1) /\
    winding ch c 0 s1.
Proof.
  induction k as [|k IH]; intros w s Hs Hk.
  - exists s. split; [done |]. replace w with 0%nat in Hs by lia. done.
  - simpl replicate. rewrite run_replies_cons.
    destruct (pending s) as [|p rest] eqn:Hp.
    + rewrite fire_nothing by (rewrite Hp; simpl; lia).
      apply (IH 0%nat); [| lia].
      destruct Hs as (? & ? & ? & ? & ?). repeat split; try done.
      rewrite Hp. simpl. lia.
    + destruct (fire_winding ch c w 0 s Hs) as (s1 & -> & Hs1);
        [rewrite Hp; simpl; lia |].
      apply (IH (w - 1)%nat); [done | lia].
Qed.

Lemma setup_address_winding ch c w d s :
  winding ch c w s ->
  (forall a, address d = Some a -> is_Some (Address.queue a)) ->
  exists s1, _setup_address d s = (Return tt, s1) /\ winding ch c (w + 4) s1.
Proof.
  intros Hs Hq. unfold _setup_address.
  destruct (address d) as [a|] eqn:Ha;
    [| exists s; split; [done | eapply winding_mono; [done | lia]]].
  destruct (Hq a eq_refl) as [q Hqa].
  set (a' := match Address.routing_key a with
             | Some _ => a
             | None => Address.set_routing_key (Some q) a
             end).
  assert (Hcheck : check_attributes a = Return a').
  { unfold check_attributes, a'. rewrite Hqa. by destruct (Address.routing_key a). }
  unfold mbind, Py_bind, lift. rewrite Hcheck.
  rewrite (setup_exchange_effect (with_address a' d) a' ch s (proj1 Hs) eq_refl).
  destruct (is_default_exchange a').
  - rewrite (setup_queue_effect (with_address a' d) a' ch s (proj1 Hs) eq_refl).
    eexists. split; [done |].
    eapply winding_mono;
      [apply (winding_requested ch c w _ (then_setup_routing_key (with_address a' d)));
       setup_side | simpl; lia].
  - eexists. split; [done |].
    apply (winding_requested ch c w _ (then_setup_queue (with_address a' d)));
      setup_side.
Qed.

Lemma setup_clients_of_winding ch c cs : forall w s,
  winding ch c w s ->
  Forall addresses_have_queues cs ->
  exists s1,
    setup_clients_of cs s = (Return tt, s1) /\
    winding ch c (w + 8 * length cs) s1.
Proof.
  induction cs as [|cl cs IH]; intros w s Hs Hcs.
  - exists s. split; [done |]. eapply winding_mono; [done | lia].
  - apply Forall_cons in Hcs as [[Hpub Hsub] Hcs].
    unfold setup_clients_of. simpl for_each.
    unfold mbind at 1, Py_bind at 1.
    unfold mbind at 1, Py_bind at 1, gets at 1.
    set (c' := set_channel cl (SetupHelper._channel (helper s))).
    destruct (setup_address_winding ch c w
                {| address := Client.publisher_address c'; client := c';
                   is_subscriber := false |} s Hs) as (s1 & E1 & Hs1).
    { intros a Ha. apply Hpub. by destruct cl. }
    rewrite (bind_return _ _ _ _ _ E1).
    destruct (setup_address_winding ch c _
                {| address := Client.subscriber_address c'; client := c';
                   is_subscriber := true |} s1 Hs1) as (s2 & E2 & Hs2).
    { intros a Ha. apply Hsub. by destruct cl. }
    assert (Hadd : Client.subscriber_address c' = Client.subscriber_address cl)
      by (by destruct cl).
    cbv beta. simpl address in E2. rewrite ?Hadd in E2. rewrite E2.
    destruct (IH _ s2 Hs2 Hcs) as (s3 & E3 & Hs3).
    exists s3. split; [exact E3 |].
    eapply winding_mono; [done | simpl; lia].
Qed.

(** The set-up, with the replies in order, from the opening of the channel
    to the running state. *)
Lemma setup_runs_to_end
    (s : State) (ch : ChanRef) (c : ConnRef) :
  pending s = [] ->
  SetupHelper._consumer_tags (helper s) = [] ->
  SetupHelper._connection (helper s) = Some c ->
  SetupHelper._consumer_tags_closed (helper s) = 0%nat ->
  Forall addresses_have_queues (SetupHelper.clients (helper s)) ->
  let clients := SetupHelper.clients (helper s) in
  let r := (_setup_channel_callback_body ch;;
            run_replies (replicate (8 * length clients) 0%nat)) s in
  r.1 = Return tt /\
  pending r.2 = [] /\
  length (SetupHelper._consumer_tags (helper r.2)) = length (subscribers clients) /\
  NoDup (SetupHelper._consumer_tags (helper r.2)) /\
  SetupHelper._channel (helper r.2) = Some ch /\
  SetupHelper._connection (helper r.2) = Some c /\
  SetupHelper._consumer_tags_closed (helper r.2) = 0%nat.
Proof.
  intros Hp Ht Hc Hk Hcs clients r.
  set (s0 := over_helper (over_helper_channel (fun _ => Some ch)) s).
  assert (Hs0 : setting_up ch 0 s0).
  { subst s0.
    destruct s as [tr cs chs pend cons ts lr nt mg ome [cl hc hch tg closed_] cmg].
    unfold setting_up. simpl in *. subst.
    repeat split; try done; constructor. }
  assert (Hw0 : winding ch c 0 s0).
  { subst s0.
    destruct s as [tr cs chs pend cons ts lr nt mg ome [cl hc hch tg closed_] cmg].
    unfold winding. simpl in *. subst.
    repeat split; try done. }
  assert (Hcl : SetupHelper.clients (helper s0) = clients).
  { subst s0 clients. by destruct s as [? ? ? ? ? ? ? ? ? ? [] ?]. }
  destruct (setup_clients_of_setting_up ch clients 0 s0 Hs0 Hcs) as (s1 & E1 & Hs1).
  destruct (setup_clients_of_winding ch c clients 0 s0 Hw0 Hcs) as (s1' & E1' & Hw1).
  rewrite E1 in E1'. injection E1' as <-.
  destruct (run_replies_setting_up ch _ (replicate (8 * length clients) 0%nat) s1 Hs1)
    as (s2 & E2 & Hs2).
  destruct (run_replies_winding ch c (8 * length clients) _ s1 Hw1)
    as (s2' & E2' & Hw2); [lia |].
  rewrite E2 in E2'. injection E2' as <-.
  assert (Hr : r = (Return tt, s2)).
  { subst r. unfold _setup_channel_callback_body.
    unfold mbind at 1, Py_bind at 1. unfold mbind at 1, Py_bind at 1, modify.
    fold s0.
    unfold _setup_clients, mbind at 1, Py_bind at 1, gets at 1.
    rewrite Hcl. fold (setup_clients_of clients).
    by rewrite E1. }
  rewrite Hr. simpl.
  pose proof (winding_done ch c s2 Hw2) as Hq.
  destruct Hs2 as (Hch2 & _ & Hn & Hnd & _).
  destruct Hw2 as (_ & Hc2 & Hk2 & _ & _).
  rewrite Hq in Hn. simpl in Hn.
  repeat split; try done. lia.
Qed.

(** X17: the set-up comes to an end.  From the opening of the channel, with
    every address having a queue, eight replies per client taken in the
    order of the requests leave nothing outstanding, and the helper then
    holds exactly one consumer tag per client with a subscriber address,
    all distinct, with the channel set and no cancellation counted. *)
Theorem setup_completes
    (s : State) (ch : ChanRef) (c : ConnRef) :
  pending s = [] ->
  SetupHelper._consumer_tags (helper s) = [] ->
  SetupHelper._connection (helper s) = Some c ->
  SetupHelper._consumer_tags_closed (helper s) = 0%nat ->
  Forall addresses_have_queues (SetupHelper.clients (helper s)) ->
  let clients := SetupHelper.clients (helper s) in
  let r := (_setup_channel_callback_body ch;;
            run_replies (replicate (8 * length clients) 0%nat)) s in
  r.1 = Return tt /\
  pending r.2 = [] /\
  length (SetupHelper._consumer_tags (helper r.2)) = length (subscribers clients) /\
  NoDup (SetupHelper._consumer_tags (helper r.2)) /\
  SetupHelper._channel (helper r.2) = Some ch /\
  SetupHelper._connection (helper r.2) = Some c /\
  SetupHelper._consumer_tags_closed (helper r.2) = 0%nat.
Proof. exact (setup_runs_to_end s ch c). Qed.

(** X18: a whole life of the helper.  After a set-up that came to its end
    with at least one subscribing client, [tear_down] cancels every recorded
    consumer; in whatever order the cancellations are confirmed, all
    callbacks return, the close sequence is made once, after the last
    cancel request, and nothing is left outstanding. *)
Theorem setup_then_tear_down
    (s : State) (ch : ChanRef) (c : ConnRef) (schedule : list nat) :
  pending s = [] ->
  SetupHelper._consumer_tags (helper s) = [] ->
  SetupHelper._connection (helper s) = Some c ->
  SetupHelper._consumer_tags_closed (helper s) = 0%nat ->
  Forall addresses_have_queues (SetupHelper.clients (helper s)) ->
  let clients := SetupHelper.clients (helper s) in
  (1 <= length (subscribers clients))%nat ->
  complete_schedule (length (subscribers clients)) schedule ->
  let running := ((_setup_channel_callback_body ch;;
                   run_replies (replicate (8 * length clients) 0%nat)) s).2 in
  let r := (tear_down;; run_replies schedule) running in
  r.1 = Return tt /\
  pending r.2 = [] /\
  trace r.2
  = trace running
    ++ map (cancel_request ch) (SetupHelper._consumer_tags (helper running))
    ++ closing_calls ch c.
Proof.
  intros Hp Ht Hc Hk Hcs clients Hn Hsched running r.
  destruct (setup_runs_to_end s ch c Hp Ht Hc Hk Hcs)
    as (_ & Hq & Hlen & _ & Hch' & Hc' & Hk').
  fold clients in Hq, Hlen, Hch', Hc', Hk'. fold running in Hq, Hlen, Hch', Hc', Hk'.
  subst r. unfold mbind, Py_bind.
  rewrite (tear_down_effect running ch Hch').
  set (tags := SetupHelper._consumer_tags (helper running)) in *.
  set (s0 := over_pending _ _).
  assert (Hp0 : pending s0 = map (cancel_reply ch) tags).
  { subst s0. destruct running. simpl in *. by subst. }
  assert (Hj : joining (length (subscribers clients)) 0 ch c s0).
  { unfold joining. rewrite Hp0, length_map.
    subst s0 tags. destruct running. simpl in *.
    repeat split; try done; try lia.
    apply Forall_forall. intros p Hin.
    apply list_elem_of_fmap in Hin as (tag & -> & _). eauto. }
  assert (Hs0 : complete_schedule (length (pending s0)) schedule).
  { by rewrite Hp0, length_map, Hlen. }
  pose proof (complete_schedule_length _ _ Hsched) as Hl.
  destruct (run_replies_joining_all _ ch c schedule s0 0 Hj Hs0)
    as (H1 & H2 & _ & H4).
  { intros ->. simpl in Hl. lia. }
  repeat split; [done | done |].
  rewrite H2. subst s0. destruct running. simpl. by rewrite <- app_assoc.
Qed.

Section start_properties.
Context {ext : Externals}.

(** X19: [start] only asks for the connection.  With no connection yet and
    the parameters resolvable, it returns with one connection requested and
    the loop running; the helper is as it was: no channel, exchange or queue
    is touched before the broker answers. *)
Theorem start_only_requests_connection
    (s : State) (p : ConnectionParameters) :
  ConnectionManager.__connection (manager s) = None ->
  (get_connection_parameters s).1 = Return p ->
  let c := length (connections s) in
  let r := start s in
  r.1 = Return tt /\
  trace r.2
  = trace s ++ [new_event_loop; set_event_loop]
    ++ (if loop_running s then [] else [new_event_loop])
    ++ [set_event_loop; AsyncioConnection c p (Some setup_callback);
        ioloop_run_forever c] /\
  pending r.2 = pending s ++ [connection_opening c (Some setup_callback)] /\
  helper r.2 = helper s /\
  channels r.2 = channels s /\
  loop_running r.2 = true /\
  ClientManager._connection (client_manager r.2) = Some c.
Proof.
  intros Hc Hp c r.
  set (cb := Some {| callable_name := setup_callback;
                     callable_body := setup_callback_body |}).
  set (s1 := over_trace (fun t => t ++ [new_event_loop; set_event_loop]) s).
  assert (Hc1 : ConnectionManager.__connection (manager s1) = None)
    by (subst s1; by destruct s).
  assert (Hp1 : (get_connection_parameters s1).1 = Return p).
  { rewrite (get_connection_parameters_outcome s1 s); [done |].
    subst s1. by destruct s. }
  assert (E : setup s = get_connection cb s1).
  { unfold setup, mbind, Py_bind, emit, modify. subst s1.
    by rewrite over_trace_app. }
  pose proof (get_connection_creates s1 cb p Hc1 Hp1) as G.
  cbv zeta in G. rewrite <- E in G.
  assert (Hl : length (connections s1) = c) by (subst s1 c; by destruct s).
  rewrite Hl in G.
  subst r. unfold start.
  rewrite (bind_return _ _ _ _ _ G).
  unfold mbind, Py_bind, modify, attr_of, pika_ioloop_run_forever, emit,
    mret, Py_ret.
  cbn [fst snd].
  assert (Ht : trace s1 = trace s ++ [new_event_loop; set_event_loop])
    by (subst s1; by destruct s).
  assert (Hr : loop_running s1 = loop_running s) by (subst s1; by destruct s).
  assert (Hq : pending s1 = pending s) by (subst s1; by destruct s).
  assert (Hh : helper s1 = helper s) by (subst s1; by destruct s).
  assert (Hch : channels s1 = channels s) by (subst s1; by destruct s).
  rewrite <- Hq, <- Hh, <- Hch, <- Hr.
  replace (trace s ++ [new_event_loop; set_event_loop] ++
           (if loop_running s1 then [] else [new_event_loop]) ++
           [set_event_loop; AsyncioConnection c p (Some setup_callback);
            ioloop_run_forever c])
    with ((trace s1 ++ (if loop_running s1 then [] else [new_event_loop]) ++
           [set_event_loop; AsyncioConnection c p (Some setup_callback)])
          ++ [ioloop_run_forever c]).
  2:{ rewrite Ht, <- !app_assoc. simpl. by destruct (loop_running s1). }
  clearbody s1. clear. by destruct s1.
Qed.

End start_properties.

Lemma mixed_clients_have_queues : Forall addresses_have_queues mixed_clients.
Proof.
  unfold mixed_clients.
  repeat (apply Forall_cons_2;
          [split; intros a H; vm_compute in H;
           first [discriminate H | injection H as <-; by eexists] |]).
  apply Forall_nil_2.
Qed.

Lemma setup_clients_stops_at_missing_queue_witness :
  _setup_clients before_bad_client
  = match setup_clients_of [both_ways] before_bad_client with
    | (Return _, s1) =>
        (Raise (Exc AttributeError "Missing `queue` attribute" None), s1)
    | (Raise e, s1) => (Raise e, s1)
    end.
Proof.
  apply (setup_clients_stops_at_missing_queue before_bad_client [both_ways]
           [publisher_only] publisher_without_queue no_queue);
    vm_compute; reflexivity.
Defined.

Lemma setup_records_one_tag_per_subscriber_witness :
  let r := (_setup_channel_callback_body 0%nat;; run_replies [0; 3; 1; 0; 2]%nat)
             (channel_opening_for mixed_clients) in
  let tags := SetupHelper._consumer_tags (helper r.2) in
  r.1 = Return tt /\
  NoDup tags /\
  (length tags <= 2)%nat /\
  (pending r.2 = [] -> length tags = 2%nat).
Proof.
  apply (setup_records_one_tag_per_subscriber (channel_opening_for mixed_clients)
           0%nat [0; 3; 1; 0; 2]%nat).
  - vm_compute. reflexivity.
  - vm_compute. reflexivity.
  - replace (SetupHelper.clients (helper (channel_opening_for mixed_clients)))
      with mixed_clients by (vm_compute; reflexivity).
    exact mixed_clients_have_queues.
Defined.

Lemma setup_completes_witness :
  let r := (_setup_channel_callback_body 0%nat;; run_replies (replicate 24 0%nat))
             (channel_opening_for mixed_clients) in
  r.1 = Return tt /\
  pending r.2 = [] /\
  length (SetupHelper._consumer_tags (helper r.2)) = 2%nat /\
  NoDup (SetupHelper._consumer_tags (helper r.2)) /\
  SetupHelper._channel (helper r.2) = Some 0%nat /\
  SetupHelper._connection (helper r.2) = Some 0%nat /\
  SetupHelper._consumer_tags_closed (helper r.2) = 0%nat.
Proof.
  apply (setup_completes (channel_opening_for mixed_clients) 0%nat 0%nat).
  - vm_compute. reflexivity.
  - vm_compute. reflexivity.
  - vm_compute. reflexivity.
  - vm_compute. reflexivity.
  - replace (SetupHelper.clients (helper (channel_opening_for mixed_clients)))
      with mixed_clients by (vm_compute; reflexivity).
    exact mixed_clients_have_queues.
Defined.

Lemma setup_then_tear_down_witness :
  let running := ((_setup_channel_callback_body 0%nat;;
                   run_replies (replicate 24 0%nat))
                    (channel_opening_for mixed_clients)).2 in
  let r := (tear_down;; run_replies [1; 0]%nat) running in
  r.1 = Return tt /\
  pending r.2 = [] /\
  trace r.2
  = trace running
    ++ map (cancel_request 0%nat) (SetupHelper._consumer_tags (helper running))
    ++ closing_calls 0%nat 0%nat.
Proof.
  apply (setup_then_tear_down (channel_opening_for mixed_clients) 0%nat 0%nat
           [1; 0]%nat).
  - vm_compute. reflexivity.
  - vm_compute. reflexivity.
  - vm_compute. reflexivity.
  - vm_compute. reflexivity.
  - replace (SetupHelper.clients (helper (channel_opening_for mixed_clients)))
      with mixed_clients by (vm_compute; reflexivity).
    exact mixed_clients_have_queues.
  - vm_compute. lia.
  - vm_compute. lia.
Defined.

Lemma start_only_requests_connection_witness :
  let r := start (ext := sample_externals) (initial_state []) in
  r.1 = Return tt /\
  trace r.2
  = [new_event_loop; set_event_loop; new_event_loop; set_event_loop;
     AsyncioConnection 0%nat localhost (Some setup_callback);
     ioloop_run_forever 0%nat] /\
  pending r.2 = [connection_opening 0%nat (Some setup_callback)] /\
  helper r.2 = helper (initial_state []) /\
  channels r.2 = [] /\
  loop_running r.2 = true /\
  ClientManager._connection (client_manager r.2) = Some 0%nat.
Proof.
  apply (start_only_requests_connection (ext := sample_externals)
           (initial_state []) localhost);
    reflexivity.
Defined.

(** ** app_settings.py: the typed getters *)

Section app_settings_properties.
Variables (V : Type) (is_str : V -> bool) (str : V -> string).
Variables (cls : AppSettings.t) (getter : string -> string -> Result V)
  (param : string).

(** X20: before [setup] has read the file, a getter called without a
    default raises [RuntimeError] without asking the parser and without
    writing anything. *)
Theorem get_any_uninitialized_without_default :
  AppSettings._initialized_parser cls = false ->
  exists text,
    _get_any V is_str str cls getter param None
    = (Raise (Exc RuntimeError text None), []).
Proof.
  intros H. unfold _get_any, _check_setup. rewrite H. simpl. eauto.
Qed.

(** X21: the environment's own section comes first, the global section
    second.  When the getter may run (the file was read, or a default is
    given), a value of the environment's section is the answer whatever the
    global section and the default are; the global section is asked only
    when the environment's section raised [NoSectionError] or
    [NoOptionError], and its value is then the answer. *)
Theorem get_any_reads_local_then_global (default : option V) (v : V) :
  AppSettings._initialized_parser cls = true \/ is_Some default ->
  ((getter (AppSettings.environment cls) param) = Return v ->
   (_get_any V is_str str cls getter param default).1 = Return v) /\
  (forall e, (getter (AppSettings.environment cls) param) = Raise e -> is_lookup_error e = true ->
   (getter (AppSettings.global_environment cls) param) = Return v ->
   (_get_any V is_str str cls getter param default).1 = Return v).
Proof.
  intros Hok.
  assert (Hcheck : _check_setup V cls default = (Return tt, [])).
  { unfold _check_setup. destruct Hok as [-> | [d ->]]; [done |].
    by destruct (negb _). }
  unfold _get_any. rewrite Hcheck.
  unfold _try_to_get_local_environment_fallback_to_global, _try_to_get_value.
  split.
  - intros ->. reflexivity.
  - intros e -> He ->. simpl. rewrite He. reflexivity.
Qed.

(** X22: the default stands in for a missing key, and for nothing else
    than that.  When both sections raise [NoSectionError] or
    [NoOptionError], a getter with a default returns the default and one
    without raises [NoOptionError]; a getter with a default never raises
    either of the two. *)
Theorem get_any_default_for_missing_key (default : option V) :
  (forall e e', (getter (AppSettings.environment cls) param) = Raise e -> is_lookup_error e = true ->
     (getter (AppSettings.global_environment cls) param) = Raise e' -> is_lookup_error e' = true ->
     match default with
     | Some d => (_get_any V is_str str cls getter param default).1 = Return d
     | None =>
         AppSettings._initialized_parser cls = true ->
         exists text,
           (_get_any V is_str str cls getter param default).1
           = Raise (Exc NoOptionError text None)
     end) /\
  (forall e, is_Some default ->
     (_get_any V is_str str cls getter param default).1 = Raise e ->
     is_lookup_error e = false).
Proof.
  split.
  - intros e e' Hl He Hg He'.
    unfold _get_any, _check_setup,
      _try_to_get_local_environment_fallback_to_global, _try_to_get_value.
    rewrite Hl, Hg.
    destruct default as [d|].
    + destruct (negb _); simpl; rewrite He, He'; reflexivity.
    + intros ->. simpl. rewrite He, He'. simpl. eauto.
  - intros e [d ->].
    unfold _get_any, _check_setup,
      _try_to_get_local_environment_fallback_to_global, _try_to_get_value.
    destruct (negb _); simpl;
      destruct (getter (AppSettings.environment cls) param) as [v|e1]; simpl; try done;
      destruct (is_lookup_error e1) eqn:H1; simpl;
      try (rewrite H1; intros [= <-]; done);
      destruct (getter (AppSettings.global_environment cls) param) as [v|e2]; simpl; try done;
      destruct (is_lookup_error e2) eqn:H2; simpl; try done;
      rewrite ?H2; simpl; try done; intros [= <-]; done.
Qed.

(** X23: a default does not cover a value that is there and wrong.  An
    exception of the environment's section other than [NoSectionError] and
    [NoOptionError] (a [ValueError] of [getint], an error of the
    interpolation) is raised as it is, default or not, with nothing written,
    and the global section is not asked; the same holds for such an
    exception of the global section. *)
Theorem get_any_other_errors_pass (default : option V) (e : PyException) :
  AppSettings._initialized_parser cls = true \/ is_Some default ->
  is_lookup_error e = false ->
  ((getter (AppSettings.environment cls) param) = Raise e ->
   _get_any V is_str str cls getter param default = (Raise e, [])) /\
  (forall e0, (getter (AppSettings.environment cls) param) = Raise e0 -> is_lookup_error e0 = true ->
   (getter (AppSettings.global_environment cls) param) = Raise e ->
   _get_any V is_str str cls getter param default = (Raise e, [])).
Proof.
  intros Hok He.
  assert (Hcheck : _check_setup V cls default = (Return tt, [])).
  { unfold _check_setup. destruct Hok as [-> | [d ->]]; [done |].
    by destruct (negb _). }
  unfold _get_any. rewrite Hcheck.
  unfold _try_to_get_local_environment_fallback_to_global, _try_to_get_value.
  split.
  - intros ->. simpl. rewrite He. simpl. by rewrite He.
  - intros e0 -> He0 ->. simpl. rewrite He0. simpl. rewrite He. simpl.
    by rewrite He.
Qed.

End app_settings_properties.

Section settings_in_use.
Variables (lib : Externals) (str_int : Z -> string) (cls : AppSettings.t)
  (parser_get : string -> string -> Result string)
  (parser_getint : string -> string -> Result Z).

(** X24: the application id of a published message.  With the settings
    read through [AppSettings], the first [publish] of a client (of a
    message that is a [str] or that [json.dumps] prints) stamps the message
    with the [rabbitmq_app_id] of the environment's section, else with that
    of the global section; when the key is in neither section it stamps
    [Unknown], even before [setup] has read the file; the content type is
    [application/json] in every case. *)
Theorem publish_application_id
    (self : Client.t) (publisher subscriber : Address.t) (ch : ChanRef)
    (message : Message) (body : string) (s : State) :
  let ext := with_settings lib str_int cls parser_get parser_getint in
  let local := parser_get (AppSettings.environment cls) "rabbitmq_app_id" in
  let global := parser_get (AppSettings.global_environment cls) "rabbitmq_app_id" in
  Client.publisher_address self = Some publisher ->
  Client.subscriber_address self = Some subscriber ->
  Client._channel self = Some ch ->
  Client._publish_properties self = None ->
  message_text (ext := lib) message = Return body ->
  forall app,
    local = Return app \/
    (exists e, local = Raise e /\ is_lookup_error e = true /\
               global = Return app) \/
    (exists e e', local = Raise e /\ is_lookup_error e = true /\
                  global = Raise e' /\ is_lookup_error e' = true /\
                  app = "Unknown") ->
    let props := {| app_id := Some app; content_type := Some "application/json" |} in
    publish (ext := ext) self message s
    = (Return (Client.with_publish_properties (Some props) self),
       over_trace (fun t =>
           t ++ [logging_debug (Publishing_message_at (Address.queue subscriber));
                 channel ch (basic_publish (Address.exchange publisher)
                               (Address.routing_key publisher) body props)]) s).
Proof.
  intros ext local global Hp Hs Hc Hpp Hbody app Happ props.
  apply (publish_effect (ext := ext) self _ publisher subscriber ch props
           message body s Hp Hs Hc); [| by destruct message].
  unfold _get_publish_properties. rewrite Hpp.
  unfold mbind, Py_bind, lift, mret, Py_ret. simpl.
  unfold get_str, _get_any, _check_setup,
    _try_to_get_local_environment_fallback_to_global, _try_to_get_value.
  fold local global.
  destruct Happ as [-> | [(e & -> & He & ->) | (e & e' & -> & He & -> & He' & ->)]].
  - by destruct (negb _).
  - destruct (negb _); simpl; by rewrite He.
  - destruct (negb _); simpl; by rewrite He, He'.
Qed.

(** X25: no connection without settings.  With the settings read through
    [AppSettings], no parameters set by hand and the file not read,
    [get_connection] raises the [RuntimeError] of the first getter: no
    connection object is made and the callback is neither called nor
    kept. *)
Theorem get_connection_before_settings_setup
    (s : State) (cb : option (Callable ConnRef)) :
  let ext := with_settings lib str_int cls parser_get parser_getint in
  AppSettings._initialized_parser cls = false ->
  ConnectionManager.connection_parameters (manager s) = None ->
  ConnectionManager.__connection (manager s) = None ->
  exists e,
    exc_class e = RuntimeError /\
    get_connection (ext := ext) cb s
    = (Raise e,
       over_trace (fun t => t ++ (if loop_running s then [] else [new_event_loop])
                              ++ [set_event_loop]) s).
Proof.
  intros ext Hinit Hparams Hc.
  eexists (Exc RuntimeError _ None). split; [reflexivity |].
  apply (get_connection_fails (ext := ext) s cb _ Hc).
  unfold get_connection_parameters, mbind, Py_bind, gets, lift. rewrite Hparams.
  simpl. unfold get_str, _get_any, _check_setup. rewrite Hinit. reflexivity.
Qed.

End settings_in_use.

Lemma get_any_uninitialized_without_default_witness :
  exists text,
    get_str unread_settings empty_parser "rabbitmq_host" None
    = (Raise (Exc RuntimeError text None), []).
Proof.
  apply (get_any_uninitialized_without_default string (fun _ => true) id
           unread_settings empty_parser "rabbitmq_host").
  reflexivity.
Defined.

Lemma get_any_reads_local_then_global_witness :
  (get_str (read_settings "production") sample_parser_get "rabbitmq_host"
     (Some "localhost")).1 = Return "broker" /\
  (get_str (read_settings "development") sample_parser_get "rabbitmq_app_id"
     None).1 = Return "tpf".
Proof.
  split.
  - apply (get_any_reads_local_then_global string (fun _ => true) id
             (read_settings "production") sample_parser_get "rabbitmq_host"
             (Some "localhost") "broker"); [left |]; reflexivity.
  - apply (proj2 (get_any_reads_local_then_global string (fun _ => true) id
                    (read_settings "development") sample_parser_get
                    "rabbitmq_app_id" None "tpf" (or_introl eq_refl))
             (Exc NoSectionError "No section: 'development'" None));
      reflexivity.
Defined.

Lemma get_any_default_for_missing_key_witness :
  (get_str (read_settings "development") sample_parser_get "rabbitmq_host"
     (Some "localhost")).1 = Return "localhost".
Proof.
  apply (proj1 (get_any_default_for_missing_key string (fun _ => true) id
                  (read_settings "development") sample_parser_get
                  "rabbitmq_host" (Some "localhost"))
           (Exc NoSectionError "No section: 'development'" None)
           (Exc NoOptionError "No option 'rabbitmq_host' in section: 'DEFAULT'" None));
    reflexivity.
Defined.

Lemma get_any_other_errors_pass_witness :
  get_int str_of_int (read_settings "production") sample_parser_getint
    "rabbitmq_port" (Some 5672)
  = (Raise (Exc ValueError "invalid literal for int() with base 10: 'amqp'" None),
     []).
Proof.
  apply (get_any_other_errors_pass Z (fun _ => false) str_of_int
           (read_settings "production") sample_parser_getint "rabbitmq_port"
           (Some 5672)
           (Exc ValueError "invalid literal for int() with base 10: 'amqp'" None));
    [left | |]; reflexivity.
Defined.

Lemma publish_application_id_witness :
  let props := {| app_id := Some "Unknown";
                  content_type := Some "application/json" |} in
  publish (ext := with_settings sample_externals str_of_int unread_settings
                    empty_parser empty_parser)
    connected (JObject []) channel_open
  = (Return (Client.with_publish_properties (Some props) connected),
     over_trace (fun t =>
         t ++ [logging_debug (Publishing_message_at (Address.queue q1));
               channel 0%nat (basic_publish (Address.exchange q1_at_ex1)
                                (Address.routing_key q1_at_ex1) "{}" props)])
       channel_open).
Proof.
  apply (publish_application_id sample_externals str_of_int unread_settings
           empty_parser empty_parser connected q1_at_ex1 q1 0%nat (JObject [])
           "{}" channel_open eq_refl eq_refl eq_refl eq_refl eq_refl "Unknown").
  right. right.
  exists (Exc NoSectionError "No section: 'development'" None),
         (Exc NoOptionError "No option 'rabbitmq_app_id' in section: 'DEFAULT'" None).
  repeat apply conj; reflexivity.
Defined.

Lemma get_connection_before_settings_setup_witness :
  exists e,
    exc_class e = RuntimeError /\
    get_connection (ext := with_settings sample_externals str_of_int
                             unread_settings empty_parser empty_parser)
      (Some setup_callable) (initial_state [])
    = (Raise e,
       over_trace (fun t => t ++ [new_event_loop] ++ [set_event_loop])
         (initial_state [])).
Proof.
  apply (get_connection_before_settings_setup sample_externals str_of_int
           unread_settings empty_parser empty_parser (initial_state [])
           (Some setup_callable));
    reflexivity.
Defined.

(** ** types.py and client_manager.py: further behaviour *)

(** X26: [check_attributes] is idempotent.  An address that passed the check
    has its routing key set, and checking it again (the same [Address] given
    to two clients, or a second set-up) returns it as it is. *)
Theorem check_attributes_idempotent (a a' : Address.t) :
  check_attributes a = Return a' ->
  check_attributes a' = Return a' /\
  is_Some (Address.routing_key a') /\
  Address.queue a' = Address.queue a.
Proof.
  unfold check_attributes. intros H.
  destruct (Address.queue a) as [q|] eqn:Hq; [| done].
  destruct (Address.routing_key a) as [k|] eqn:Hk; injection H as <-.
  - rewrite Hq, Hk. eauto.
  - destruct a. simpl in *. subst. eauto.
Qed.

(** X27: a client added before [start] is set up with the others.  The
    helper reads the list [add_client] appends to: after [add_client c],
    the set-up run to its end has recorded one consumer tag for each
    subscribing client that was there and one more when [c] subscribes. *)
Theorem add_client_then_setup
    (s : State) (ch : ChanRef) (conn : ConnRef) (c : Client.t) :
  pending s = [] ->
  SetupHelper._consumer_tags (helper s) = [] ->
  SetupHelper._connection (helper s) = Some conn ->
  SetupHelper._consumer_tags_closed (helper s) = 0%nat ->
  Forall addresses_have_queues (SetupHelper.clients (helper s)) ->
  addresses_have_queues c ->
  let before := SetupHelper.clients (helper s) in
  let r := (add_client c;;
            _setup_channel_callback_body ch;;
            run_replies (replicate (8 * S (length before)) 0%nat)) s in
  r.1 = Return tt /\
  pending r.2 = [] /\
  length (SetupHelper._consumer_tags (helper r.2))
  = (length (subscribers before)
     + match Client.subscriber_address c with Some _ => 1 | None => 0 end)%nat.
Proof.
  intros Hp Ht Hc Hk Hcs Hcq before r.
  set (s0 := over_helper (over_helper_clients (fun cs => cs ++ [c])) s).
  assert (Hr : r = (_setup_channel_callback_body ch;;
                    run_replies (replicate (8 * S (length before)) 0%nat)) s0)
    by reflexivity.
  assert (Hcl : SetupHelper.clients (helper s0) = before ++ [c]).
  { subst s0 before. by destruct s as [? ? ? ? ? ? ? ? ? ? [] ?]. }
  destruct (setup_runs_to_end s0 ch conn) as (H1 & H2 & H3 & _).
  - subst s0. by destruct s.
  - subst s0. by destruct s as [? ? ? ? ? ? ? ? ? ? [] ?].
  - subst s0. by destruct s as [? ? ? ? ? ? ? ? ? ? [] ?].
  - subst s0. by destruct s as [? ? ? ? ? ? ? ? ? ? [] ?].
  - rewrite Hcl. apply Forall_app. split; [done |]. by constructor.
  - rewrite Hcl, length_app, Nat.add_1_r in H1, H2, H3.
    rewrite Hr. repeat apply conj; [done | done |].
    rewrite H3. unfold subscribers. rewrite filter_app, length_app.
    f_equal. rewrite filter_cons, filter_nil.
    destruct (decide _) as [Hs|Hs]; destruct (Client.subscriber_address c);
      simpl; try done;
      first [ by apply is_Some_None in Hs | exfalso; apply Hs; eauto ].
Qed.

Lemma check_attributes_idempotent_witness :
  check_attributes (Address.set_routing_key (Some "q1") q1)
  = Return (Address.set_routing_key (Some "q1") q1) /\
  is_Some (Address.routing_key (Address.set_routing_key (Some "q1") q1)) /\
  Address.queue (Address.set_routing_key (Some "q1") q1) = Address.queue q1.
Proof.
  apply (check_attributes_idempotent q1 (Address.set_routing_key (Some "q1") q1)).
  reflexivity.
Defined.

Lemma add_client_then_setup_witness :
  let r := (add_client both_ways;;
            _setup_channel_callback_body 0%nat;;
            run_replies (replicate 24 0%nat))
             (channel_opening_for [subscriber_only 0%nat; publisher_only]) in
  r.1 = Return tt /\
  pending r.2 = [] /\
  length (SetupHelper._consumer_tags (helper r.2)) = 2%nat.
Proof.
  apply (add_client_then_setup
           (channel_opening_for [subscriber_only 0%nat; publisher_only])
           0%nat 0%nat both_ways).
  - vm_compute. reflexivity.
  - vm_compute. reflexivity.
  - vm_compute. reflexivity.
  - vm_compute. reflexivity.
  - replace (SetupHelper.clients
               (helper (channel_opening_for [subscriber_only 0%nat; publisher_only])))
      with [subscriber_only 0%nat; publisher_only] by (vm_compute; reflexivity).
    repeat (apply Forall_cons_2;
            [split; intros a H; vm_compute in H;
             first [discriminate H | injection H as <-; by eexists] |]).
    apply Forall_nil_2.
  - split; intros a H; vm_compute in H; injection H as <-; by eexists.
Defined.
